(** * Exercises.py: marker tracking, calibration and repetition counting

    A shallow embedding of [src/Exercises.py] (Python 2).  Python values
    that reach a run-time type test are kept dynamically typed ([pyval]);
    a raised exception is the left injection of [result]; everything the
    program obtains from OpenCV, ROS, the file system or another thread is
    an explicit input of the function that consumes it. *)

From Stdlib Require Import ZArith QArith Qround String Bool Lia DecimalString.
From stdpp Require Import base tactics option list.

Open Scope string_scope.
Open Scope Z_scope.

(** ** Python values and exceptions *)

Module Py.

(** The exception classes the module raises, with their message. *)
Inductive exn : Type :=
| TypeError (msg : string)
| ValueError (msg : string)
| NameError (msg : string)
| AttributeError (msg : string)
| IndexError (msg : string)
| Exception (msg : string)
| EnvError (msg : string).   (* raised by a library call: IOError, OSError, SystemExit *)

Definition result (A : Type) : Type := exn + A.

Definition raise {A : Type} (e : exn) : result A := inl e.

#[global] Instance result_ret : MRet result := fun _ a => inr a.
#[global] Instance result_bind : MBind result :=
  fun _ _ f m => match m with inl e => inl e | inr a => f a end.

(** Built-in values.  [PyFloat q] is the float whose exact value is [q];
    the non-finite floats behave in every test below like a float that is
    not a whole number. *)
#[warnings="-register-all"]
Inductive pyval : Type :=
| PyNone
| PyBool (b : bool)
| PyInt (n : Z)
| PyLong (n : Z)
| PyFloat (q : Q)
| PyStr (s : string)
| PyTuple (items : list pyval).

(** [v == n] for an [int] [n]: numeric equality across bool, int, long and
    float, [False] for every other type. *)
Definition eq_int (v : pyval) (n : Z) : bool :=
  match v with
  | PyBool b => (if b then 1 else 0) =? n
  | PyInt m | PyLong m => m =? n
  | PyFloat q => Qeq_bool q (inject_Z n)
  | _ => false
  end.

(** [range(lo, hi)] *)
Definition range (lo hi : Z) : list Z :=
  map (fun k => lo + Z.of_nat k) (seq 0 (Z.to_nat (hi - lo))).

(** [v in l] for a list of ints *)
Definition in_ints (v : pyval) (l : list Z) : bool := existsb (eq_int v) l.

(** The numeric value of a number, as used by [==], [-] and [!=]. *)
Definition num (v : pyval) : option Q :=
  match v with
  | PyBool b => Some (inject_Z (if b then 1 else 0))
  | PyInt m | PyLong m => Some (inject_Z m)
  | PyFloat q => Some q
  | _ => None
  end.

(** [v / 2] in Python 2: floor division on the integer types, true
    division on float. *)
Definition div2 (v : pyval) : option Q :=
  match v with
  | PyBool b => Some (inject_Z ((if b then 1 else 0) / 2))
  | PyInt m | PyLong m => Some (inject_Z (m / 2))
  | PyFloat q => Some (q / 2)%Q
  | _ => None
  end.

(** [int(x)] of a float: truncation toward zero. *)
Definition int_of (q : Q) : Z := Z.quot (Qnum q) (Z.pos (Qden q)).

Definition Qltb (a b : Q) : bool := negb (Qle_bool b a).

End Py.
Import Py.

(** ** Enumerations *)

Module Limb.
Definition LEFT_ARM := 0.
Definition RIGHT_ARM := 1.
Definition LEFT_LEG := 2.
Definition RIGHT_LEG := 3.
End Limb.

Module RotationType.
Definition INTERNAL := 0.
Definition EXTERNAL := 1.
End RotationType.

Module MotionType.
Definition FLEXION := 0.
Definition ABDUCTION := 1.
End MotionType.

Module Color.
Definition YELLOW := 0.
Definition BLUE := 1.
Definition BLACK := 2.
End Color.

(** ** Colour tables *)

Definition hsv : Type := Z * Z * Z.

Definition get_hsv_thresholds (color : Z) : result (hsv * hsv) :=
  if color =? Color.BLUE then mret ((110, 50, 50), (130, 255, 255))
  else if color =? Color.BLACK then mret ((60, 15, 0), (105, 170, 110))
  else if color =? Color.YELLOW then mret ((15, 210, 20), (35, 255, 255))
  else raise (ValueError "Unknown or unused color!").

Definition pystr_eqb (v : pyval) (s : string) : bool :=
  match v with PyStr t => String.eqb t s | _ => false end.

Definition string_to_color (color_str : pyval) : result Z :=
  if pystr_eqb color_str "yellow" then mret Color.YELLOW
  else if pystr_eqb color_str "blue" then mret Color.BLUE
  else if pystr_eqb color_str "black" then mret Color.BLACK
  else raise (ValueError "Cannot convert unrecognized string to color type!").

(** ** Threads

    [threading.Thread]: [run] executes on a thread of its own.  An exception
    that escapes [run] is caught by the thread's bootstrap code, which prints
    the traceback and lets the thread end; it is not re-raised in any other
    thread.  The other threads see the outcome through [is_alive] only. *)

Inductive thread (A : Type) : Type :=
| Running (self : A)              (* [run] has not finished *)
| Returned (self : A)             (* [run] returned *)
| Died (e : exn) (self : A).      (* [run] raised [e] *)
Arguments Running {A} self.
Arguments Returned {A} self.
Arguments Died {A} e self.

Definition is_alive {A : Type} (t : thread A) : bool :=
  match t with Running _ => true | _ => false end.

Definition thread_self {A : Type} (t : thread A) : A :=
  match t with Running s | Returned s | Died _ s => s end.

(** ** OpenCV

    The calls into [cv2] are an interface: the image pipeline, the contour
    measures and the capture device are not part of this program. *)

Definition point : Type := Z * Z.

Record Moments : Type := { m00 : Q; m10 : Q; m01 : Q }.

Class OpenCV (frame contour : Type) : Type := {
  GaussianBlur : frame -> frame;                   (* kernel (3, 3), sigma 0 *)
  cvtColor_BGR2HSV : frame -> frame;
  inRange : frame -> hsv -> hsv -> frame;
  dilate : frame -> frame;                         (* kernel None, iterations = 1 *)
  findContours : frame -> list contour;            (* RETR_EXTERNAL, CHAIN_APPROX_SIMPLE, [-2] *)
  contourArea : contour -> Q;
  minEnclosingCircle : contour -> (Q * Q) * Q;
  moments : contour -> Moments;
  circle : frame -> point -> Z -> frame            (* colour [0,255,0] *)
}.

(** [max(l, key=key)] on a non-empty list [c :: l]: the first element whose
    key is largest. *)
Definition max_by {A : Type} (key : A -> Q) (c : A) (l : list A) : A :=
  fold_left (fun best x => if Qltb (key best) (key x) then x else best) l c.

(** [int(round(x))]: Python 2 rounds half away from zero. *)
Definition int_round (x : Q) : Z :=
  if Qle_bool 0 x then Qfloor (x + (1 # 2)) else Qceiling (x - (1 # 2)).

(** ** VideoReader *)

Section VideoReader.
Context {frame contour : Type} `{cv : OpenCV frame contour}.
Variable isfile : string -> bool.      (* os.path.isfile *)

Record VideoReader : Type := {
  _camera_width : Z;
  _camera_height : Z;
  _path_to_video : string;
  _color : Z;
  _center : option point;
  _radius : Q;
  _kill_thread : bool;
  _img_original : option frame;     (* [None]: the attribute does not exist yet *)
  _img_modified : option frame
}.

Definition with_resolution (w h : Z) (r : VideoReader) : VideoReader :=
  {| _camera_width := w; _camera_height := h; _path_to_video := _path_to_video r;
     _color := _color r; _center := _center r; _radius := _radius r;
     _kill_thread := _kill_thread r; _img_original := _img_original r;
     _img_modified := _img_modified r |}.

Definition with_path (p : string) (r : VideoReader) : VideoReader :=
  {| _camera_width := _camera_width r; _camera_height := _camera_height r;
     _path_to_video := p; _color := _color r; _center := _center r;
     _radius := _radius r; _kill_thread := _kill_thread r;
     _img_original := _img_original r; _img_modified := _img_modified r |}.

Definition with_color (c : Z) (r : VideoReader) : VideoReader :=
  {| _camera_width := _camera_width r; _camera_height := _camera_height r;
     _path_to_video := _path_to_video r; _color := c; _center := _center r;
     _radius := _radius r; _kill_thread := _kill_thread r;
     _img_original := _img_original r; _img_modified := _img_modified r |}.

Definition with_center (c : option point) (r : VideoReader) : VideoReader :=
  {| _camera_width := _camera_width r; _camera_height := _camera_height r;
     _path_to_video := _path_to_video r; _color := _color r; _center := c;
     _radius := _radius r; _kill_thread := _kill_thread r;
     _img_original := _img_original r; _img_modified := _img_modified r |}.

Definition with_radius (x : Q) (r : VideoReader) : VideoReader :=
  {| _camera_width := _camera_width r; _camera_height := _camera_height r;
     _path_to_video := _path_to_video r; _color := _color r; _center := _center r;
     _radius := x; _kill_thread := _kill_thread r;
     _img_original := _img_original r; _img_modified := _img_modified r |}.

Definition with_original (f : frame) (r : VideoReader) : VideoReader :=
  {| _camera_width := _camera_width r; _camera_height := _camera_height r;
     _path_to_video := _path_to_video r; _color := _color r; _center := _center r;
     _radius := _radius r; _kill_thread := _kill_thread r;
     _img_original := Some f; _img_modified := _img_modified r |}.

Definition with_modified (f : frame) (r : VideoReader) : VideoReader :=
  {| _camera_width := _camera_width r; _camera_height := _camera_height r;
     _path_to_video := _path_to_video r; _color := _color r; _center := _center r;
     _radius := _radius r; _kill_thread := _kill_thread r;
     _img_original := _img_original r; _img_modified := Some f |}.

Definition set_kill_thread (r : VideoReader) : VideoReader :=
  {| _camera_width := _camera_width r; _camera_height := _camera_height r;
     _path_to_video := _path_to_video r; _color := _color r; _center := _center r;
     _radius := _radius r; _kill_thread := true;
     _img_original := _img_original r; _img_modified := _img_modified r |}.

(** *** Property setters *)

Definition camera_widths : list Z := [320; 424; 640; 848; 960; 1280; 1920].
Definition camera_heights : list Z := [180; 240; 360; 480; 540; 720; 1080].

Definition mem (x : Z) (l : list Z) : bool := existsb (Z.eqb x) l.

(** The three tests of the setter, top to bottom: a tuple of length two,
    whose items both have exactly the type [int] ([type(x) is int], so
    neither [bool] nor [long]), the first in the width list and the second in
    the height list. *)
Definition check_camera_resolution (camera_resolution : pyval) : result (Z * Z) :=
  match camera_resolution with
  | PyTuple [PyInt w; PyInt h] =>
      if negb (mem w camera_widths) || negb (mem h camera_heights)
      then raise (ValueError "Invalid camera resolution!")
      else mret (w, h)
  | PyTuple [_; _] => raise (TypeError "Tuple must only contain integers!")
  | _ => raise (TypeError "camera_resolution argument must be a tuple of two integers!")
  end.

Definition set_camera_resolution (camera_resolution : pyval) (self : VideoReader)
  : result VideoReader :=
  '(w, h) ← check_camera_resolution camera_resolution;
  mret (with_resolution w h self).

Definition set_path_to_video (path_to_video : string) (self : VideoReader)
  : result VideoReader :=
  if String.eqb path_to_video "" || isfile path_to_video
  then mret (with_path path_to_video self)
  else raise (ValueError "Specified video file does not exist!").

Definition check_color (color : pyval) : result Z :=
  match color with
  | PyInt c => if negb (mem c (range 0 3)) then raise (TypeError "Invalid color!") else mret c
  | _ => raise (TypeError "Invalid color!")
  end.

Definition set_color (color : pyval) (self : VideoReader) : result VideoReader :=
  c ← check_color color; mret (with_color c self).

(** [VideoReader.__init__] *)
Definition VideoReader_init (camera_resolution : pyval) (path_to_video : string)
  (color : pyval) : result VideoReader :=
  '(w, h) ← check_camera_resolution camera_resolution;
  let self := {| _camera_width := w; _camera_height := h; _path_to_video := "";
                 _color := 0; _center := None; _radius := 0%Q;
                 _kill_thread := false; _img_original := None;
                 _img_modified := None |} in
  self ← set_path_to_video path_to_video self;
  self ← set_color color self;
  mret self.

(** *** The capture loop *)

Definition MIN_RADIUS : Q := 2%Q.

(** The body of the [while] loop of [run] after a successful read. *)
Definition process_frame (self : VideoReader) (img_original : frame) : result VideoReader :=
  let self := with_original img_original self in
  let img_modified := GaussianBlur img_original in
  let img_modified := cvtColor_BGR2HSV img_modified in
  hsv_thresholds ← get_hsv_thresholds (_color self);
  let img_modified := inRange img_modified (fst hsv_thresholds) (snd hsv_thresholds) in
  let img_modified := dilate img_modified in
  let self := with_modified img_modified self in
  let contours := findContours img_modified in
  let self := with_center None self in
  let self := with_radius 0%Q self in
  let self :=
    match contours with
    | [] => self
    | c0 :: rest =>
        let c := max_by contourArea c0 rest in
        let '((x, y), radius) := minEnclosingCircle c in
        let self := with_radius radius self in
        let M := moments c in
        if Qltb 0 (m00 M) then
          let self := with_center
                        (Some (int_of (m10 M / m00 M), int_of (m01 M / m00 M))) self in
          if Qltb (_radius self) MIN_RADIUS then with_center None self else self
        else self
    end in
  mret match _center self with
       | Some c => with_original (circle img_original c (int_round (_radius self))) self
       | None => self
       end.

(** The mask of a frame: blurred, converted, thresholded, dilated. *)
Definition mask_of (thresholds : hsv * hsv) (img : frame) : frame :=
  dilate (inRange (cvtColor_BGR2HSV (GaussianBlur img)) (fst thresholds) (snd thresholds)).

(** One turn of the loop as the outside world sees it: whether another
    thread has called [set_kill_thread] before the loop test, and what
    [cap.read()] returns ([None] when [rval] is false). *)
Record tick : Type := { kill_requested : bool; frame_read : option frame }.

Fixpoint run_loop (ticks : list tick) (self : VideoReader) : thread VideoReader :=
  match ticks with
  | [] => Running self
  | t :: ticks =>
      let self := if kill_requested t then set_kill_thread self else self in
      if _kill_thread self then Returned self
      else match frame_read t with
           | None => Died (Exception "Failed to get frame from capture device!") self
           | Some img_original =>
               match process_frame self img_original with
               | inl e => Died e (with_original img_original self)
               | inr self => run_loop ticks self
               end
           end
  end.

(** What [run] opens: device 0 or the file. *)
Inductive source : Type := Device (index : Z) | File (path : string).

Definition capture_source (self : VideoReader) : source :=
  if String.eqb (_path_to_video self) "" then Device 0 else File (_path_to_video self).

(** [run]; [isOpened] is the answer of the capture opened on
    [capture_source self]. *)
Definition run (isOpened : source -> bool) (ticks : list tick) (self : VideoReader)
  : thread VideoReader :=
  if negb (isOpened (capture_source self))
  then Died (Exception "Failed to open video capture stream! Aborting...") self
  else run_loop ticks self.

End VideoReader.

(** ** EncouragerUnit *)

Definition str (n : Z) : string := DecimalString.NilZero.string_of_int (Z.to_int n).

Record EncouragerUnit : Type := {
  repetitions : Z;
  repetitions_limit : pyval;
  sentences : list string;
  published : list string          (* what went out on /robot/voice, oldest first *)
}.

Definition publish (s : string) (e : EncouragerUnit) : EncouragerUnit :=
  {| repetitions := repetitions e; repetitions_limit := repetitions_limit e;
     sentences := sentences e; published := published e ++ [s] |}.

Definition say (sentence : string) (e : EncouragerUnit) : EncouragerUnit :=
  publish sentence e.

(** [self.pub.publish(self.sentences[i])] *)
Definition publish_sentence (i : nat) (e : EncouragerUnit) : result EncouragerUnit :=
  match sentences e !! i with
  | Some s => mret (publish s e)
  | None => raise (IndexError "list index out of range")
  end.

(** [n == q] for an int [n] and a number [q] *)
Definition int_eq_num (n : Z) (q : Q) : bool := Qeq_bool (inject_Z n) q.

Definition inc_repetitions_counter (e : EncouragerUnit) : result EncouragerUnit :=
  let e := {| repetitions := repetitions e + 1; repetitions_limit := repetitions_limit e;
              sentences := sentences e; published := published e |} in
  let e := publish (str (repetitions e)) e in
  match div2 (repetitions_limit e), num (repetitions_limit e) with
  | Some half, Some limit =>
      if int_eq_num (repetitions e) half then publish_sentence 0 e
      else if int_eq_num (repetitions e) (limit - 1)%Q then publish_sentence 1 e
      else if int_eq_num (repetitions e) limit then publish_sentence 2 e
      else mret e
  | _, _ => raise (TypeError "unsupported operand type(s) for /")
  end.

(** [EncouragerUnit.__init__]: [ros_up spawn] is the outcome of launching
    the nodes (when asked), [rospy.init_node] and the publisher;
    [readlines] the outcome of reading the sentences file. *)
Definition EncouragerUnit_init (ros_up : bool -> option exn)
  (readlines : result (list string)) (limit : pyval) (spawnRosNodes : bool)
  : result EncouragerUnit :=
  match ros_up spawnRosNodes with
  | Some e => raise e
  | None =>
      lines ← readlines;
      mret {| repetitions := 0; repetitions_limit := limit;
              sentences := lines; published := [] |}
  end.

(** ** Timer

    A thread that sleeps 99 times one hundredth of [seconds].  Time is the
    reading [now] of one clock, in seconds; [sleep] is taken to last exactly
    as long as asked and starting a thread to take no time. *)

Record Timer : Type := { seconds : Z; started_at : Q }.

Definition Timer_sleeps (t : Timer) : list Q :=
  let temp := ((inject_Z (seconds t) * 1) / 100)%Q in
  map (fun _ => temp) (seq 1 99).                  (* xrange(1,100) *)

Definition Timer_run_time (t : Timer) : Q := fold_right Qplus 0%Q (Timer_sleeps t).

Definition Timer_thread (t : Timer) (now : Q) : thread Timer :=
  if Qltb now (started_at t + Timer_run_time t)%Q then Running t else Returned t.

(** ** Classes and instantiation

    [Exercise] has the metaclass [ABCMeta] and declares [calibrate] with
    [@abstractmethod].  [ABCMeta] gives every class the set of abstract
    names it declares or inherits without overriding, and calling a class
    whose set is not empty raises [TypeError] before [__init__] runs. *)

Inductive class : Type := cExercise | cRotationExercise | cSimpleMotionExercise.

Definition class_name (c : class) : string :=
  match c with
  | cExercise => "Exercise"
  | cRotationExercise => "RotationExercise"
  | cSimpleMotionExercise => "SimpleMotionExercise"
  end.

Definition base (c : class) : option class :=
  match c with
  | cExercise => None
  | cRotationExercise | cSimpleMotionExercise => Some cExercise
  end.

(** The names bound in each class body, with whether the binding is
    decorated [@abstractmethod]. *)
Definition namespace (c : class) : list (string * bool) :=
  match c with
  | cExercise =>
      [("__init__", false); ("repetitions_limit", false);
       ("calibration_duration", false); ("limb", false); ("time_limit", false);
       ("calibrate", true); ("start_game", false); ("process_args", false)]
  | cRotationExercise => [("__init__", false); ("rotation_type", false)]
  | cSimpleMotionExercise =>
      [("__init__", false); ("motion_type", false); ("calibrate", false)]
  end.

Definition bound (name : string) (c : class) : bool :=
  existsb (fun b => String.eqb (fst b) name) (namespace c).

(** [cls.__abstractmethods__] as [ABCMeta.__new__] computes it. *)
Definition abstractmethods (c : class) : list string :=
  let own := map fst (List.filter snd (namespace c)) in
  let inherited :=
    match base c with
    | Some b =>
        List.filter (fun name => negb (bound name c))
                    (map fst (List.filter snd (namespace b)))
    | None => []
    end in
  own ++ inherited.

(** [object.__new__(cls)] *)
Definition allocate (c : class) : result unit :=
  match abstractmethods c with
  | [] => mret tt
  | names =>
      raise (TypeError ("Can't instantiate abstract class " ++ class_name c ++
                        " with abstract methods " ++ String.concat ", " names))
  end.

(** ** Exercise *)

(** What [argparse] returns for the five options of [process_args]. *)
Record Namespace : Type := {
  width : pyval;
  height : pyval;
  path_to_video : option string;
  color : pyval;
  spawn_nodes : bool
}.

(** How a call of [calibrate] or [start_game] stands after the turns of its
    loop that were given to it. *)
Inductive outcome (A : Type) : Type :=
| Finished (a : A)        (* the call returned *)
| Pending (a : A)         (* still in the loop after the polls given *)
| Raised (e : exn).
Arguments Finished {A} a.
Arguments Pending {A} a.
Arguments Raised {A} e.

Section Exercise.
Context {frame contour : Type} `{cv : OpenCV frame contour}.
Variable isfile : string -> bool.
Variable parse_args : list string -> result Namespace.
Variable ros_up : bool -> option exn.
Variable readlines : result (list string).

Local Abbreviation VideoReader := (@VideoReader frame).

Record Exercise : Type := {
  _repetitions_limit : pyval;
  _calibration_duration : Z;
  _calibration_points : option (list (option point));  (* [None]: no such attribute *)
  camera_resolution : pyval;
  _limb : Z;
  _time_limit : Z;
  _spawn_nodes : bool;
  _video_reader : VideoReader;
  _encourager : EncouragerUnit;
  _tolerance_x : Z;
  _tolerance_y : Z
}.

(** *** Property setters of the base class *)

Definition check_repetitions_limit (repetitions_limit : pyval) : result pyval :=
  if negb (in_ints repetitions_limit (range 1 100))
  then raise (ValueError "repetitions_limit should be a positive integer value between 1 and 100!")
  else mret repetitions_limit.

Definition check_calibration_duration (calibration_duration : pyval) : result Z :=
  match calibration_duration with
  | PyInt d =>
      if negb (mem d (range 0 30))       (* max. caibration duration: 30 seconds *)
      then raise (ValueError "calibration_duration should be an integer value between 0 and 30!")
      else mret d
  | _ => raise (TypeError "Integer value expected!")
  end.

Definition check_limb (limb : pyval) : result Z :=
  match limb with
  | PyInt l => if negb (mem l (range 0 4)) then raise (TypeError "Invalid limb type!") else mret l
  | _ => raise (TypeError "Invalid limb type!")
  end.

Definition check_time_limit (time_limit : pyval) : result Z :=
  match time_limit with
  | PyInt t =>
      if negb (mem t (range 0 7200))     (* max. time limit: 2 hours *)
      then raise (ValueError "time_limit should be an integer value between 0 and 7200!")
      else mret t
  | _ => raise (TypeError "Integer value expected!")
  end.

(** *** process_args: returns the reader and [_spawn_nodes] it leaves *)
Definition process_args (argv : list string) (reader : VideoReader) (spawn : bool)
  : result (VideoReader * bool) :=
  if (0 <? length argv)%nat then
    args ← parse_args argv;
    reader ← set_camera_resolution (PyTuple [width args; height args]) reader;
    c ← string_to_color (color args);
    reader ← set_color (PyInt c) reader;
    reader ← match path_to_video args with
             | Some p => set_path_to_video isfile p reader
             | None => set_path_to_video isfile "" reader
             end;
    mret (reader, spawn_nodes args)
  else mret (reader, spawn).

(** *** Tolerances (the last lines of [__init__]) *)
Definition tolerances (w h : Z) : Z * Z :=
  let tolerance_x := w / 8 in
  let tolerance_y := h / 8 in
  if w >? 2 * h then (w / 6, tolerance_y)
  else if 2 * w <? h then (tolerance_x, h / 6)
  else (tolerance_x, tolerance_y).

(** *** Exercise.__init__ *)
Record init_args : Type := {
  arg_repetitions_limit : pyval;       (* default 10 *)
  arg_calibration_duration : pyval;    (* default 10 *)
  arg_camera_resolution : pyval;       (* default (640,480) *)
  arg_color : pyval;                   (* default Color.YELLOW *)
  arg_argv : option (list string);     (* default None *)
  arg_limb : pyval;                    (* default Limb.LEFT_ARM *)
  arg_time_limit : pyval;              (* default 0 *)
  arg_path_to_video : string           (* default "" *)
}.

Definition default_args : init_args :=
  {| arg_repetitions_limit := PyInt 10; arg_calibration_duration := PyInt 10;
     arg_camera_resolution := PyTuple [PyInt 640; PyInt 480];
     arg_color := PyInt Color.YELLOW; arg_argv := None;
     arg_limb := PyInt Limb.LEFT_ARM; arg_time_limit := PyInt 0;
     arg_path_to_video := "" |}.

Definition Exercise_init (a : init_args) : result Exercise :=
  limit ← check_repetitions_limit (arg_repetitions_limit a);
  duration ← check_calibration_duration (arg_calibration_duration a);
  let points := if duration >? 0 then Some [] else None in
  limb ← check_limb (arg_limb a);
  time_limit ← check_time_limit (arg_time_limit a);
  let spawn := false in
  reader ← VideoReader_init isfile (arg_camera_resolution a) (arg_path_to_video a)
                            (arg_color a);
  (* reader.start() *)
  '(reader, spawn) ← match arg_argv a with
                     | Some argv => process_args argv reader spawn
                     | None => mret (reader, spawn)
                     end;
  encourager ← EncouragerUnit_init ros_up readlines limit spawn;
  match arg_camera_resolution a with
  | PyTuple [PyInt w; PyInt h] =>
      mret {| _repetitions_limit := limit; _calibration_duration := duration;
              _calibration_points := points;
              camera_resolution := arg_camera_resolution a;
              _limb := limb; _time_limit := time_limit; _spawn_nodes := spawn;
              _video_reader := reader; _encourager := encourager;
              _tolerance_x := fst (tolerances w h);
              _tolerance_y := snd (tolerances w h) |}
  | _ => raise (TypeError "unsupported operand type(s) for /")
  end.

Definition with_points (pts : list (option point)) (ex : Exercise) : Exercise :=
  {| _repetitions_limit := _repetitions_limit ex;
     _calibration_duration := _calibration_duration ex;
     _calibration_points := Some pts; camera_resolution := camera_resolution ex;
     _limb := _limb ex; _time_limit := _time_limit ex;
     _spawn_nodes := _spawn_nodes ex; _video_reader := _video_reader ex;
     _encourager := _encourager ex; _tolerance_x := _tolerance_x ex;
     _tolerance_y := _tolerance_y ex |}.

Definition with_encourager (e : EncouragerUnit) (ex : Exercise) : Exercise :=
  {| _repetitions_limit := _repetitions_limit ex;
     _calibration_duration := _calibration_duration ex;
     _calibration_points := _calibration_points ex;
     camera_resolution := camera_resolution ex;
     _limb := _limb ex; _time_limit := _time_limit ex;
     _spawn_nodes := _spawn_nodes ex; _video_reader := _video_reader ex;
     _encourager := e; _tolerance_x := _tolerance_x ex;
     _tolerance_y := _tolerance_y ex |}.

(** *** The loops of the main thread

    [calibrate] and [start_game] run on the main thread while the capture
    thread runs.  Each turn of their loop is given what it finds: the capture
    thread as it stands (a turn reads it as one snapshot), the clock, and the
    key code [cv2.waitKey(1)] returns. *)

Record poll : Type := { reader : thread VideoReader; now : Q; key : Z }.

(** [cv2.waitKey(1) & 0xFF == ord('q') or not self._video_reader.is_alive()] *)
Definition quits (p : poll) : bool :=
  (Z.land (key p) 255 =? 113) || negb (is_alive (reader p)).

Definition no_attribute (name : string) : exn :=
  AttributeError ("'VideoReader' object has no attribute '" ++ name ++ "'").

(** The two [cv2.imshow] lines: they read both image properties. *)
Definition show_images (p : poll) : result unit :=
  match _img_original (thread_self (reader p)) with
  | None => raise (no_attribute "_img_original")
  | Some _ =>
      match _img_modified (thread_self (reader p)) with
      | None => raise (no_attribute "_img_modified")
      | Some _ => mret tt
      end
  end.

(** *** Exercise.start_game *)

Definition within_tolerance (center target : point) (tolerance_x tolerance_y : Z) : bool :=
  (Z.abs (fst center - fst target) <? tolerance_x)
  && (Z.abs (snd center - snd target) <? tolerance_y).

(** The first statement of the main loop: "check if hand movement
    thresholds have been reached and count repetitions accordingly". *)
Definition count_step (points : list (option point)) (tolerance_x tolerance_y : Z)
  (center : option point) (index : nat) (enc : EncouragerUnit)
  : result (nat * EncouragerUnit) :=
  match center with
  | None => mret (index, enc)
  | Some c =>
      match points !! index with
      | None => raise (IndexError "list index out of range")
      | Some None => raise (TypeError "'NoneType' object has no attribute '__getitem__'")
      | Some (Some target) =>
          if within_tolerance c target tolerance_x tolerance_y then
            let index := S index in
            if (index =? length points)%nat then
              enc ← inc_repetitions_counter enc; mret (0%nat, enc)
            else mret (index, enc)
          else mret (index, enc)
      end
  end.

Record game : Type := { index : nat; encourager : EncouragerUnit; kill_sent : bool }.

(** [repetitions != repetitions_limit] *)
Definition limit_not_reached (e : EncouragerUnit) : bool :=
  match num (repetitions_limit e) with
  | Some limit => negb (int_eq_num (repetitions e) limit)
  | None => true
  end.

Fixpoint game_loop (points : list (option point)) (tolerance_x tolerance_y : Z)
  (polls : list poll) (st : game) : outcome game :=
  if negb (limit_not_reached (encourager st)) then Finished st
  else
    match polls with
    | [] => Pending st
    | p :: polls =>
        match count_step points tolerance_x tolerance_y
                         (_center (thread_self (reader p))) (index st) (encourager st) with
        | inl e => Raised e
        | inr (index, enc) =>
            match show_images p with
            | inl e => Raised e
            | inr _ =>
                if quits p
                then Finished {| index := index; encourager := enc; kill_sent := true |}
                else game_loop points tolerance_x tolerance_y polls
                       {| index := index; encourager := enc; kill_sent := kill_sent st |}
            end
        end
    end.

(** [alive] is the answer of [is_alive()] in the entry check. *)
Definition start_game (self : Exercise) (alive : bool) (polls : list poll) : outcome game :=
  if negb alive then Raised (Exception "Capture device not initialized!")
  else
    match _calibration_points self with
    | None => Raised (AttributeError "object has no attribute '_calibration_points'")
    | Some points =>
        if (length points =? 0)%nat then Raised (Exception "Device was not calibrated!")
        else game_loop points (_tolerance_x self) (_tolerance_y self) polls
               {| index := 0; encourager := _encourager self; kill_sent := false |}
    end.

(** *** RotationExercise *)

(** What the two subclasses pass to [Exercise.__init__]: the first six
    arguments; [time_limit] and [path_to_video] keep their defaults. *)
Definition super_args (a : init_args) : init_args :=
  {| arg_repetitions_limit := arg_repetitions_limit a;
     arg_calibration_duration := arg_calibration_duration a;
     arg_camera_resolution := arg_camera_resolution a;
     arg_color := arg_color a; arg_argv := arg_argv a;
     arg_limb := arg_limb a; arg_time_limit := PyInt 0;
     arg_path_to_video := "" |}.

(** [RotationExercise.__init__]: after the base class initialisation it
    reads [rotation], a name bound nowhere in the module. *)
Definition RotationExercise_init (a : init_args) (rotation_type : pyval) : result Exercise :=
  self ← Exercise_init (super_args a);
  raise (NameError "global name 'rotation' is not defined").

(** The call [RotationExercise(...)]. *)
Definition new_RotationExercise (a : init_args) (rotation_type : pyval) : result Exercise :=
  _ ← allocate cRotationExercise; RotationExercise_init a rotation_type.

(** *** SimpleMotionExercise *)

Record SimpleMotionExercise : Type := { exercise : Exercise; _motion_type : pyval }.

(** [SimpleMotionExercise.__init__]: the motion type is stored as given (the
    assignment goes to [_motion_type], past the property setter). *)
Definition SimpleMotionExercise_init (a : init_args) (motion_type : pyval)
  : result SimpleMotionExercise :=
  self ← Exercise_init (super_args a);
  mret {| exercise := self; _motion_type := motion_type |}.

Definition new_SimpleMotionExercise (a : init_args) (motion_type : pyval)
  : result SimpleMotionExercise :=
  _ ← allocate cSimpleMotionExercise; SimpleMotionExercise_init a motion_type.

(** The local variable [timer] of [calibrate]: the int [0] it starts as,
    [None] after a point was stored, or a started [Timer]. *)
Inductive timer_var : Type := TimerZero | TimerNone | TimerObj (t : Timer).

Record calibration : Type := {
  points : list (option point);      (* self._calibration_points *)
  timer : timer_var;
  voice : EncouragerUnit             (* self._encourager *)
}.

Definition CALIBRATION_DURATION_SECS : Z := 10.

Definition number_of_calibration_points (motion_type : pyval) : nat :=
  if eq_int motion_type MotionType.FLEXION || eq_int motion_type MotionType.ABDUCTION
  then 2%nat else 0%nat.

(** "(re-)initialize timer if necessary" *)
Definition start_timer (p : poll) (st : calibration) : calibration :=
  match timer st with
  | TimerNone | TimerZero =>
      {| points := points st;
         timer := TimerObj {| seconds := CALIBRATION_DURATION_SECS; started_at := now p |};
         voice := if (0 <? length (points st))%nat
                  then say "Now, move your arm to the next position and hold it for a few seconds."
                           (voice st)
                  else voice st |}
  | TimerObj _ => st
  end.

(** "store coordinates when timer has run out" *)
Definition store_point (p : poll) (st : calibration) : calibration :=
  match timer st with
  | TimerObj t =>
      if negb (is_alive (Timer_thread t (now p)))
      then {| points := points st ++ [_center (thread_self (reader p))];
              timer := TimerNone; voice := voice st |}
      else st
  | TimerZero =>                     (* unreachable after [start_timer]: 0.is_alive() *)
      st
  | TimerNone => st
  end.

Fixpoint calibrate_loop (number_of_points : nat) (polls : list poll) (st : calibration)
  : outcome calibration :=
  if negb (length (points st) <? number_of_points)%nat then Finished st
  else
    match polls with
    | [] => Pending st
    | p :: polls =>
        match _img_modified (thread_self (reader p)) with
        | None => Raised (no_attribute "_img_modified")
        | Some _ =>
            let st := start_timer p st in
            let st := store_point p st in
            match show_images p with
            | inl e => Raised e
            | inr _ =>
                if quits p then Finished st
                else calibrate_loop number_of_points polls st
            end
        end
    end.

(** [calibrate]; [alive] is the answer of [is_alive()] in the entry check.
    The result is the loop's state, after the closing announcement when the
    call returned. *)
Definition calibrate (self : SimpleMotionExercise) (alive : bool) (polls : list poll)
  : outcome calibration :=
  if negb alive then Raised (Exception "Capture device not initialized!")
  else
    let voice0 :=
      say "Calibrating now... please move your hand to the desired position on the table and hold for a few seconds."
          (_encourager (exercise self)) in
    match calibrate_loop (number_of_calibration_points (_motion_type self)) polls
            {| points := []; timer := TimerZero; voice := voice0 |} with
    | Finished st =>
        Finished {| points := points st; timer := timer st;
                    voice := say "Calibration completed! You may start your exercise now!"
                                 (voice st) |}
    | other => other
    end.

(** The exercise after [calibrate]: the list it filled is
    [self._calibration_points]. *)
Definition calibrated (self : SimpleMotionExercise) (st : calibration) : Exercise :=
  with_encourager (voice st) (with_points (points st) (exercise self)).

End Exercise.

(** ** The allow-list of the resolution setter

    Line 116 lets a pair through when its width is in the first list and its
    height in the second: the allow-list is every listed width with every
    listed height.  [is_allowed] is what the setter asks of a value,
    [resolution_error] the three exceptions it raises. *)
Definition allowed_resolutions : list (Z * Z) := list_prod camera_widths camera_heights.



(** ** A concrete world

    A small instance of the interfaces, to run the definitions on: a frame is
    the list of blobs its mask will show, and a blob carries its own
    measures. *)

Module Sample.

Record blob : Type := {
  blob_area : Q;
  blob_circle : (Q * Q) * Q;
  blob_moments : Moments
}.

#[global] Instance cv : OpenCV (list blob) blob := {|
  GaussianBlur f := f;
  cvtColor_BGR2HSV f := f;
  inRange f _ _ := f;
  dilate f := f;
  findContours f := f;
  contourArea := blob_area;
  minEnclosingCircle := blob_circle;
  moments := blob_moments;
  circle f _ _ := f
|}.

Definition isfile (p : string) : bool := String.eqb p "/tmp/session.avi".

Definition parse_args (argv : list string) : result Namespace :=
  raise (EnvError "SystemExit").

Definition ros_up (spawn : bool) : option exn := None.

Definition readlines : result (list string) :=
  mret ["Half way there!"; "Only one more!"; "Well done!"].

Definition Exercise_init :=
  Exercise_init (frame := list blob) isfile parse_args ros_up readlines.

Definition SimpleMotionExercise_init :=
  SimpleMotionExercise_init (frame := list blob) isfile parse_args ros_up readlines.

Definition new_RotationExercise :=
  new_RotationExercise (frame := list blob) isfile parse_args ros_up readlines.

(** A capture thread that is alive, has shown an empty frame and reports
    [center]. *)
Definition seeing (center : option point) : thread (@VideoReader (list blob)) :=
  Running {| _camera_width := 640; _camera_height := 480; _path_to_video := "";
             _color := Color.YELLOW; _center := center; _radius := 5%Q;
             _kill_thread := false; _img_original := Some [];
             _img_modified := Some [] |}.

Definition at_time (t : Q) (center : option point) (k : Z) : poll :=
  {| reader := seeing center; now := t; key := k |}.

Definition voice0 (limit : Z) : EncouragerUnit :=
  {| repetitions := 0; repetitions_limit := PyInt limit;
     sentences := ["Half way there!"; "Only one more!"; "Well done!"];
     published := [] |}.

End Sample.

(** ** Definitions the statements use *)

(** The match test in the specification's words: a centre is there, and it lies
    strictly inside the tolerance box of the target on both axes. *)
Definition matches (center : option point) (target : point) (tx ty : Z) : Prop :=
  exists c, center = Some c /\
            Z.abs (fst c - fst target) < tx /\ Z.abs (snd c - snd target) < ty.

(** The scenario of the specification: calibration points (0,0) and (10,0),
    tolerance (3,3), a limit of 10 repetitions, and a capture thread that
    shows the given centres one per turn with no key pressed. *)
Definition scenario_points : list (option point) := [Some (0, 0); Some (10, 0)].

Definition scenario_polls (centers : list point) : list poll :=
  map (fun c => Sample.at_time 0 (Some c) (-1)) centers.

Definition count_of (o : outcome game) : option Z :=
  match o with
  | Finished g | Pending g => Some (repetitions (encourager g))
  | Raised _ => None
  end.

Definition scenario_count (centers : list point) : option Z :=
  count_of (game_loop scenario_points 3 3 (scenario_polls centers)
              {| index := 0; encourager := Sample.voice0 10; kill_sent := false |}).

(** A yellow-tracking reader shown one speck of radius 3/2 and area 4. *)
Definition speck : Sample.blob :=
  {| Sample.blob_area := 4%Q;
     Sample.blob_circle := ((7 # 1, 9 # 1), 3 # 2)%Q;
     Sample.blob_moments := {| m00 := 4%Q; m10 := 28%Q; m01 := 36%Q |} |}.

(** Construction arguments that differ from the defaults in the
    calibration duration only. *)
Definition duration_args (d : Z) : init_args :=
  {| arg_repetitions_limit := PyInt 10; arg_calibration_duration := PyInt d;
     arg_camera_resolution := PyTuple [PyInt 640; PyInt 480];
     arg_color := PyInt Color.YELLOW; arg_argv := None;
     arg_limb := PyInt Limb.LEFT_ARM; arg_time_limit := PyInt 0;
     arg_path_to_video := "" |}.

(** The same thread, had its [run] returned instead of raising. *)
Definition returned_instead {A : Type} (t : thread A) : thread A :=
  match t with Died _ self => Returned self | other => other end.

Definition poll_returned_instead {frame : Type} (p : @poll frame) : @poll frame :=
  {| reader := returned_instead (reader p); now := now p; key := key p |}.

Definition failed_read {frame : Type} : @tick frame :=
  {| kill_requested := false; frame_read := None |}.

(** One HSV band: each channel of the lower bound is at most that of the
    upper bound, the hue is a hue of OpenCV (0 to 179) and the other two
    channels fit [np.uint8]. *)
Definition band_ok (lo hi : hsv) : Prop :=
  let '(h1, s1, v1) := lo in
  let '(h2, s2, v2) := hi in
  0 <= h1 <= h2 /\ h2 <= 179 /\ 0 <= s1 <= s2 /\ s2 <= 255 /\ 0 <= v1 <= v2 /\ v2 <= 255.

(** A turn that sees the marker within tolerance of [target], with both
    images there and nothing quitting. *)
Definition visits {frame : Type} (tx ty : Z) (p : @poll frame) (target : point) : Prop :=
  (exists c, _center (thread_self (reader p)) = Some c /\
             within_tolerance c target tx ty = true) /\
  quits p = false /\ show_images p = inr tt.

(** A turn of a loop of the main thread that finds both images and does not
    quit: no q key, and the capture thread alive. *)
Definition watching {frame : Type} (p : @poll frame) : Prop :=
  show_images p = inr tt /\ quits p = false.

(** A turn of the capture loop that delivers a frame, with no kill request
    before it. *)
Definition delivers {frame : Type} (t : @tick frame) : Prop :=
  kill_requested t = false /\ frame_read t <> None.

(** What [calibrate] says. *)
Definition msg_calibrating : string :=
  "Calibrating now... please move your hand to the desired position on the table and hold for a few seconds.".
Definition msg_next : string :=
  "Now, move your arm to the next position and hold it for a few seconds.".
Definition msg_completed : string :=
  "Calibration completed! You may start your exercise now!".

(** [k] prompts for a next position have been said since [base]; there is
    one recorded point for each, and one more unless a timer is running. *)
Definition prompted (base : list string) (k : nat) (st : calibration) : Prop :=
  published (voice st) = (base ++ repeat msg_next k)%list /\
  (k <= length (points st))%nat /\
  ((forall t, timer st <> TimerObj t) -> (0 < length (points st))%nat ->
   (S k <= length (points st))%nat).

(** A marker of radius 5 whose centroid is (7, 9). *)
Definition marker : Sample.blob :=
  {| Sample.blob_area := 100%Q;
     Sample.blob_circle := ((7 # 1, 9 # 1), 5 # 1)%Q;
     Sample.blob_moments := {| m00 := 100%Q; m10 := 700%Q; m01 := 900%Q |} |}.

Definition frame_tick (f : list Sample.blob) : @tick (list Sample.blob) :=
  {| kill_requested := false; frame_read := Some f |}.

(** The reader [VideoReader()] constructs, and the turn of the main thread
    that finds its thread after one frame was delivered and the next read
    failed. *)
Definition new_reader : @VideoReader (list Sample.blob) :=
  {| _camera_width := 640; _camera_height := 480; _path_to_video := "";
     _color := Color.YELLOW; _center := None; _radius := 0%Q;
     _kill_thread := false; _img_original := None; _img_modified := None |}.

Definition lost_device : @poll (list Sample.blob) :=
  {| reader := run (cv := Sample.cv) (fun _ => true)
                 ([frame_tick []] ++ failed_read :: []) new_reader;
     now := 0%Q; key := -1 |}.

(** The fifth of ten repetitions is half way. *)
Definition voice_at (count limit : Z) : EncouragerUnit :=
  {| repetitions := count; repetitions_limit := PyInt limit;
     sentences := ["Half way there!"; "Only one more!"; "Well done!"];
     published := [] |}.

(** A command line asking for full HD and blue, as [argparse] returns it. *)
Definition full_hd_argv : list string :=
  ["--width"; "1920"; "--height"; "1080"; "--color"; "blue"].

Definition parse_full_hd (argv : list string) : result Namespace :=
  mret {| width := PyInt 1920; height := PyInt 1080; path_to_video := None;
          color := PyStr "blue"; spawn_nodes := false |}.

Definition full_hd_args : init_args :=
  {| arg_repetitions_limit := PyInt 10; arg_calibration_duration := PyInt 10;
     arg_camera_resolution := PyTuple [PyInt 640; PyInt 480];
     arg_color := PyInt Color.YELLOW; arg_argv := Some full_hd_argv;
     arg_limb := PyInt Limb.LEFT_ARM; arg_time_limit := PyInt 0;
     arg_path_to_video := "" |}.

(** ** RosServer.py: the exercise request callback

    [RosServer] imports [MotionType] and [RotationType] from [Exercises].
    An attribute of a class is looked up among the names its body binds;
    for a name that is not there the lookup raises AttributeError. *)

Module RosServer.

Definition getattr (class_name : string) (body : list (string * Z)) (name : string)
  : result Z :=
  match List.find (fun b => String.eqb (fst b) name) body with
  | Some b => mret (snd b)
  | None =>
      raise (AttributeError ("class " ++ class_name ++ " has no attribute '" ++ name ++ "'"))
  end.

Definition MotionType_attr (name : string) : result Z :=
  getattr "MotionType" [("FLEXION", MotionType.FLEXION); ("ABDUCTION", MotionType.ABDUCTION)] name.

Definition RotationType_attr (name : string) : result Z :=
  getattr "RotationType"
    [("INTERNAL", RotationType.INTERNAL); ("EXTERNAL", RotationType.EXTERNAL)] name.

(** [a or b], [a and b] and [v == C.name], each evaluating its right
    operand only when Python does. *)
Definition py_or (a b : result bool) : result bool :=
  a ≫= fun x : bool => if x then mret true else b.
Definition py_and (a b : result bool) : result bool :=
  a ≫= fun x : bool => if x then b else mret false.
Definition eq_attr (v : pyval) (attr : result Z) : result bool := n ← attr; mret (eq_int v n).

(** The fields of an [ExerciseInit] message the callback reads. *)
Record ExerciseInit : Type := {
  motion_type : pyval;
  rotation_type : pyval;
  camera_width : pyval;
  camera_height : pyval;
  robot_position : pyval;
  rgb_colors : pyval;                       (* data.rgb_colors.data *)
  repetitions : pyval;
  time_limit : pyval;
  calibration_points_left_arm : pyval;
  calibration_points_right_arm : pyval;
  quantitative_frequency : pyval;
  qualitative_frequency : pyval;
  emotional_feedback_list : pyval
}.

(** What a callback does to the world, in order. *)
Inductive action : Type :=
| loginfo (msg : string)
| set_param_raw (name : string) (value : pyval)
| Popen (cmd : list string).

Record RosServer : Type := {
  _exercise_instance : option (list string);    (* the process launched, if any *)
  _NODE_NAME : string
}.

Definition valid_configuration (data : ExerciseInit) : result bool :=
  py_or
    (py_and
       (py_or (eq_attr (motion_type data) (MotionType_attr "FLEXION"))
              (eq_attr (motion_type data) (MotionType_attr "ABDUCTION")))
       (eq_attr (rotation_type data) (RotationType_attr "_unused")))
    (py_and
       (py_or (eq_attr (rotation_type data) (RotationType_attr "INTERNAL"))
              (eq_attr (rotation_type data) (RotationType_attr "EXTERNAL")))
       (eq_attr (motion_type data) (MotionType_attr "_unused"))).

Definition launch_params : list string :=
  ["roslaunch"; "reha_game"; "Exercise_Launcher.launch"].

Definition _exercise_init_callback (self : RosServer) (data : ExerciseInit)
  : result (RosServer * list action) :=
  match _exercise_instance self with
  | Some _ =>
      mret (self, [loginfo "Another exercise instance is already running! Aborting exercise creation."])
  | None =>
      valid_configuration data ≫= fun ok : bool =>
      if ok then
        let param (name : string) := (_NODE_NAME self ++ name)%string in
        mret ({| _exercise_instance := Some launch_params;
                 _NODE_NAME := _NODE_NAME self |},
              [set_param_raw (param "/motion_type") (motion_type data);
               set_param_raw (param "/rotation_type") (rotation_type data);
               set_param_raw (param "/camera_width") (camera_width data);
               set_param_raw (param "/camera_height") (camera_height data);
               set_param_raw (param "/robot_position") (robot_position data);
               set_param_raw (param "/rgb_colors") (rgb_colors data);
               set_param_raw (param "/repetitions_limit") (repetitions data);
               set_param_raw (param "/time_limit") (time_limit data);
               set_param_raw (param "/calibration_points_left_arm")
                             (calibration_points_left_arm data);
               set_param_raw (param "/calibration_points_right_arm")
                             (calibration_points_right_arm data);
               set_param_raw (param "/time_limit") (time_limit data);
               set_param_raw (param "/quantitative_frequency") (quantitative_frequency data);
               set_param_raw (param "/qualitative_frequency") (qualitative_frequency data);
               set_param_raw (param "/emotional_feedback_list")
                             (emotional_feedback_list data);
               Popen launch_params])
      else
        mret (self, [loginfo "Received invalid exercise configuration! Aborting exercise creation."])
  end.

End RosServer.

(** * Properties *)

(** ** Helper lemmas *)

Lemma bind_inr {A B : Type} (m : result A) (f : A -> result B) (b : B) :
  m ≫= f = inr b -> exists a, m = inr a /\ f a = inr b.
Proof. destruct m as [e|a]; simpl; [discriminate | eauto]. Qed.

Lemma mem_In (x : Z) (l : list Z) : mem x l = true <-> In x l.
Proof.
  unfold mem. rewrite existsb_exists. split.
  - intros (y & Hy & Heq). apply Z.eqb_eq in Heq. now subst.
  - intros H. exists x. split; [assumption | apply Z.eqb_refl].
Qed.

Lemma range_In (lo hi x : Z) : In x (range lo hi) <-> lo <= x < hi.
Proof.
  unfold range. rewrite in_map_iff. split.
  - intros (k & <- & Hk). apply in_seq in Hk. lia.
  - intros H. exists (Z.to_nat (x - lo)). split; [lia | apply in_seq; lia].
Qed.

Lemma mem_range (lo hi x : Z) : mem x (range lo hi) = true <-> lo <= x < hi.
Proof. rewrite mem_In. apply range_In. Qed.

(** What the resolution setter lets through. *)
Lemma check_camera_resolution_inr (cr : pyval) (w h : Z) :
  check_camera_resolution cr = inr (w, h) <->
  cr = PyTuple [PyInt w; PyInt h] /\ In w camera_widths /\ In h camera_heights.
Proof.
  split.
  - unfold check_camera_resolution. intros H.
    destruct cr as [| | | | | |items]; try discriminate.
    destruct items as [|a [|b [|c rest]]]; try discriminate;
      destruct a; try discriminate; destruct b; try discriminate.
    destruct (mem n camera_widths) eqn:Hw; [|discriminate].
    destruct (mem n0 camera_heights) eqn:Hh; [|discriminate].
    simpl in H. injection H as <- <-.
    apply mem_In in Hw. apply mem_In in Hh. auto.
  - intros (-> & Hw & Hh). unfold check_camera_resolution.
    apply mem_In in Hw. apply mem_In in Hh. now rewrite Hw, Hh.
Qed.

Lemma camera_widths_bounds (w : Z) : In w camera_widths -> 320 <= w <= 1920.
Proof. unfold camera_widths. simpl. lia. Qed.

Lemma camera_heights_bounds (h : Z) : In h camera_heights -> 180 <= h <= 1080.
Proof. unfold camera_heights. simpl. lia. Qed.

Lemma tolerances_spec (w h : Z) :
  0 < w -> 0 < h ->
  tolerances w h = (if w >? 2 * h then w / 6 else w / 8,
                    if h >? 2 * w then h / 6 else h / 8).
Proof.
  intros Hw Hh. unfold tolerances.
  destruct (Z.gtb_spec w (2 * h)), (Z.ltb_spec (2 * w) h), (Z.gtb_spec h (2 * w));
    try reflexivity; lia.
Qed.

Tactic Notation "bind_inv" hyp(H) "as" ident(x) ident(Hx) :=
  apply bind_inr in H; destruct H as (x & Hx & H).

Section Construction.
Context {frame : Type}.
Variable isfile : string -> bool.
Variable parse_args : list string -> result Namespace.
Variable ros_up : bool -> option exn.
Variable readlines : result (list string).

Local Abbreviation init := (Exercise_init (frame := frame) isfile parse_args ros_up readlines).

Lemma VideoReader_init_resolution (cr : pyval) (path : string) (c : pyval)
  (r : @VideoReader frame) :
  VideoReader_init isfile cr path c = inr r ->
  exists w h, check_camera_resolution cr = inr (w, h).
Proof.
  unfold VideoReader_init. intros H. bind_inv H as wh Hwh. destruct wh as [w h]. eauto.
Qed.

(** A constructed exercise went through every setter, and its tolerances
    come from the resolution argument. *)
Lemma Exercise_init_inr (a : init_args) (ex : Exercise) :
  init a = inr ex ->
  exists w h d,
    arg_camera_resolution a = PyTuple [PyInt w; PyInt h] /\
    In w camera_widths /\ In h camera_heights /\
    check_calibration_duration (arg_calibration_duration a) = inr d /\
    _calibration_duration ex = d /\
    _tolerance_x ex = fst (tolerances w h) /\
    _tolerance_y ex = snd (tolerances w h).
Proof.
  unfold Exercise_init. intros H.
  bind_inv H as limit Hlimit. bind_inv H as d Hd.
  bind_inv H as limb Hlimb. bind_inv H as tl Htl.
  bind_inv H as reader0 Hreader0.
  apply VideoReader_init_resolution in Hreader0 as (w & h & Hwh).
  apply check_camera_resolution_inr in Hwh as (Hcr & Hw & Hh).
  bind_inv H as rs Hrs. destruct rs as [reader spawn].
  bind_inv H as enc Henc.
  rewrite Hcr in H. injection H as <-.
  exists w, h, d. simpl. auto 10.
Qed.

(** The resolution half of construction: an exercise is only ever built
    from a tuple of two ints, the first among the listed widths and the
    second among the listed heights. *)
Lemma Exercise_init_resolution (a : init_args) (ex : Exercise) :
  init a = inr ex ->
  exists w h, arg_camera_resolution a = PyTuple [PyInt w; PyInt h] /\
              In w camera_widths /\ In h camera_heights.
Proof.
  intros H. apply Exercise_init_inr in H as (w & h & d & Hcr & Hw & Hh & _).
  eauto.
Qed.

End Construction.

(** ** Validation of the construction parameters *)

Lemma check_calibration_duration_inr (v : pyval) (d : Z) :
  check_calibration_duration v = inr d <-> v = PyInt d /\ 0 <= d < 30.
Proof.
  unfold check_calibration_duration. split.
  - destruct v; try discriminate.
    destruct (mem n (range 0 30)) eqn:Hm; [|discriminate].
    simpl. intros [= <-]. apply mem_range in Hm. auto.
  - intros (-> & Hd). apply mem_range in Hd. now rewrite Hd.
Qed.

(** C6 (the code at the failing input): the setter lets through exactly the
    ints 0 to 29; the int 30, which its comment and message name as the
    maximum, is refused with [ValueError], and so is the construction of an
    exercise with it. *)
Theorem calibration_duration_30_rejected :
  check_calibration_duration (PyInt 30)
    = inl (ValueError "calibration_duration should be an integer value between 0 and 30!")
  /\ Sample.Exercise_init
       {| arg_repetitions_limit := PyInt 10; arg_calibration_duration := PyInt 30;
          arg_camera_resolution := PyTuple [PyInt 640; PyInt 480];
          arg_color := PyInt Color.YELLOW; arg_argv := None;
          arg_limb := PyInt Limb.LEFT_ARM; arg_time_limit := PyInt 0;
          arg_path_to_video := "" |}
     = inl (ValueError "calibration_duration should be an integer value between 0 and 30!")
  /\ (forall v, (exists d, check_calibration_duration v = inr d)
                <-> exists d, v = PyInt d /\ 0 <= d <= 29).
Proof.
  split; [reflexivity|]. split; [reflexivity|].
  intros v. split.
  - intros (d & H). apply check_calibration_duration_inr in H as (-> & H).
    exists d. split; [reflexivity | lia].
  - intros (d & -> & H). exists d. apply check_calibration_duration_inr.
    split; [reflexivity | lia].
Qed.

(** ** Repetition counting *)

Lemma within_tolerance_spec (c target : point) (tx ty : Z) :
  within_tolerance c target tx ty = true <->
  Z.abs (fst c - fst target) < tx /\ Z.abs (snd c - snd target) < ty.
Proof.
  unfold within_tolerance. rewrite andb_true_iff, !Z.ltb_lt. reflexivity.
Qed.

Lemma matches_Some (c target : point) (tx ty : Z) :
  matches (Some c) target tx ty <-> within_tolerance c target tx ty = true.
Proof.
  rewrite within_tolerance_spec. unfold matches. split.
  - intros (c' & [= <-] & H). exact H.
  - intros H. exists c. auto.
Qed.

Lemma matches_None (target : point) (tx ty : Z) : ~ matches None target tx ty.
Proof. intros (c & Hc & _). discriminate. Qed.

Lemma div2_of_num (v : pyval) : is_Some (num v) -> is_Some (div2 v).
Proof. destruct v; simpl; intros [x Hx]; try discriminate; eauto. Qed.

(** With three sentences loaded and a numeric limit, counting a repetition
    never raises and adds one. *)
Lemma inc_repetitions_counter_ok (e : EncouragerUnit) :
  (3 <= length (sentences e))%nat ->
  is_Some (num (repetitions_limit e)) ->
  exists e', inc_repetitions_counter e = inr e' /\
             repetitions e' = repetitions e + 1 /\
             repetitions_limit e' = repetitions_limit e /\
             sentences e' = sentences e.
Proof.
  intros Hlen Hnum. unfold inc_repetitions_counter.
  destruct (div2_of_num _ Hnum) as [half Hhalf]. destruct Hnum as [limit Hlimit].
  cbn [repetitions_limit repetitions publish]. rewrite Hhalf, Hlimit.
  assert (Hs : forall i e0, (i < 3)%nat -> sentences e0 = sentences e ->
            exists e', publish_sentence i e0 = inr e' /\
                       repetitions e' = repetitions e0 /\
                       repetitions_limit e' = repetitions_limit e0 /\
                       sentences e' = sentences e0).
  { intros i e0 Hi He0. unfold publish_sentence. rewrite He0.
    destruct (lookup_lt_is_Some_2 (sentences e) i) as [s Hs]; [lia|].
    rewrite Hs. eexists. split; [reflexivity|]. simpl. auto. }
  repeat match goal with
         | |- context [int_eq_num ?a ?b] => destruct (int_eq_num a b)
         end;
    try (edestruct Hs as (e' & -> & Hr & Hl & Hse);
         [ | | exists e'; split; [reflexivity|]; rewrite Hr, Hl, Hse; simpl; auto];
         [lia | reflexivity]).
  eexists. split; [reflexivity|]. simpl. auto.
Qed.

Lemma count_step_None (pts : list (option point)) (tx ty : Z) (index : nat)
  (enc : EncouragerUnit) :
  count_step pts tx ty None index enc = inr (index, enc).
Proof. reflexivity. Qed.

Lemma count_step_spec (pts : list point) (tx ty : Z) (center : option point)
  (index : nat) (enc : EncouragerUnit) (target : point) :
  pts !! index = Some target ->
  (3 <= length (sentences enc))%nat ->
  is_Some (num (repetitions_limit enc)) ->
  exists index' enc',
    count_step (Some <$> pts) tx ty center index enc = inr (index', enc') /\
    (matches center target tx ty ->
       if (S index =? length pts)%nat
       then index' = 0%nat /\ repetitions enc' = repetitions enc + 1
       else index' = S index /\ enc' = enc) /\
    (~ matches center target tx ty -> index' = index /\ enc' = enc).
Proof.
  intros Hpt Hlen Hnum. unfold count_step.
  destruct center as [c|].
  2:{ exists index, enc. split; [reflexivity|]. split; [|auto].
      intros H. now apply matches_None in H. }
  rewrite list_lookup_fmap, Hpt. cbn [fmap option_fmap option_map].
  rewrite length_fmap.
  destruct (within_tolerance c target tx ty) eqn:Hin.
  - destruct (S index =? length pts)%nat eqn:Hwrap.
    + destruct (inc_repetitions_counter_ok enc Hlen Hnum) as (e' & He' & Hrep & _).
      rewrite He'. exists 0%nat, e'. split; [reflexivity|].
      split; [auto|]. intros Hno. exfalso. apply Hno. now apply matches_Some.
    + exists (S index), enc. split; [reflexivity|].
      split; [auto|]. intros Hno. exfalso. apply Hno. now apply matches_Some.
  - exists index, enc. split; [reflexivity|]. split; [|auto].
    intros H. apply matches_Some in H. congruence.
Qed.

Lemma matches_dec (center : option point) (target : point) (tx ty : Z) :
  matches center target tx ty \/ ~ matches center target tx ty.
Proof.
  destruct center as [c|]; [|right; apply matches_None].
  destruct (within_tolerance c target tx ty) eqn:H.
  - left. now apply matches_Some.
  - right. rewrite matches_Some. congruence.
Qed.

(** C1 (counterexample): with points (0,0),(10,0) and tolerance (3,3) the
    count is not 0 after the second observation and 1 only after the third:
    it is 1 as soon as (10,0), the last point, has been matched. *)
Lemma repetition_counting_counterexample :
  ~ (scenario_count [(0, 0); (10, 0)] = Some 0
     /\ scenario_count [(0, 0); (10, 0); (0, 0)] = Some 1).
Proof. intros [H _]. vm_compute in H. discriminate. Qed.

(** C1 (amended): with the loop at target [index] of a non-empty list of
    calibration points, an observation changes the pair of target index and
    count exactly when its centre is not None and lies strictly within
    toleranceX of the target on x and strictly within toleranceY on y; a
    match moves the index on by one, and when that passes the last point the
    index is 0 again and the count one more; so a centre exactly toleranceX
    away on x never matches, and for the points (0,0),(10,0) with tolerance
    (3,3) the observations (0,0),(10,0),(0,0) make the count 1 at the second
    observation, where it stays at the third. *)
Theorem repetition_counting :
  (forall (pts : list point) (tx ty : Z) (center : option point) (index : nat)
          (enc : EncouragerUnit) (target : point),
      pts !! index = Some target ->
      (3 <= length (sentences enc))%nat ->
      is_Some (num (repetitions_limit enc)) ->
      exists index' enc',
        count_step (Some <$> pts) tx ty center index enc = inr (index', enc') /\
        ((index', repetitions enc') <> (index, repetitions enc)
         <-> matches center target tx ty) /\
        (matches center target tx ty ->
           if (S index =? length pts)%nat
           then index' = 0%nat /\ repetitions enc' = repetitions enc + 1
           else index' = S index /\ enc' = enc) /\
        (~ matches center target tx ty -> index' = index /\ enc' = enc))
  /\ (forall (c target : point) (tx ty : Z),
        Z.abs (fst c - fst target) = tx -> ~ matches (Some c) target tx ty)
  /\ (scenario_count [(0, 0)] = Some 0
      /\ scenario_count [(0, 0); (10, 0)] = Some 1
      /\ scenario_count [(0, 0); (10, 0); (0, 0)] = Some 1).
Proof.
  split; [|split].
  - intros pts tx ty center index enc target Hpt Hlen Hnum.
    destruct (count_step_spec pts tx ty center index enc target Hpt Hlen Hnum)
      as (index' & enc' & Hstep & Hyes & Hno).
    exists index', enc'. split; [exact Hstep|]. split; [|split; assumption].
    split.
    + intros Hneq. destruct (matches_dec center target tx ty) as [H|H]; [exact H|].
      destruct (Hno H) as [-> ->]. congruence.
    + intros H Heq. specialize (Hyes H).
      destruct (S index =? length pts)%nat.
      * destruct Hyes as [_ Hrep]. injection Heq as _ Heq. lia.
      * destruct Hyes as [-> _]. injection Heq as Heq _. lia.
  - intros c target tx ty Heq (c' & [= <-] & Hx & _). lia.
  - repeat split; reflexivity.
Qed.

(** At target 0 of the scenario, the centre (1,1) is a match and moves the
    index to 1. *)
Lemma repetition_counting_witness :
  exists index' enc',
    count_step (Some <$> [(0, 0); (10, 0)]) 3 3 (Some (1, 1)) 0 (Sample.voice0 10)
    = inr (index', enc') /\ index' = 1%nat /\ enc' = Sample.voice0 10.
Proof.
  destruct (proj1 repetition_counting [(0, 0); (10, 0)] 3 3 (Some (1, 1)) 0%nat
              (Sample.voice0 10) (0, 0) eq_refl)
    as (index' & enc' & Hstep & _ & Hyes & _).
  - simpl. lia.
  - eexists. reflexivity.
  - exists index', enc'. split; [exact Hstep|].
    apply Hyes. exists (1, 1). simpl. repeat split; lia.
Defined.

(** ** The marker locator *)

Lemma Qltb_false (a b : Q) : Qltb a b = false <-> (b <= a)%Q.
Proof.
  unfold Qltb. rewrite negb_false_iff. apply Qle_bool_iff.
Qed.

Lemma Qltb_true (a b : Q) : Qltb a b = true <-> (a < b)%Q.
Proof.
  unfold Qltb. rewrite negb_true_iff. split.
  - intros H. apply Qnot_le_lt. intros Hle. apply Qle_bool_iff in Hle. congruence.
  - intros H. destruct (Qle_bool b a) eqn:E; [|reflexivity].
    apply Qle_bool_iff in E. exfalso. exact (Qlt_not_le _ _ H E).
Qed.

(** [max_by] returns an element of the list whose key no other exceeds. *)
Lemma max_by_spec {A : Type} (key : A -> Q) (l : list A) (c : A) :
  In (max_by key c l) (c :: l) /\
  forall x, In x (c :: l) -> (key x <= key (max_by key c l))%Q.
Proof.
  unfold max_by. revert c. induction l as [|y l IH]; intros c; simpl.
  - split; [auto|]. intros x [->|Hx]; [apply Qle_refl | destruct Hx].
  - destruct (Qltb (key c) (key y)) eqn:E.
    + destruct (IH y) as [Hin Hmax]. split.
      * destruct Hin as [<-|Hin]; auto.
      * intros x [<-|[<-|Hx]].
        -- apply Qltb_true in E. apply Qlt_le_weak in E.
           eapply Qle_trans; [exact E|]. apply Hmax. now left.
        -- apply Hmax. now left.
        -- apply Hmax. now right.
    + destruct (IH c) as [Hin Hmax]. split.
      * destruct Hin as [<-|Hin]; auto.
      * intros x [<-|[<-|Hx]].
        -- apply Hmax. now left.
        -- apply Qltb_false in E.
           eapply Qle_trans; [exact E|]. apply Hmax. now left.
        -- apply Hmax. now right.
Qed.

Section Locator.
Context {frame contour : Type} `{cv : OpenCV frame contour}.

Lemma valid_color_thresholds (c : Z) :
  mem c (range 0 3) = true -> exists t, get_hsv_thresholds c = inr t.
Proof.
  intros H. apply mem_range in H.
  assert (Hc : c = 0 \/ c = 1 \/ c = 2) by lia.
  destruct Hc as [-> | [-> | ->]]; eexists; reflexivity.
Qed.

(** The colour of a reader is always one the setter accepted: construction
    establishes it and processing a frame keeps it. *)
Lemma VideoReader_init_color (isfile : string -> bool) (cr : pyval) (path : string)
  (c : pyval) (r : @VideoReader frame) :
  VideoReader_init isfile cr path c = inr r -> mem (_color r) (range 0 3) = true.
Proof.
  unfold VideoReader_init. intros H.
  bind_inv H as wh Hwh. destruct wh as [w h].
  bind_inv H as r1 Hr1. bind_inv H as r2 Hr2. injection H as <-.
  unfold set_color in Hr2. bind_inv Hr2 as c' Hc'. injection Hr2 as <-.
  unfold check_color in Hc'. destruct c; try discriminate.
  destruct (mem n (range 0 3)) eqn:Hm; [|discriminate].
  injection Hc' as <-. exact Hm.
Qed.

Lemma process_frame_color (self self' : @VideoReader frame) (img : frame) :
  process_frame self img = inr self' -> _color self' = _color self.
Proof.
  unfold process_frame. intros H. bind_inv H as t Ht. injection H as <-.
  cbn [_color with_original] in *.
  destruct (findContours _) as [|c0 rest]; cbn.
  - reflexivity.
  - destruct (minEnclosingCircle _) as [[x y] radius].
    destruct (Qltb 0 _); cbn; [destruct (Qltb radius MIN_RADIUS); cbn|]; reflexivity.
Qed.

(** C2: for every frame the reader processes (its colour being one the
    setter accepts), the call returns; when the thresholded and dilated mask
    has no contours the centre is None and the radius 0; otherwise the radius
    is that of the minimum enclosing circle of the largest-area contour, and
    the centre is None when that contour's zeroth moment is 0 and when that
    radius is below 2. *)
Theorem locate_rejects_noise (self : @VideoReader frame) (img : frame) :
  mem (_color self) (range 0 3) = true ->
  exists self' thresholds,
    process_frame self img = inr self' /\
    get_hsv_thresholds (_color self) = inr thresholds /\
    _img_modified self' = Some (mask_of thresholds img) /\
    (findContours (mask_of thresholds img) = [] ->
       _center self' = None /\ _radius self' = 0%Q) /\
    (forall c0 rest, findContours (mask_of thresholds img) = c0 :: rest ->
       (forall x, In x (c0 :: rest) ->
                  (contourArea x <= contourArea (max_by contourArea c0 rest))%Q) /\
       _radius self' = snd (minEnclosingCircle (max_by contourArea c0 rest)) /\
       ((m00 (moments (max_by contourArea c0 rest)) == 0)%Q -> _center self' = None) /\
       ((snd (minEnclosingCircle (max_by contourArea c0 rest)) < 2)%Q ->
          _center self' = None)).
Proof.
  intros Hcolor. destruct (valid_color_thresholds _ Hcolor) as [t Ht].
  unfold process_frame. cbn [_color with_original]. rewrite Ht.
  cbn [mbind result_bind]. fold (mask_of t img).
  destruct (findContours (mask_of t img)) as [|c0 rest] eqn:Hcs.
  - eexists _, t. split; [reflexivity|]. split; [reflexivity|].
    split; [reflexivity|]. split; [auto|].
    intros c1 rest1 H. rewrite Hcs in H. discriminate.
  - set (c := max_by contourArea c0 rest).
    assert (Hmax : forall x, In x (c0 :: rest) -> (contourArea x <= contourArea c)%Q)
      by apply (max_by_spec contourArea rest c0).
    destruct (minEnclosingCircle c) as [[x y] radius] eqn:Hcircle.
    destruct (Qltb 0 (m00 (moments c))) eqn:Hm00;
      [cbn [_radius with_center with_radius];
       destruct (Qltb radius MIN_RADIUS) eqn:Hrad|];
      (eexists _, t; split; [reflexivity|]; split; [reflexivity|];
       split; [reflexivity|]; split; [intros H; rewrite Hcs in H; discriminate|];
       intros c1 rest1 H; rewrite Hcs in H; injection H as <- <-;
       fold c; rewrite Hcircle; split; [exact Hmax|]; split; [reflexivity|]).
    + split; reflexivity.
    + split.
      * intros Hz. apply Qltb_true in Hm00. rewrite Hz in Hm00.
        exfalso. exact (Qlt_irrefl _ Hm00).
      * intros Hlt. apply Qltb_false in Hrad. unfold MIN_RADIUS in Hrad.
        exfalso. exact (Qlt_not_le _ _ Hlt Hrad).
    + split; reflexivity.
Qed.

End Locator.

Lemma locate_rejects_noise_witness :
  exists self',
    process_frame (thread_self (Sample.seeing None)) [speck] = inr self' /\
    _center self' = None /\ _radius self' = (3 # 2)%Q.
Proof.
  destruct (locate_rejects_noise (thread_self (Sample.seeing None)) [speck] eq_refl)
    as (self' & t & Hrun & Ht & _ & _ & Hsome).
  injection Ht as <-.
  destruct (Hsome speck [] eq_refl) as (_ & Hradius & _ & Hsmall).
  exists self'. split; [exact Hrun|]. split; [|exact Hradius].
  apply Hsmall. reflexivity.
Defined.

(** ** Calibration *)

Section Calibration.
Context {frame : Type}.

Local Abbreviation poll := (@poll frame).

Lemma start_timer_points (p : poll) (st : calibration) :
  points (start_timer p st) = points st.
Proof. unfold start_timer. destruct (timer st); reflexivity. Qed.

(** Every timer the loop starts is asked for [CALIBRATION_DURATION_SECS]. *)
Lemma start_timer_seconds (p : poll) (st : calibration) :
  timer st = TimerZero \/ timer st = TimerNone ->
  timer (start_timer p st)
  = TimerObj {| seconds := CALIBRATION_DURATION_SECS; started_at := now p |}.
Proof. unfold start_timer. intros [-> | ->]; reflexivity. Qed.

Lemma store_point_elapsed (p : poll) (st : calibration) (t : Timer) :
  timer st = TimerObj t ->
  is_alive (Timer_thread t (now p)) = false ->
  store_point p st = {| points := points st ++ [_center (thread_self (reader p))];
                        timer := TimerNone; voice := voice st |}.
Proof. unfold store_point. intros -> ->. reflexivity. Qed.

Lemma store_point_running (p : poll) (st : calibration) (t : Timer) :
  timer st = TimerObj t ->
  is_alive (Timer_thread t (now p)) = true ->
  store_point p st = st.
Proof. unfold store_point. intros -> ->. reflexivity. Qed.

Lemma store_point_length (p : poll) (st : calibration) :
  (length (points st) <= length (points (store_point p st)) <= S (length (points st)))%nat.
Proof.
  unfold store_point. destruct (timer st) as [| |t]; try lia.
  destruct (is_alive (Timer_thread t (now p))); simpl; [lia|].
  rewrite length_app. simpl. lia.
Qed.

(** The loop never holds more than the number of points asked for; it is
    still running only with fewer, and it has returned with fewer only after
    a turn that quits. *)
Lemma calibrate_loop_length (n : nat) (polls : list poll) (st : calibration) :
  (length (points st) <= n)%nat ->
  match calibrate_loop n polls st with
  | Finished st' =>
      length (points st') = n \/
      ((length (points st') < n)%nat /\ Exists (fun p => quits p = true) polls)
  | Pending st' => (length (points st') < n)%nat
  | Raised _ => True
  end.
Proof.
  revert st. induction polls as [|p polls IH]; intros st Hle; simpl.
  - destruct (length (points st) <? n)%nat eqn:Hlt; simpl.
    + apply Nat.ltb_lt in Hlt. exact Hlt.
    + apply Nat.ltb_ge in Hlt. left. lia.
  - destruct (length (points st) <? n)%nat eqn:Hlt; simpl.
    2:{ apply Nat.ltb_ge in Hlt. left. lia. }
    apply Nat.ltb_lt in Hlt.
    destruct (_img_modified (thread_self (reader p))); [|exact I].
    destruct (show_images p); [exact I|].
    pose proof (store_point_length p (start_timer p st)) as Hlen.
    rewrite start_timer_points in Hlen.
    destruct (quits p) eqn:Hq.
    + destruct (Nat.eq_dec (length (points (store_point p (start_timer p st)))) n)
        as [Heq|Hne]; [left; exact Heq|].
      right. split; [lia|]. constructor. exact Hq.
    + specialize (IH (store_point p (start_timer p st))).
      destruct (calibrate_loop n polls (store_point p (start_timer p st)));
        try (apply IH; lia).
      destruct IH as [IH|[IH1 IH2]]; [lia|left; exact IH|].
      right. split; [exact IH1|]. apply Exists_cons_tl. exact IH2.
Qed.

End Calibration.

(** C3 (the code at the failing inputs): every timer [calibrate] starts is
    a [Timer(10)], whatever duration the exercise was constructed with.  An
    exercise constructed with duration 0 has recorded nothing at the poll one
    second after its first timer started, and one constructed with duration 5
    has recorded nothing six seconds after. *)
Theorem calibration_ignores_configured_duration :
  (forall (p : @poll (list Sample.blob)) (st : calibration),
      timer st = TimerZero \/ timer st = TimerNone ->
      timer (start_timer p st) = TimerObj {| seconds := 10; started_at := now p |})
  /\ (exists sm st,
        Sample.SimpleMotionExercise_init (duration_args 0) (PyInt MotionType.FLEXION)
        = inr sm /\
        _calibration_duration (exercise sm) = 0 /\
        calibrate sm true [Sample.at_time 0 (Some (5, 5)) (-1);
                           Sample.at_time 1 (Some (5, 5)) (-1)] = Pending st /\
        points st = [] /\
        timer st = TimerObj {| seconds := 10; started_at := 0%Q |})
  /\ (exists sm st,
        Sample.SimpleMotionExercise_init (duration_args 5) (PyInt MotionType.FLEXION)
        = inr sm /\
        _calibration_duration (exercise sm) = 5 /\
        calibrate sm true [Sample.at_time 0 (Some (5, 5)) (-1);
                           Sample.at_time 6 (Some (5, 5)) (-1)] = Pending st /\
        points st = [] /\
        timer st = TimerObj {| seconds := 10; started_at := 0%Q |}).
Proof.
  split; [|split].
  - intros p st H. apply start_timer_seconds. exact H.
  - eexists _, _. split; [reflexivity|]. split; [reflexivity|].
    split; [vm_compute; reflexivity|]. split; reflexivity.
  - eexists _, _. split; [reflexivity|]. split; [reflexivity|].
    split; [vm_compute; reflexivity|]. split; reflexivity.
Qed.

(** C4 (counterexample): a flexion exercise needs two points; with the q
    key down at the first turn of the loop, [calibrate] returns having
    recorded none. *)
Lemma calibrate_records_center_counterexample :
  exists sm st,
    Sample.SimpleMotionExercise_init default_args (PyInt MotionType.FLEXION) = inr sm /\
    number_of_calibration_points (_motion_type sm) = 2%nat /\
    calibrate sm true [Sample.at_time 0 (Some (5, 5)) 113] = Finished st /\
    points st = [].
Proof.
  eexists _, _. split; [reflexivity|]. split; [reflexivity|].
  split; [vm_compute; reflexivity|]. reflexivity.
Qed.

(** ** Starting the game *)

(** C9 (counterexample): a flexion exercise whose calibration was quit with
    the q key after the first of its two points; [start_game] on the set of
    one point raises nothing and counts a repetition at its first turn. *)
Lemma start_game_partial_set_counterexample :
  exists sm st g,
    Sample.SimpleMotionExercise_init default_args (PyInt MotionType.FLEXION) = inr sm /\
    number_of_calibration_points (_motion_type sm) = 2%nat /\
    calibrate sm true [Sample.at_time 0 (Some (5, 5)) (-1);
                       Sample.at_time 10 (Some (5, 5)) 113] = Finished st /\
    points st = [Some (5, 5)] /\
    start_game (calibrated sm st) true [Sample.at_time 11 (Some (5, 5)) (-1)]
    = Pending g /\
    repetitions (encourager g) = 1.
Proof.
  eexists _, _, _. split; [reflexivity|]. split; [reflexivity|].
  split; [vm_compute; reflexivity|]. split; [reflexivity|].
  split; [vm_compute; reflexivity|]. reflexivity.
Qed.

Section StartGame.
Context {frame : Type}.

(** C9 (amended): [start_game] raises before any counting exactly when the
    capture thread is not alive, or there is no calibration list, or the
    list is empty; with any non-empty list, however many points the exercise
    requires, it enters the counting loop at target 0 over the points the
    list holds. *)
Theorem start_game_entry_checks (self : @Exercise frame) (polls : list poll) :
  start_game self false polls = Raised (Exception "Capture device not initialized!")
  /\ (_calibration_points self = Some [] ->
      start_game self true polls = Raised (Exception "Device was not calibrated!"))
  /\ (_calibration_points self = None ->
      exists e, start_game self true polls = Raised e)
  /\ (forall pt pts, _calibration_points self = Some (pt :: pts) ->
        start_game self true polls
        = game_loop (pt :: pts) (_tolerance_x self) (_tolerance_y self) polls
            {| index := 0; encourager := _encourager self; kill_sent := false |}).
Proof.
  unfold start_game. split; [reflexivity|]. split; [|split].
  - intros ->. reflexivity.
  - intros ->. eexists. reflexivity.
  - intros pt pts ->. reflexivity.
Qed.

End StartGame.

(** With the two points of the scenario in place, [start_game] is in its
    loop at target 0. *)
Lemma start_game_entry_checks_witness :
  exists sm,
    Sample.SimpleMotionExercise_init default_args (PyInt MotionType.FLEXION) = inr sm /\
    start_game (with_points scenario_points (exercise sm)) true []
    = Pending {| index := 0; encourager := _encourager (exercise sm);
                 kill_sent := false |}.
Proof.
  eexists. split; [reflexivity|].
  match goal with
  | |- start_game ?self true [] = _ =>
      rewrite (proj2 (proj2 (proj2 (start_game_entry_checks self [])))
                 (Some (0, 0)) [Some (10, 0)] eq_refl)
  end.
  reflexivity.
Defined.

(** ** The capture loop seen from the main thread *)

Section CaptureFailure.
Context {frame contour : Type} `{cv : OpenCV frame contour}.

Lemma run_loop_app (ticks more : list tick) (self : @VideoReader frame) :
  run_loop (ticks ++ more) self
  = match run_loop ticks self with
    | Running self' => run_loop more self'
    | other => other
    end.
Proof.
  revert self. induction ticks as [|t ticks IH]; intros self; simpl; [reflexivity|].
  destruct (_kill_thread (if kill_requested t then set_kill_thread self else self));
    [reflexivity|].
  destruct (frame_read t) as [img|]; [|reflexivity].
  destruct (process_frame _ img); [reflexivity|]. apply IH.
Qed.

Lemma returned_instead_self {A : Type} (t : thread A) :
  thread_self (returned_instead t) = thread_self t.
Proof. destruct t; reflexivity. Qed.

Lemma returned_instead_alive {A : Type} (t : thread A) :
  is_alive (returned_instead t) = is_alive t.
Proof. destruct t; reflexivity. Qed.

Lemma show_images_returned_instead (p : @poll frame) :
  show_images (poll_returned_instead p) = show_images p.
Proof.
  unfold show_images, poll_returned_instead. simpl.
  now rewrite returned_instead_self.
Qed.

Lemma quits_returned_instead (p : @poll frame) :
  quits (poll_returned_instead p) = quits p.
Proof.
  unfold quits, poll_returned_instead. simpl. now rewrite returned_instead_alive.
Qed.

(** Neither loop of the main thread can tell a capture thread that raised
    from one that returned. *)
Lemma game_loop_returned_instead (pts : list (option point)) (tx ty : Z)
  (polls : list (@poll frame)) (st : game) :
  game_loop pts tx ty (map poll_returned_instead polls) st = game_loop pts tx ty polls st.
Proof.
  revert st. induction polls as [|p polls IH]; intros st; simpl; [reflexivity|].
  destruct (limit_not_reached (encourager st)); simpl; [|reflexivity].
  rewrite returned_instead_self, show_images_returned_instead,
    quits_returned_instead.
  destruct (count_step _ _ _ _ _ _) as [e|[i enc]]; [reflexivity|].
  destruct (show_images p); [reflexivity|].
  destruct (quits p); [reflexivity|]. apply IH.
Qed.

Lemma store_point_returned_instead (p : @poll frame) (st : calibration) :
  store_point (poll_returned_instead p) st = store_point p st.
Proof.
  unfold store_point, poll_returned_instead. simpl.
  now rewrite returned_instead_self.
Qed.

Lemma calibrate_loop_returned_instead (n : nat) (polls : list (@poll frame))
  (st : calibration) :
  calibrate_loop n (map poll_returned_instead polls) st = calibrate_loop n polls st.
Proof.
  revert st. induction polls as [|p polls IH]; intros st; simpl; [reflexivity|].
  destruct (length (points st) <? n)%nat; simpl; [|reflexivity].
  rewrite returned_instead_self, show_images_returned_instead,
    quits_returned_instead.
  destruct (_img_modified (thread_self (reader p))); [|reflexivity].
  change (start_timer (poll_returned_instead p) st) with (start_timer p st).
  rewrite store_point_returned_instead.
  destruct (show_images p); [reflexivity|].
  destruct (quits p); [reflexivity|]. apply IH.
Qed.

End CaptureFailure.

(** C8 (counterexample): a reader constructed on a video file, whose first
    read fails.  [run] does not return: the capture thread dies of the
    exception a failed read raises for the live device.  And the main thread
    does not learn of it through the liveness poll: the turn of either loop
    that finds this thread raises AttributeError at the image it reads
    first. *)
Lemma capture_failure_counterexample :
  exists r,
    VideoReader_init Sample.isfile (PyTuple [PyInt 640; PyInt 480])
      "/tmp/session.avi" (PyInt Color.YELLOW) = inr r /\
    capture_source r = File "/tmp/session.avi" /\
    run (cv := Sample.cv) (fun _ => true) [failed_read] r
    = Died (Exception "Failed to get frame from capture device!") r /\
    (forall r', run (cv := Sample.cv) (fun _ => true) [failed_read] r <> Returned r') /\
    calibrate_loop 2
      [{| reader := run (cv := Sample.cv) (fun _ => true) [failed_read] r;
          now := 0%Q; key := -1 |}]
      {| points := []; timer := TimerZero; voice := Sample.voice0 10 |}
    = Raised (AttributeError "'VideoReader' object has no attribute '_img_modified'") /\
    game_loop scenario_points 3 3
      [{| reader := run (cv := Sample.cv) (fun _ => true) [failed_read] r;
          now := 0%Q; key := -1 |}]
      {| index := 0; encourager := Sample.voice0 10; kill_sent := false |}
    = Raised (AttributeError "'VideoReader' object has no attribute '_img_original'").
Proof.
  eexists. split; [reflexivity|]. split; [reflexivity|].
  split; [reflexivity|]. split; [intros r' H; discriminate H|].
  split; reflexivity.
Qed.

(** ** RotationExercise *)

(** C10 (counterexample): the call [RotationExercise()] with the default
    arguments does not raise NameError but TypeError, since the class is
    abstract; and [__init__] itself, given a repetition limit of 0, raises
    the ValueError of the base class setter. *)
Lemma rotation_exercise_counterexample :
  Sample.new_RotationExercise default_args (PyInt RotationType.INTERNAL)
  = inl (TypeError
           "Can't instantiate abstract class RotationExercise with abstract methods calibrate")
  /\ (forall msg, Sample.new_RotationExercise default_args (PyInt RotationType.INTERNAL)
                  <> inl (NameError msg))
  /\ RotationExercise_init (frame := list Sample.blob) Sample.isfile Sample.parse_args
       Sample.ros_up Sample.readlines
       {| arg_repetitions_limit := PyInt 0; arg_calibration_duration := PyInt 10;
          arg_camera_resolution := PyTuple [PyInt 640; PyInt 480];
          arg_color := PyInt Color.YELLOW; arg_argv := None;
          arg_limb := PyInt Limb.LEFT_ARM; arg_time_limit := PyInt 0;
          arg_path_to_video := "" |}
       (PyInt RotationType.INTERNAL)
     = inl (ValueError
              "repetitions_limit should be a positive integer value between 1 and 100!").
Proof.
  split; [reflexivity|]. split; [|reflexivity].
  intros msg H. vm_compute in H. discriminate H.
Qed.

Section Rotation.
Context {frame : Type}.
Variable isfile : string -> bool.
Variable parse_args : list string -> result Namespace.
Variable ros_up : bool -> option exn.
Variable readlines : result (list string).

(** C10 (amended): for every combination of constructor arguments the call
    [RotationExercise(...)] raises, so no instance is ever created: the class
    inherits the abstract [calibrate] without overriding it, and the call
    raises TypeError before [__init__] runs.  [__init__] itself never returns
    either: it raises what the base class initialisation raises, and
    NameError once that has completed. *)
Theorem rotation_exercise_never_constructed (a : init_args) (rotation_type : pyval) :
  abstractmethods cRotationExercise = ["calibrate"]
  /\ new_RotationExercise (frame := frame) isfile parse_args ros_up readlines
       a rotation_type
     = inl (TypeError
              "Can't instantiate abstract class RotationExercise with abstract methods calibrate")
  /\ (exists e, RotationExercise_init (frame := frame) isfile parse_args ros_up readlines
                  a rotation_type = inl e)
  /\ (forall e, Exercise_init (frame := frame) isfile parse_args ros_up readlines
                  (super_args a) = inl e ->
                RotationExercise_init (frame := frame) isfile parse_args ros_up
                  readlines a rotation_type = inl e)
  /\ (forall ex : @Exercise frame,
        Exercise_init isfile parse_args ros_up readlines (super_args a) = inr ex ->
        RotationExercise_init (frame := frame) isfile parse_args ros_up readlines
          a rotation_type
        = inl (NameError "global name 'rotation' is not defined")).
Proof.
  split; [reflexivity|]. split; [reflexivity|].
  unfold RotationExercise_init.
  destruct (Exercise_init (frame := frame) isfile parse_args ros_up readlines
              (super_args a)) as [e|ex]; simpl.
  - split; [eauto|]. split; [intros e' [= <-]; reflexivity | intros ex [=]].
  - split; [eauto|]. split; [intros e' [=] | reflexivity].
Qed.

End Rotation.

(** * Further properties of the module *)

(** ** Colours *)

(** X1: [get_hsv_thresholds] returns a band for the three colours 0, 1, 2
    and raises ValueError for every other number; each band it returns is
    well formed (lower bound below upper bound on every channel, within the
    uint8 range). *)
Theorem hsv_thresholds_well_formed (c : Z) :
  match get_hsv_thresholds c with
  | inr (lo, hi) => 0 <= c <= 2 /\ band_ok lo hi
  | inl e => e = ValueError "Unknown or unused color!" /\ ~ 0 <= c <= 2
  end.
Proof.
  unfold get_hsv_thresholds, Color.BLUE, Color.BLACK, Color.YELLOW.
  destruct (Z.eqb_spec c 1) as [->|H1]; [simpl; lia|].
  destruct (Z.eqb_spec c 2) as [->|H2]; [simpl; lia|].
  destruct (Z.eqb_spec c 0) as [->|H0]; [simpl; lia|].
  simpl. split; [reflexivity | lia].
Qed.

Lemma pystr_eqb_spec (v : pyval) (s : string) :
  pystr_eqb v s = true <-> v = PyStr s.
Proof.
  destruct v; simpl; try (split; [discriminate | intros [=]]).
  rewrite String.eqb_eq. split; [intros ->; reflexivity | intros [= ->]; reflexivity].
Qed.

(** X2: [string_to_color] accepts exactly the strings "yellow", "blue" and
    "black" (anything else, None included, is a ValueError), and every colour
    it returns is accepted by the reader's colour setter and has a band. *)
Theorem string_to_color_accepted (v : pyval) :
  match string_to_color v with
  | inr c =>
      ((v = PyStr "yellow" /\ c = Color.YELLOW) \/
       (v = PyStr "blue" /\ c = Color.BLUE) \/
       (v = PyStr "black" /\ c = Color.BLACK)) /\
      check_color (PyInt c) = inr c /\
      exists band, get_hsv_thresholds c = inr band
  | inl e =>
      e = ValueError "Cannot convert unrecognized string to color type!" /\
      v <> PyStr "yellow" /\ v <> PyStr "blue" /\ v <> PyStr "black"
  end.
Proof.
  unfold string_to_color.
  destruct (pystr_eqb v "yellow") eqn:Hy.
  { apply pystr_eqb_spec in Hy. simpl. split; [auto|].
    split; [reflexivity | eexists; reflexivity]. }
  destruct (pystr_eqb v "blue") eqn:Hb.
  { apply pystr_eqb_spec in Hb. simpl. split; [auto|].
    split; [reflexivity | eexists; reflexivity]. }
  destruct (pystr_eqb v "black") eqn:Hk.
  { apply pystr_eqb_spec in Hk. simpl. split; [auto|].
    split; [reflexivity | eexists; reflexivity]. }
  simpl. split; [reflexivity|].
  repeat split; intros H; apply pystr_eqb_spec in H; congruence.
Qed.

(** ** The remaining setters *)

Lemma in_ints_range (v : pyval) (lo hi : Z) :
  in_ints v (range lo hi) = true <-> exists n, lo <= n < hi /\ eq_int v n = true.
Proof.
  unfold in_ints. rewrite existsb_exists. split.
  - intros (n & Hn & He). apply range_In in Hn. eauto.
  - intros (n & Hn & He). exists n. split; [apply range_In; exact Hn | exact He].
Qed.

(** X3: the repetition limit setter has no type test: it accepts, and
    stores unchanged, every value equal to one of the ints 1 to 99 (so the
    float 5.0 and True as well as 5), and raises ValueError for everything
    else, the int 100 of its message included. *)
Theorem repetitions_limit_accepts :
  (forall v,
      match check_repetitions_limit v with
      | inr v' => v' = v /\ exists n, 1 <= n <= 99 /\ eq_int v n = true
      | inl e =>
          e = ValueError "repetitions_limit should be a positive integer value between 1 and 100!"
          /\ ~ exists n, 1 <= n <= 99 /\ eq_int v n = true
      end)
  /\ (forall n, check_repetitions_limit (PyInt n) = inr (PyInt n) <-> 1 <= n <= 99)
  /\ check_repetitions_limit (PyFloat 5) = inr (PyFloat 5)
  /\ check_repetitions_limit (PyBool true) = inr (PyBool true).
Proof.
  assert (Hall : forall v,
      match check_repetitions_limit v with
      | inr v' => v' = v /\ exists n, 1 <= n <= 99 /\ eq_int v n = true
      | inl e =>
          e = ValueError "repetitions_limit should be a positive integer value between 1 and 100!"
          /\ ~ exists n, 1 <= n <= 99 /\ eq_int v n = true
      end).
  { intros v. unfold check_repetitions_limit.
    destruct (in_ints v (range 1 100)) eqn:H; simpl.
    - apply in_ints_range in H as (n & Hn & He). split; [reflexivity|].
      exists n. split; [lia | exact He].
    - split; [reflexivity|]. intros (n & Hn & He).
      assert (Hin : in_ints v (range 1 100) = true)
        by (apply in_ints_range; exists n; split; [lia | exact He]).
      congruence. }
  split; [exact Hall|]. split; [|split; reflexivity].
  intros n. specialize (Hall (PyInt n)).
  destruct (check_repetitions_limit (PyInt n)) as [e|v'].
  - destruct Hall as [_ Hno]. split; [discriminate|].
    intros Hn. exfalso. apply Hno. exists n. split; [exact Hn | apply Z.eqb_refl].
  - destruct Hall as [-> (m & Hm & He)]. simpl in He. apply Z.eqb_eq in He. subst m.
    split; [intros _; exact Hm | reflexivity].
Qed.

Lemma check_color_cases (v : pyval) :
  match check_color v with
  | inr c => v = PyInt c /\ 0 <= c <= 2
  | inl e => e = TypeError "Invalid color!" /\ ~ exists c, v = PyInt c /\ 0 <= c <= 2
  end.
Proof.
  unfold check_color.
  destruct v; cbv beta iota; try (split; [reflexivity | intros (l & [=] & _)]).
  destruct (mem n (range 0 3)) eqn:H; simpl.
  - apply mem_range in H. split; [reflexivity | lia].
  - split; [reflexivity|]. intros (l & [= <-] & Hl).
    assert (mem n (range 0 3) = true) by (apply mem_range; lia). congruence.
Qed.

(** X4: the limb setter and the reader's colour setter accept exactly the
    ints 0 to 3 and 0 to 2; whatever they refuse, a value of another type or
    an int out of range alike, is a TypeError. *)
Theorem limb_and_color_setters (v : pyval) :
  match check_limb v with
  | inr l => v = PyInt l /\ 0 <= l <= 3
  | inl e => e = TypeError "Invalid limb type!" /\ ~ exists l, v = PyInt l /\ 0 <= l <= 3
  end
  /\ match check_color v with
     | inr c => v = PyInt c /\ 0 <= c <= 2
     | inl e => e = TypeError "Invalid color!" /\ ~ exists c, v = PyInt c /\ 0 <= c <= 2
     end.
Proof.
  split.
  - unfold check_limb.
    destruct v; cbv beta iota; try (split; [reflexivity | intros (l & [=] & _)]).
    destruct (mem n (range 0 4)) eqn:H; simpl.
    + apply mem_range in H. split; [reflexivity | lia].
    + split; [reflexivity|]. intros (l & [= <-] & Hl).
      assert (mem n (range 0 4) = true) by (apply mem_range; lia). congruence.
  - apply check_color_cases.
Qed.

(** X5: the time limit setter accepts exactly the ints 0 to 7199; a value
    of another type is a TypeError and every other int, 7200 (the two hours
    of its comment) included, a ValueError. *)
Theorem time_limit_setter (v : pyval) :
  match check_time_limit v with
  | inr t => v = PyInt t /\ 0 <= t <= 7199
  | inl e =>
      (e = TypeError "Integer value expected!" /\ forall t, v <> PyInt t) \/
      (e = ValueError "time_limit should be an integer value between 0 and 7200!" /\
       exists t, v = PyInt t /\ ~ 0 <= t <= 7199)
  end.
Proof.
  unfold check_time_limit.
  destruct v; cbv beta iota;
    try (left; split; [reflexivity | intros t H; discriminate H]).
  destruct (mem n (range 0 7200)) eqn:H; simpl.
  - apply mem_range in H. split; [reflexivity | lia].
  - right. split; [reflexivity|]. exists n. split; [reflexivity|].
    intros Hn. assert (mem n (range 0 7200) = true) by (apply mem_range; lia).
    congruence.
Qed.

(** ** The reader *)

Section Reader.
Context {frame contour : Type} `{cv : OpenCV frame contour}.
Variable isfile : string -> bool.

(** X6: [VideoReader.__init__] succeeds exactly on a resolution from the
    two lists, a path that is empty or an existing file, and an int colour 0
    to 2, and then yields a reader with no centre, radius 0, no image and
    the kill flag down; the setters run in that order, so a bad resolution
    is reported before a bad path and a bad path before a bad colour. *)
Theorem VideoReader_init_iff (cr : pyval) (path : string) (c : pyval) :
  match VideoReader_init (frame := frame) isfile cr path c with
  | inr r =>
      exists w h col,
        cr = PyTuple [PyInt w; PyInt h] /\ In w camera_widths /\ In h camera_heights /\
        (path = "" \/ isfile path = true) /\
        c = PyInt col /\ 0 <= col <= 2 /\
        r = {| _camera_width := w; _camera_height := h; _path_to_video := path;
               _color := col; _center := None; _radius := 0%Q;
               _kill_thread := false; _img_original := None;
               _img_modified := None |}
  | inl e =>
      check_camera_resolution cr = inl e \/
      ((exists wh, check_camera_resolution cr = inr wh) /\
       ((path <> "" /\ isfile path = false /\
         e = ValueError "Specified video file does not exist!") \/
        ((path = "" \/ isfile path = true) /\ check_color c = inl e)))
  end.
Proof.
  unfold VideoReader_init.
  destruct (check_camera_resolution cr) as [e|[w h]] eqn:Hcr; simpl; [left; reflexivity|].
  apply check_camera_resolution_inr in Hcr as (-> & Hw & Hh).
  unfold set_path_to_video.
  destruct (String.eqb_spec path "") as [->|Hne]; simpl.
  - unfold set_color.
    pose proof (check_color_cases c) as Hc.
    destruct (check_color c) as [e|col]; simpl.
    + right. split; [eexists; reflexivity|].
      right. split; [left; reflexivity | reflexivity].
    + destruct Hc as [-> Hcol]. exists w, h, col. auto 10.
  - destruct (isfile path) eqn:Hf; simpl.
    + unfold set_color.
      pose proof (check_color_cases c) as Hc.
      destruct (check_color c) as [e|col]; simpl.
      * right. split; [eexists; reflexivity|].
        right. split; [right; reflexivity | reflexivity].
      * destruct Hc as [-> Hcol]. exists w, h, col. auto 10.
    + right. split; [eexists; reflexivity|].
      left. auto.
Qed.

End Reader.

Section CaptureLoop.
Context {frame contour : Type} `{cv : OpenCV frame contour}.

(** X7: whenever a processed frame reports a centre, the mask had a
    contour, the largest one has a positive zeroth moment and an enclosing
    circle of radius at least 2, the centre is its centroid truncated to
    ints, the radius reported is that circle's, and the circle has been
    drawn on the stored original image; when it reports none, the stored
    original is the frame as read. *)
Theorem reported_center_is_centroid (self self' : @VideoReader frame) (img : frame) :
  process_frame self img = inr self' ->
  match _center self' with
  | None => _img_original self' = Some img
  | Some c =>
      exists t c0 rest,
        get_hsv_thresholds (_color self) = inr t /\
        findContours (mask_of t img) = c0 :: rest /\
        (0 < m00 (moments (max_by contourArea c0 rest)))%Q /\
        (2 <= snd (minEnclosingCircle (max_by contourArea c0 rest)))%Q /\
        c = (int_of (m10 (moments (max_by contourArea c0 rest))
                     / m00 (moments (max_by contourArea c0 rest))),
             int_of (m01 (moments (max_by contourArea c0 rest))
                     / m00 (moments (max_by contourArea c0 rest)))) /\
        _radius self' = snd (minEnclosingCircle (max_by contourArea c0 rest)) /\
        _img_original self'
        = Some (circle img c (int_round (snd (minEnclosingCircle
                                               (max_by contourArea c0 rest)))))
  end.
Proof.
  unfold process_frame. intros H. bind_inv H as t Ht. injection H as <-.
  cbn [_color with_original] in Ht. fold (mask_of t img).
  destruct (findContours (mask_of t img)) as [|c0 rest] eqn:Hcs; [reflexivity|].
  set (best := max_by contourArea c0 rest).
  destruct (minEnclosingCircle best) as [[x y] radius] eqn:Hcircle.
  destruct (Qltb 0 (m00 (moments best))) eqn:Hm00; [|reflexivity].
  cbn [_radius with_center with_radius].
  destruct (Qltb radius MIN_RADIUS) eqn:Hrad; [reflexivity|].
  cbn. exists t, c0, rest. fold best. rewrite Hcircle. cbn.
  apply Qltb_true in Hm00. apply Qltb_false in Hrad.
  repeat split; try reflexivity; assumption.
Qed.

Lemma process_frame_settings (self self' : @VideoReader frame) (img : frame) :
  process_frame self img = inr self' ->
  _camera_width self' = _camera_width self /\
  _camera_height self' = _camera_height self /\
  _path_to_video self' = _path_to_video self /\
  _color self' = _color self /\
  _kill_thread self' = _kill_thread self /\
  (exists f, _img_original self' = Some f) /\
  (exists f, _img_modified self' = Some f).
Proof.
  unfold process_frame. intros H. bind_inv H as t Ht. injection H as <-.
  destruct (findContours _) as [|c0 rest]; cbn.
  - repeat split; eauto.
  - destruct (minEnclosingCircle _) as [[x y] radius].
    destruct (Qltb 0 _); cbn; [destruct (Qltb radius MIN_RADIUS); cbn|];
      repeat split; eauto.
Qed.

Lemma process_frame_returns (self : @VideoReader frame) (img : frame) :
  mem (_color self) (range 0 3) = true -> exists self', process_frame self img = inr self'.
Proof.
  intros Hcolor. destruct (valid_color_thresholds _ Hcolor) as [t Ht].
  unfold process_frame. cbn [_color with_original]. rewrite Ht.
  eexists. reflexivity.
Qed.

(** X8: a reader with an accepted colour and the kill flag down, given
    turns that each deliver a frame with no kill request, is still running
    after them, with its resolution, path, colour and flag unchanged; after
    at least one such turn both images exist, so the two [imshow] lines of
    the main thread's loops do not raise. *)
Theorem capture_loop_keeps_running (ticks : list tick) (self : @VideoReader frame) :
  mem (_color self) (range 0 3) = true ->
  _kill_thread self = false ->
  Forall (fun t => kill_requested t = false /\ frame_read t <> None) ticks ->
  exists self',
    run_loop ticks self = Running self' /\
    _camera_width self' = _camera_width self /\
    _camera_height self' = _camera_height self /\
    _path_to_video self' = _path_to_video self /\
    _color self' = _color self /\
    _kill_thread self' = false /\
    (ticks <> [] ->
     forall t k, show_images {| reader := Running self'; now := t; key := k |} = inr tt).
Proof.
  intros Hcolor Hkill Hticks. revert self Hcolor Hkill.
  induction Hticks as [|t ticks [Hk Hf] _ IH]; intros self Hcolor Hkill.
  - exists self. simpl. repeat split; try assumption. intros H. congruence.
  - simpl. rewrite Hk, Hkill.
    destruct (frame_read t) as [img|]; [|congruence].
    destruct (process_frame_returns self img Hcolor) as (s1 & Hs1).
    rewrite Hs1.
    destruct (process_frame_settings _ _ _ Hs1)
      as (Hw & Hh & Hp & Hc & Hkl & [fo Hfo] & [fm Hfm]).
    destruct (IH s1) as (s2 & Hrun & Hw2 & Hh2 & Hp2 & Hc2 & Hk2 & Himg);
      [congruence | congruence |].
    exists s2. split; [exact Hrun|].
    repeat split; try congruence.
    intros _ now0 k. destruct ticks as [|t' ticks'].
    + simpl in Hrun. injection Hrun as <-.
      unfold show_images. simpl. now rewrite Hfo, Hfm.
    + apply Himg. discriminate.
Qed.

(** X9: stopping is cooperative: at the first loop test after
    [set_kill_thread] was called the thread returns with the flag up, without
    reading or processing the frame of that turn, whatever follows. *)
Theorem kill_request_stops_loop (ticks more : list tick) (t : tick)
  (self self' : @VideoReader frame) :
  run_loop ticks self = Running self' ->
  kill_requested t = true ->
  run_loop (ticks ++ t :: more) self = Returned (set_kill_thread self') /\
  _center (set_kill_thread self') = _center self' /\
  _radius (set_kill_thread self') = _radius self' /\
  _img_original (set_kill_thread self') = _img_original self' /\
  _kill_thread (set_kill_thread self') = true.
Proof.
  intros Hrun Hk. rewrite run_loop_app, Hrun. simpl. rewrite Hk. simpl.
  repeat split; reflexivity.
Qed.

End CaptureLoop.

(** ** A failed read, seen from the main thread *)

Section CaptureFailureSeen.
Context {frame contour : Type} `{cv : OpenCV frame contour}.

(** After turns that each delivered a frame the thread is running with the
    flag down, and once there was such a turn both images exist. *)
Lemma run_loop_frames (ticks : list tick) (self : @VideoReader frame) :
  mem (_color self) (range 0 3) = true ->
  _kill_thread self = false ->
  Forall delivers ticks ->
  exists self',
    run_loop ticks self = Running self' /\
    _kill_thread self' = false /\
    (ticks <> [] ->
     (exists f, _img_original self' = Some f) /\
     (exists f, _img_modified self' = Some f)).
Proof.
  intros Hcolor Hkill Hticks. revert self Hcolor Hkill.
  induction Hticks as [|t ticks [Hk Hf] _ IH]; intros self Hcolor Hkill.
  - exists self. simpl. split; [reflexivity|]. split; [exact Hkill|].
    intros H. congruence.
  - simpl. rewrite Hk, Hkill.
    destruct (frame_read t) as [img|]; [|congruence].
    destruct (process_frame_returns self img Hcolor) as (s1 & Hs1). rewrite Hs1.
    destruct (process_frame_settings _ _ _ Hs1) as (_ & _ & _ & Hc & Hkl & Hfo & Hfm).
    destruct (IH s1) as (s2 & Hrun & Hk2 & Himg); [congruence | congruence |].
    exists s2. split; [exact Hrun|]. split; [exact Hk2|].
    intros _. destruct ticks as [|t' ticks'].
    + simpl in Hrun. injection Hrun as <-. auto.
    + apply Himg. discriminate.
Qed.

Lemma show_images_cases (p : @poll frame) :
  show_images p
  = match _img_original (thread_self (reader p)),
          _img_modified (thread_self (reader p)) with
    | Some _, Some _ => inr tt
    | None, _ => inl (no_attribute "_img_original")
    | Some _, None => inl (no_attribute "_img_modified")
    end.
Proof.
  unfold show_images.
  destruct (_img_original _); [|reflexivity].
  destruct (_img_modified _); reflexivity.
Qed.

(** The turn of the game loop that finds the capture thread dead. *)
Lemma game_loop_dead_turn (pts : list (option point)) (tx ty : Z)
  (p : @poll frame) (polls : list (@poll frame)) (st : game) :
  limit_not_reached (encourager st) = true ->
  is_alive (reader p) = false ->
  game_loop pts tx ty (p :: polls) st
  = match count_step pts tx ty (_center (thread_self (reader p)))
            (index st) (encourager st) with
    | inl e => Raised e
    | inr (i, enc) =>
        match _img_original (thread_self (reader p)),
              _img_modified (thread_self (reader p)) with
        | Some _, Some _ =>
            Finished {| index := i; encourager := enc; kill_sent := true |}
        | None, _ => Raised (no_attribute "_img_original")
        | Some _, None => Raised (no_attribute "_img_modified")
        end
    end.
Proof.
  intros Hlimit Hdead. cbn [game_loop]. rewrite Hlimit. cbn [negb].
  destruct (count_step _ _ _ _ _ _) as [e|[i enc]]; [reflexivity|].
  rewrite show_images_cases. unfold quits. rewrite Hdead, orb_true_r.
  destruct (_img_original _); [|reflexivity].
  destruct (_img_modified _); reflexivity.
Qed.

(** The turn of the calibration loop that finds the capture thread dead. *)
Lemma calibrate_loop_dead_turn (n : nat) (p : @poll frame) (polls : list (@poll frame))
  (st : calibration) :
  (length (points st) < n)%nat ->
  is_alive (reader p) = false ->
  calibrate_loop n (p :: polls) st
  = match _img_modified (thread_self (reader p)),
          _img_original (thread_self (reader p)) with
    | Some _, Some _ => Finished (store_point p (start_timer p st))
    | None, _ => Raised (no_attribute "_img_modified")
    | Some _, None => Raised (no_attribute "_img_original")
    end.
Proof.
  intros Hlt Hdead. cbn [calibrate_loop].
  apply Nat.ltb_lt in Hlt. rewrite Hlt. cbn [negb].
  rewrite show_images_cases. unfold quits. rewrite Hdead, orb_true_r.
  destruct (_img_modified _); [|reflexivity].
  destruct (_img_original _); reflexivity.
Qed.

(** C8 (amended): when a frame read fails in the capture loop, for the live
    device and for a file alike, [run] raises the same exception inside the
    capture thread; that ends the loop and leaves the thread not alive, and
    the exception is not raised in the main thread, whose loops behave the
    same as if [run] had returned.  A loop of the main thread that has not
    started is refused by its entry check.  A loop that is running reads the
    images before it polls the thread: when a frame had been processed before
    the failure, the turn that finds the thread not alive quits the loop
    ([calibrate] after its timer work, the game loop after counting the turn
    and setting the kill flag; an error of the counting is raised as at any
    turn); when the read failed before any frame was processed, the images do
    not exist and the turn raises AttributeError instead. *)
Theorem capture_failure_ends_thread :
  (forall (isOpened : source -> bool) (ticks more : list tick)
          (self self' : @VideoReader frame),
      isOpened (capture_source self) = true ->
      run_loop ticks self = Running self' ->
      _kill_thread self' = false ->
      run isOpened (ticks ++ failed_read :: more) self
      = Died (Exception "Failed to get frame from capture device!") self'
      /\ is_alive (run isOpened (ticks ++ failed_read :: more) self) = false)
  /\ (forall p : @poll frame, is_alive (reader p) = false -> quits p = true)
  /\ (forall (self : @Exercise frame) polls,
        start_game self false polls = Raised (Exception "Capture device not initialized!"))
  /\ (forall (self : @SimpleMotionExercise frame) polls,
        calibrate self false polls = Raised (Exception "Capture device not initialized!"))
  /\ (forall pts tx ty (p : @poll frame) polls st,
        limit_not_reached (encourager st) = true ->
        is_alive (reader p) = false ->
        game_loop pts tx ty (p :: polls) st
        = match count_step pts tx ty (_center (thread_self (reader p)))
                  (index st) (encourager st) with
          | inl e => Raised e
          | inr (i, enc) =>
              match _img_original (thread_self (reader p)),
                    _img_modified (thread_self (reader p)) with
              | Some _, Some _ =>
                  Finished {| index := i; encourager := enc; kill_sent := true |}
              | None, _ => Raised (no_attribute "_img_original")
              | Some _, None => Raised (no_attribute "_img_modified")
              end
          end)
  /\ (forall n (p : @poll frame) polls st,
        (length (points st) < n)%nat ->
        is_alive (reader p) = false ->
        calibrate_loop n (p :: polls) st
        = match _img_modified (thread_self (reader p)),
                _img_original (thread_self (reader p)) with
          | Some _, Some _ => Finished (store_point p (start_timer p st))
          | None, _ => Raised (no_attribute "_img_modified")
          | Some _, None => Raised (no_attribute "_img_original")
          end)
  /\ (forall (isOpened : source -> bool) (ticks more : list tick)
             (self : @VideoReader frame) (p : @poll frame),
        isOpened (capture_source self) = true ->
        mem (_color self) (range 0 3) = true ->
        _kill_thread self = false ->
        Forall delivers ticks -> ticks <> [] ->
        reader p = run isOpened (ticks ++ failed_read :: more) self ->
        is_alive (reader p) = false /\
        show_images p = inr tt /\
        (forall n polls st,
            (length (points st) < n)%nat ->
            calibrate_loop n (p :: polls) st
            = Finished (store_point p (start_timer p st))) /\
        (forall pts tx ty polls st,
            limit_not_reached (encourager st) = true ->
            game_loop pts tx ty (p :: polls) st
            = match count_step pts tx ty (_center (thread_self (reader p)))
                      (index st) (encourager st) with
              | inl e => Raised e
              | inr (i, enc) =>
                  Finished {| index := i; encourager := enc; kill_sent := true |}
              end))
  /\ (forall (isOpened : source -> bool) (more : list tick)
             (self : @VideoReader frame) (p : @poll frame),
        isOpened (capture_source self) = true ->
        _kill_thread self = false ->
        _center self = None -> _img_original self = None -> _img_modified self = None ->
        reader p = run isOpened (failed_read :: more) self ->
        is_alive (reader p) = false /\
        (forall n polls st,
            (length (points st) < n)%nat ->
            calibrate_loop n (p :: polls) st = Raised (no_attribute "_img_modified")) /\
        (forall pts tx ty polls st,
            limit_not_reached (encourager st) = true ->
            game_loop pts tx ty (p :: polls) st = Raised (no_attribute "_img_original")))
  /\ (forall pts tx ty (polls : list (@poll frame)) st,
        game_loop pts tx ty (map poll_returned_instead polls) st
        = game_loop pts tx ty polls st)
  /\ (forall n (polls : list (@poll frame)) st,
        calibrate_loop n (map poll_returned_instead polls) st
        = calibrate_loop n polls st).
Proof.
  split; [|split; [|split; [|split; [|split; [|split; [|split; [|split; [|split]]]]]]]].
  - intros isOpened ticks more self self' Hopen Hrun Hkill.
    assert (H : run isOpened (ticks ++ failed_read :: more) self
                = Died (Exception "Failed to get frame from capture device!") self').
    { unfold run. rewrite Hopen. simpl. rewrite run_loop_app, Hrun. simpl.
      now rewrite Hkill. }
    rewrite H. split; reflexivity.
  - intros p H. unfold quits. rewrite H. apply orb_true_r.
  - reflexivity.
  - reflexivity.
  - intros. now apply game_loop_dead_turn.
  - intros. now apply calibrate_loop_dead_turn.
  - intros isOpened ticks more self p Hopen Hcolor Hkill Hticks Hne Hp.
    destruct (run_loop_frames ticks self Hcolor Hkill Hticks)
      as (self' & Hrun & Hkill' & Himg).
    destruct (Himg Hne) as [[fo Hfo] [fm Hfm]].
    assert (H : reader p
                = Died (Exception "Failed to get frame from capture device!") self').
    { rewrite Hp. unfold run. rewrite Hopen. simpl. rewrite run_loop_app, Hrun. simpl.
      now rewrite Hkill'. }
    assert (Hdead : is_alive (reader p) = false) by now rewrite H.
    assert (Ho : _img_original (thread_self (reader p)) = Some fo) by now rewrite H.
    assert (Hm : _img_modified (thread_self (reader p)) = Some fm) by now rewrite H.
    split; [exact Hdead|]. split; [|split].
    + now rewrite show_images_cases, Ho, Hm.
    + intros n polls st Hlt.
      now rewrite (calibrate_loop_dead_turn n p polls st Hlt Hdead), Ho, Hm.
    + intros pts tx ty polls st Hlimit.
      rewrite (game_loop_dead_turn pts tx ty p polls st Hlimit Hdead), Ho, Hm.
      reflexivity.
  - intros isOpened more self p Hopen Hkill Hc Ho Hm Hp.
    assert (H : reader p
                = Died (Exception "Failed to get frame from capture device!") self).
    { rewrite Hp. unfold run. rewrite Hopen. simpl. now rewrite Hkill. }
    assert (Hdead : is_alive (reader p) = false) by now rewrite H.
    assert (Hs : thread_self (reader p) = self) by now rewrite H.
    split; [exact Hdead|]. split.
    + intros n polls st Hlt.
      now rewrite (calibrate_loop_dead_turn n p polls st Hlt Hdead), Hs, Hm.
    + intros pts tx ty polls st Hlimit.
      rewrite (game_loop_dead_turn pts tx ty p polls st Hlimit Hdead), Hs, Hc, Ho.
      reflexivity.
  - intros. apply game_loop_returned_instead.
  - intros. apply calibrate_loop_returned_instead.
Qed.

End CaptureFailureSeen.

(** The reader [VideoReader()] constructs; the live device delivers it one
    empty frame, then a read fails: the thread is dead with both images
    stored, and a calibration loop polling it quits. *)
Lemma capture_failure_ends_thread_witness :
  VideoReader_init Sample.isfile (PyTuple [PyInt 640; PyInt 480]) "" (PyInt Color.YELLOW)
  = inr new_reader /\
  capture_source new_reader = Device 0 /\
  is_alive (reader lost_device) = false /\
  show_images lost_device = inr tt /\
  calibrate_loop 2 [lost_device]
    {| points := []; timer := TimerZero; voice := Sample.voice0 10 |}
  = Finished {| points := [];
                timer := TimerObj {| seconds := 10; started_at := 0%Q |};
                voice := Sample.voice0 10 |}.
Proof.
  split; [reflexivity|]. split; [reflexivity|].
  destruct (capture_failure_ends_thread (cv := Sample.cv))
    as (_ & _ & _ & _ & _ & _ & H & _).
  destruct (H (fun _ => true) [frame_tick []] [] new_reader lost_device
              eq_refl eq_refl eq_refl)
    as (Hdead & Hshow & Hcal & _).
  - constructor; [|constructor]. split; [reflexivity | discriminate].
  - discriminate.
  - reflexivity.
  - split; [exact Hdead|]. split; [exact Hshow|].
    rewrite (Hcal 2%nat [] {| points := []; timer := TimerZero;
                              voice := Sample.voice0 10 |}); [reflexivity|].
    simpl. lia.
Defined.

(** ** Timer *)

Lemma sum_constant (x : Q) (l : list nat) :
  (fold_right Qplus 0 (map (fun _ => x) l) == inject_Z (Z.of_nat (length l)) * x)%Q.
Proof.
  induction l as [|a l IH].
  - simpl. ring.
  - cbn [map fold_right length]. rewrite IH, Nat2Z.inj_succ.
    unfold Z.succ. rewrite inject_Z_plus. ring.
Qed.

(** X10: a [Timer(s)] sleeps 99 times s/100, so it runs for 99/100 of the
    [s] seconds it was asked for: it is alive exactly at the instants before
    [started_at + 0.99 s], and a Timer(10) is no longer alive 9.9 s after its
    start. *)
Theorem Timer_runs_99_hundredths (t : Timer) :
  (Timer_run_time t == (99 # 100) * inject_Z (seconds t))%Q
  /\ (forall now,
        is_alive (Timer_thread t now) = true
        <-> (now < started_at t + (99 # 100) * inject_Z (seconds t))%Q)
  /\ (forall start, is_alive (Timer_thread {| seconds := 10; started_at := start |}
                                           (start + (99 # 10))) = false).
Proof.
  assert (Hrun : (Timer_run_time t == (99 # 100) * inject_Z (seconds t))%Q).
  { unfold Timer_run_time, Timer_sleeps. rewrite sum_constant.
    rewrite length_seq. change (inject_Z (Z.of_nat 99)) with (99 # 1)%Q. field. }
  split; [exact Hrun|]. split.
  - intros now. unfold Timer_thread.
    destruct (Qltb now (started_at t + Timer_run_time t)) eqn:E; simpl.
    + apply Qltb_true in E. rewrite Hrun in E. split; [intros _; exact E | reflexivity].
    + apply Qltb_false in E. rewrite Hrun in E. split; [discriminate|].
      intros H. exfalso. exact (Qlt_not_le _ _ H E).
  - intros start. unfold Timer_thread.
    destruct (Qltb _ _) eqn:E; [|reflexivity].
    apply Qltb_true in E. exfalso.
    assert (H10 : (Timer_run_time {| seconds := 10; started_at := start |} == 99 # 10)%Q)
      by (vm_compute; reflexivity).
    cbn [started_at] in E. rewrite H10 in E. exact (Qlt_irrefl _ E).
Qed.

(** ** EncouragerUnit *)

Lemma int_eq_num_inject (r a : Z) : int_eq_num r (inject_Z a) = (r =? a).
Proof.
  unfold int_eq_num.
  destruct (Qeq_bool (inject_Z r) (inject_Z a)) eqn:E; symmetry.
  - apply Qeq_bool_iff in E. apply (proj1 (inject_Z_injective r a)) in E.
    apply Z.eqb_eq. exact E.
  - apply Z.eqb_neq. intros ->.
    assert (Qeq_bool (inject_Z a) (inject_Z a) = true)
      by (apply Qeq_bool_iff; reflexivity).
    congruence.
Qed.

Lemma int_eq_num_pred (r a : Z) : int_eq_num r (inject_Z a - 1)%Q = (r =? a - 1).
Proof.
  assert (H : (inject_Z a - 1 == inject_Z (a - 1))%Q).
  { unfold Z.sub. rewrite inject_Z_plus. reflexivity. }
  rewrite <- int_eq_num_inject. unfold int_eq_num.
  destruct (Qeq_bool (inject_Z r) (inject_Z a - 1)) eqn:E1;
    destruct (Qeq_bool (inject_Z r) (inject_Z (a - 1))) eqn:E2; try reflexivity.
  - apply Qeq_bool_iff in E1. rewrite H in E1. apply Qeq_bool_iff in E1. congruence.
  - apply Qeq_bool_iff in E2. rewrite <- H in E2. apply Qeq_bool_iff in E2. congruence.
Qed.

(** What a successful call changed, whatever the limit and the sentences. *)
Lemma inc_repetitions_counter_inr (e e' : EncouragerUnit) :
  inc_repetitions_counter e = inr e' ->
  repetitions e' = repetitions e + 1 /\
  repetitions_limit e' = repetitions_limit e /\
  sentences e' = sentences e.
Proof.
  unfold inc_repetitions_counter. cbn [repetitions_limit repetitions publish].
  destruct (div2 (repetitions_limit e)); [|discriminate].
  destruct (num (repetitions_limit e)); [|discriminate].
  assert (Hs : forall i e0 e1, publish_sentence i e0 = inr e1 ->
                 repetitions e1 = repetitions e0 /\
                 repetitions_limit e1 = repetitions_limit e0 /\
                 sentences e1 = sentences e0).
  { intros i e0 e1. unfold publish_sentence.
    destruct (sentences e0 !! i); [|discriminate]. intros [= <-]. simpl. auto. }
  repeat match goal with
         | |- context [int_eq_num ?a ?b] => destruct (int_eq_num a b)
         end;
    intros H; try (apply Hs in H; simpl in H; exact H).
  injection H as <-. simpl. auto.
Qed.

(** X11: with an int limit of at least 1 and three sentences loaded,
    counting a repetition adds one to the count and publishes the new count,
    followed by at most one sentence: the first at half the limit (integer
    division; it wins when that is also the limit minus one), the third
    whenever the limit is reached. *)
Theorem inc_repetitions_counter_announces (e : EncouragerUnit) (L : Z)
  (s0 s1 s2 : string) (rest : list string) :
  repetitions_limit e = PyInt L ->
  1 <= L ->
  sentences e = s0 :: s1 :: s2 :: rest ->
  exists e' tail,
    inc_repetitions_counter e = inr e' /\
    repetitions e' = repetitions e + 1 /\
    repetitions_limit e' = PyInt L /\
    sentences e' = sentences e /\
    published e' = (published e ++ str (repetitions e + 1) :: tail)%list /\
    (repetitions e + 1 = L / 2 -> tail = [s0]) /\
    (repetitions e + 1 = L -> tail = [s2]) /\
    (repetitions e + 1 = L - 1 -> repetitions e + 1 <> L / 2 -> tail = [s1]) /\
    (repetitions e + 1 <> L / 2 -> repetitions e + 1 <> L - 1 ->
     repetitions e + 1 <> L -> tail = []).
Proof.
  intros Hlimit HL Hsent. unfold inc_repetitions_counter.
  cbn [repetitions_limit repetitions publish sentences published].
  rewrite Hlimit. cbn [div2 num].
  rewrite int_eq_num_inject, int_eq_num_pred, int_eq_num_inject.
  unfold publish_sentence. cbn [sentences publish]. rewrite Hsent.
  cbn [lookup list_lookup].
  assert (Hhalf : L / 2 < L) by (apply Z.div_lt; lia).
  destruct (Z.eqb_spec (repetitions e + 1) (L / 2)) as [Hh|Hh];
    [|destruct (Z.eqb_spec (repetitions e + 1) (L - 1)) as [Hp|Hp];
      [|destruct (Z.eqb_spec (repetitions e + 1) L) as [Hl|Hl]]];
    [eexists _, [s0] | eexists _, [s1] | eexists _, [s2] | eexists _, []];
    (split; [reflexivity|]); cbn;
    (split; [reflexivity|]); (split; [reflexivity|]);
    (split; [reflexivity|]);
    (split; [try rewrite <- app_assoc; reflexivity|]);
    repeat split; intros; first [reflexivity | exfalso; lia].
Qed.

(** X12: when fewer than three sentences were loaded, the call that
    reaches an int limit of at least 1 raises IndexError. *)
Theorem inc_repetitions_counter_short_file (e : EncouragerUnit) (L : Z) :
  repetitions_limit e = PyInt L ->
  1 <= L ->
  repetitions e + 1 = L ->
  (length (sentences e) < 3)%nat ->
  inc_repetitions_counter e = inl (IndexError "list index out of range").
Proof.
  intros Hlimit HL Hrep Hlen. unfold inc_repetitions_counter.
  cbn [repetitions_limit repetitions publish sentences published].
  rewrite Hlimit. cbn [div2 num].
  rewrite int_eq_num_inject, int_eq_num_pred, int_eq_num_inject.
  assert (L / 2 < L) by (apply Z.div_lt; lia).
  destruct (Z.eqb_spec (repetitions e + 1) (L / 2)); [lia|].
  destruct (Z.eqb_spec (repetitions e + 1) (L - 1)); [lia|].
  destruct (Z.eqb_spec (repetitions e + 1) L); [|lia].
  unfold publish_sentence. cbn [sentences publish].
  rewrite (lookup_ge_None_2 (sentences e) 2); [reflexivity | lia].
Qed.

(** ** The game loop *)

Lemma count_step_inr (pts : list (option point)) (tx ty : Z) (center : option point)
  (i i' : nat) (enc enc' : EncouragerUnit) :
  count_step pts tx ty center i enc = inr (i', enc') ->
  (i < length pts)%nat ->
  (i' < length pts)%nat /\
  repetitions_limit enc' = repetitions_limit enc /\
  sentences enc' = sentences enc /\
  (repetitions enc' = repetitions enc \/ repetitions enc' = repetitions enc + 1).
Proof.
  unfold count_step. intros H Hi.
  destruct center as [c|]; [|injection H as <- <-; auto].
  destruct (pts !! i) as [[target|]|]; try discriminate.
  destruct (within_tolerance c target tx ty); [|injection H as <- <-; auto].
  destruct (Nat.eqb_spec (S i) (length pts)) as [Hw|Hw].
  - bind_inv H as e1 He1. injection H as <- <-.
    apply inc_repetitions_counter_inr in He1 as (Hr & Hl & Hs).
    repeat split; [lia | exact Hl | exact Hs | right; exact Hr].
  - injection H as <- <-. repeat split; [lia | left; reflexivity].
Qed.

Lemma limit_not_reached_int (e : EncouragerUnit) (L : Z) :
  repetitions_limit e = PyInt L ->
  limit_not_reached e = negb (repetitions e =? L).
Proof.
  intros H. unfold limit_not_reached. rewrite H. simpl.
  now rewrite int_eq_num_inject.
Qed.

Section GameLoop.
Context {frame : Type}.

Local Abbreviation poll := (@poll frame).

(** X13: with an int limit L, started with a count of at most L and a
    target index inside the list, the game loop keeps the index inside the
    list and never counts past L; it returns either with the count at L or
    from a turn that quit, with the kill flag sent; and while it is still in
    the loop the count is below L. *)
Theorem game_loop_invariant (pts : list (option point)) (tx ty : Z)
  (polls : list poll) (st : game) (L : Z) :
  repetitions_limit (encourager st) = PyInt L ->
  repetitions (encourager st) <= L ->
  (index st < length pts)%nat ->
  match game_loop pts tx ty polls st with
  | Finished g =>
      (index g < length pts)%nat /\
      repetitions (encourager st) <= repetitions (encourager g) <= L /\
      (repetitions (encourager g) = L \/ kill_sent g = true)
  | Pending g =>
      (index g < length pts)%nat /\
      repetitions (encourager st) <= repetitions (encourager g) < L /\
      kill_sent g = kill_sent st
  | Raised _ => True
  end.
Proof.
  revert st. induction polls as [|p polls IH]; intros st Hlimit Hrep Hidx; simpl;
    rewrite (limit_not_reached_int _ L Hlimit);
    destruct (Z.eqb_spec (repetitions (encourager st)) L) as [Heq|Hne]; simpl;
    try (split; [exact Hidx|]; split; [lia|]; auto; fail).
  destruct (count_step pts tx ty _ (index st) (encourager st)) as [e|[i enc]] eqn:Hstep;
    [exact I|].
  apply count_step_inr in Hstep as (Hi & Hl & _ & Hr); [|exact Hidx].
  destruct (show_images p); [exact I|].
  destruct (quits p).
  - simpl. split; [exact Hi|]. split; [lia | right; reflexivity].
  - specialize (IH {| index := i; encourager := enc; kill_sent := kill_sent st |}).
      simpl in IH.
      destruct (game_loop pts tx ty polls _) as [g|g|e];
        [ destruct IH as (H1 & H2 & H3); [congruence | lia | exact Hi |];
          split; [exact H1|]; split; [lia | exact H3]
        | destruct IH as (H1 & H2 & H3); [congruence | lia | exact Hi |];
          split; [exact H1|]; split; [lia | exact H3]
        | exact I ].
Qed.

(** X14: turns at which the marker is lost (the centre is None) and
    nothing quits leave target index and count as they are: the loop goes on
    from the same state with the turns that follow. *)
Theorem game_loop_marker_lost (pts : list (option point)) (tx ty : Z)
  (lost more : list poll) (st : game) :
  limit_not_reached (encourager st) = true ->
  Forall (fun p => _center (thread_self (reader p)) = None /\
                   quits p = false /\ show_images p = inr tt) lost ->
  game_loop pts tx ty (lost ++ more) st = game_loop pts tx ty more st.
Proof.
  intros Hlimit Hlost. destruct st as [i enc ks]. simpl in Hlimit.
  induction Hlost as [|p lost (Hc & Hq & Hs) _ IH]; [reflexivity|].
  simpl. rewrite Hlimit, Hc, Hs, Hq. simpl. exact IH.
Qed.

(** X15: a None recorded as calibration point makes the game raise: at the
    first turn that sees the marker while the target is that point, the loop
    raises TypeError, however close or far the marker is. *)
Theorem game_loop_none_target (pts : list (option point)) (tx ty : Z)
  (lost more : list poll) (p : poll) (c : point) (st : game) :
  limit_not_reached (encourager st) = true ->
  pts !! index st = Some None ->
  Forall (fun p => _center (thread_self (reader p)) = None /\
                   quits p = false /\ show_images p = inr tt) lost ->
  _center (thread_self (reader p)) = Some c ->
  game_loop pts tx ty (lost ++ p :: more) st
  = Raised (TypeError "'NoneType' object has no attribute '__getitem__'").
Proof.
  intros Hlimit Hpt Hlost Hc.
  induction Hlost as [|q lost (Hqc & Hq & Hs) _ IH].
  - simpl. rewrite Hlimit, Hc. simpl. unfold count_step. now rewrite Hpt.
  - destruct st as [i enc ks]. simpl in *.
    rewrite Hlimit, Hqc, Hs, Hq. simpl. exact IH.
Qed.

End GameLoop.

Section FullCycle.
Context {frame : Type}.

Local Abbreviation poll := (@poll frame).

Lemma game_loop_rest_of_cycle (tx ty : Z) (more : list poll) (enc : EncouragerUnit)
  (ks : bool) (polls : list poll) (suf : list point) :
  Forall2 (visits tx ty) polls suf ->
  suf <> [] ->
  limit_not_reached enc = true ->
  forall (pre : list point) enc',
    inc_repetitions_counter enc = inr enc' ->
    game_loop (Some <$> (pre ++ suf)%list) tx ty (polls ++ more)%list
      {| index := length pre; encourager := enc; kill_sent := ks |}
    = game_loop (Some <$> (pre ++ suf)%list) tx ty more
        {| index := 0; encourager := enc'; kill_sent := ks |}.
Proof.
  intros Hvisits. induction Hvisits as [|p c polls suf Hp Hrest IH];
    intros Hne Hlimit pre enc' Hinc; [congruence|].
  destruct Hp as ((c' & Hc' & Hin) & Hq & Hs).
  cbn [app game_loop index encourager kill_sent]. rewrite Hlimit. cbn [negb].
  rewrite Hc'. unfold count_step.
  rewrite list_lookup_fmap, list_lookup_middle by reflexivity.
  cbn [fmap option_fmap option_map]. rewrite Hin, length_fmap, length_app.
  destruct suf as [|c2 suf]; cbn [length].
  - inversion Hrest; subst.
    replace (S (length pre) =? length pre + 1)%nat with true
      by (symmetry; apply Nat.eqb_eq; lia).
    rewrite Hinc. cbn. rewrite Hs, Hq. reflexivity.
  - replace (S (length pre) =? length pre + S (S (length suf)))%nat with false
      by (symmetry; apply Nat.eqb_neq; lia).
    cbn. rewrite Hs, Hq.
    specialize (IH ltac:(discriminate) Hlimit (pre ++ [c])%list enc' Hinc).
    rewrite <- app_assoc in IH. cbn [app] in IH.
    rewrite length_app in IH. cbn [length] in IH.
    replace (length pre + 1)%nat with (S (length pre)) in IH by lia.
    exact IH.
Qed.

(** X16: one full cycle is one repetition: from target 0, a run of turns
    that see the marker within tolerance of each calibration point in order
    (nothing quitting) leaves the loop at target 0 again with the count
    raised by exactly one, ready for the turns that follow. *)
Theorem game_loop_full_cycle (pts : list point) (tx ty : Z) (polls more : list poll)
  (enc : EncouragerUnit) (ks : bool) (L : Z) :
  pts <> [] ->
  Forall2 (visits tx ty) polls pts ->
  repetitions_limit enc = PyInt L ->
  repetitions enc < L ->
  (3 <= length (sentences enc))%nat ->
  exists enc',
    inc_repetitions_counter enc = inr enc' /\
    repetitions enc' = repetitions enc + 1 /\
    game_loop (Some <$> pts) tx ty (polls ++ more)%list
      {| index := 0; encourager := enc; kill_sent := ks |}
    = game_loop (Some <$> pts) tx ty more
        {| index := 0; encourager := enc'; kill_sent := ks |}.
Proof.
  intros Hne Hvisits Hlimit Hrep Hlen.
  destruct (inc_repetitions_counter_ok enc Hlen) as (enc' & Hinc & Hr & _).
  { rewrite Hlimit. eexists. reflexivity. }
  exists enc'. split; [exact Hinc|]. split; [exact Hr|].
  assert (Hnot : limit_not_reached enc = true).
  { rewrite (limit_not_reached_int _ L Hlimit).
    apply negb_true_iff, Z.eqb_neq. lia. }
  exact (game_loop_rest_of_cycle tx ty more enc ks polls pts Hvisits Hne Hnot [] enc' Hinc).
Qed.

End FullCycle.

(** ** What calibration says and leaves behind *)

Section CalibrationVoice.
Context {frame : Type}.

Local Abbreviation poll := (@poll frame).

Lemma start_timer_prompted (base : list string) (k : nat) (p : poll) (st : calibration) :
  prompted base k st -> exists k', prompted base k' (start_timer p st).
Proof.
  intros (Hpub & Hk & Hnext). unfold start_timer.
  destruct (timer st) as [| |t] eqn:Ht.
  1,2: destruct (0 <? length (points st))%nat eqn:Hpos;
    [ apply Nat.ltb_lt in Hpos; exists (S k); split;
      [ cbn; rewrite Hpub, <- app_assoc, <- repeat_cons; reflexivity
      | split; [cbn; apply Hnext; [intros t; first [rewrite Ht; discriminate | discriminate] | exact Hpos]
               | cbn; intros H; exfalso; exact (H _ eq_refl)] ]
    | exists k; split; [exact Hpub|]; split; [exact Hk|];
      cbn; intros H; exfalso; exact (H _ eq_refl) ].
  exists k. split; [exact Hpub|]. split; [exact Hk|].
  intros H. exfalso. exact (H t Ht).
Qed.

Lemma store_point_prompted (base : list string) (k : nat) (p : poll) (st : calibration) :
  prompted base k st -> prompted base k (store_point p st).
Proof.
  intros (Hpub & Hk & Hnext). unfold store_point.
  destruct (timer st) as [| |t] eqn:Ht.
  - split; [exact Hpub|]. split; [exact Hk|]. intros H. apply Hnext.
    intros t. first [rewrite Ht; discriminate | discriminate].
  - split; [exact Hpub|]. split; [exact Hk|]. intros H. apply Hnext.
    intros t. first [rewrite Ht; discriminate | discriminate].
  - destruct (is_alive (Timer_thread t (now p))); cbn [negb].
    + split; [exact Hpub|]. split; [exact Hk|]. intros H.
      exfalso. first [exact (H t Ht) | exact (H t eq_refl)].
    + unfold prompted. cbn [points timer voice].
      split; [exact Hpub|]. rewrite length_app. cbn [length]. split; lia.
Qed.

Lemma calibrate_loop_prompted (n : nat) (base : list string) (polls : list poll)
  (st : calibration) (k : nat) :
  prompted base k st ->
  match calibrate_loop n polls st with
  | Finished st' | Pending st' => exists k', prompted base k' st'
  | Raised _ => True
  end.
Proof.
  revert st k. induction polls as [|p polls IH]; intros st k Hst; simpl.
  - destruct (length (points st) <? n)%nat; simpl; eauto.
  - destruct (length (points st) <? n)%nat; simpl; [|eauto].
    destruct (_img_modified (thread_self (reader p))); [|exact I].
    destruct (start_timer_prompted base k p st Hst) as (k1 & Hk1).
    pose proof (store_point_prompted base k1 p _ Hk1) as Hk2.
    destruct (show_images p); [exact I|].
    destruct (quits p); [eauto|].
    exact (IH _ k1 Hk2).
Qed.

(** X17: [calibrate] opens with its announcement and, whenever it
    returns, closes with "Calibration completed!", also when a quit ended it
    with fewer points than required; in between it only says the prompt for
    the next position, at most once per recorded point. *)
Theorem calibrate_announcements (self : @SimpleMotionExercise frame) (polls : list poll) :
  match calibrate self true polls with
  | Finished st =>
      exists k, (k <= length (points st))%nat /\
        published (voice st)
        = (published (_encourager (exercise self))
             ++ msg_calibrating :: repeat msg_next k ++ [msg_completed])%list
  | Pending st =>
      exists k, (k <= length (points st))%nat /\
        published (voice st)
        = (published (_encourager (exercise self))
             ++ msg_calibrating :: repeat msg_next k)%list
  | Raised _ => True
  end.
Proof.
  unfold calibrate. cbn [negb].
  match goal with
  | |- context [calibrate_loop ?n polls ?s] =>
      pose proof (calibrate_loop_prompted n
                    (published (_encourager (exercise self)) ++ [msg_calibrating])%list
                    polls s 0) as H;
      destruct (calibrate_loop n polls s) as [st|st|e]
  end; [| |exact I].
  - destruct H as (k & Hpub & Hk & _).
    { split; [cbn; now rewrite app_nil_r|]. split; [cbn; lia|]. cbn. lia. }
    exists k. split; [exact Hk|]. cbn. rewrite Hpub.
    rewrite <- !app_assoc. reflexivity.
  - destruct H as (k & Hpub & Hk & _).
    { split; [cbn; now rewrite app_nil_r|]. split; [cbn; lia|]. cbn. lia. }
    exists k. split; [exact Hk|]. rewrite Hpub.
    rewrite <- !app_assoc. reflexivity.
Qed.

(** X18: the motion type is not validated: for one that equals neither
    FLEXION nor ABDUCTION no point is asked for, so [calibrate] returns at
    once with an empty set (having announced completion), and [start_game]
    after it raises "Device was not calibrated!". *)
Theorem calibrate_unknown_motion_type (self : @SimpleMotionExercise frame)
  (polls polls' : list poll) :
  eq_int (_motion_type self) MotionType.FLEXION = false ->
  eq_int (_motion_type self) MotionType.ABDUCTION = false ->
  exists st,
    calibrate self true polls = Finished st /\
    points st = [] /\
    published (voice st)
    = (published (_encourager (exercise self)) ++ [msg_calibrating; msg_completed])%list /\
    start_game (calibrated self st) true polls'
    = Raised (Exception "Device was not calibrated!").
Proof.
  intros Hf Ha. unfold calibrate, number_of_calibration_points.
  rewrite Hf, Ha. cbn [negb orb].
  destruct polls; cbn; eexists; (split; [reflexivity|]); cbn;
    (split; [reflexivity|]); (split; [now rewrite <- app_assoc | reflexivity]).
Qed.

End CalibrationVoice.

(** ** Construction of an exercise *)

Lemma check_repetitions_limit_inr (v v' : pyval) :
  check_repetitions_limit v = inr v' <-> v' = v /\ in_ints v (range 1 100) = true.
Proof.
  unfold check_repetitions_limit.
  destruct (in_ints v (range 1 100)); simpl; split.
  - intros [= <-]. auto.
  - intros [-> _]. reflexivity.
  - discriminate.
  - intros [_ H]. discriminate.
Qed.

Lemma check_limb_inr (v : pyval) (l : Z) :
  check_limb v = inr l <-> v = PyInt l /\ 0 <= l < 4.
Proof.
  unfold check_limb. split.
  - destruct v; try discriminate.
    destruct (mem n (range 0 4)) eqn:Hm; [|discriminate].
    simpl. intros [= <-]. apply mem_range in Hm. auto.
  - intros (-> & Hd). apply mem_range in Hd. now rewrite Hd.
Qed.

Lemma check_time_limit_inr (v : pyval) (t : Z) :
  check_time_limit v = inr t <-> v = PyInt t /\ 0 <= t < 7200.
Proof.
  unfold check_time_limit. split.
  - destruct v; try discriminate.
    destruct (mem n (range 0 7200)) eqn:Hm; [|discriminate].
    simpl. intros [= <-]. apply mem_range in Hm. auto.
  - intros (-> & Hd). apply mem_range in Hd. now rewrite Hd.
Qed.

Lemma check_color_inr (v : pyval) (c : Z) :
  check_color v = inr c <-> v = PyInt c /\ 0 <= c < 3.
Proof.
  unfold check_color. split.
  - destruct v; try discriminate.
    destruct (mem n (range 0 3)) eqn:Hm; [|discriminate].
    simpl. intros [= <-]. apply mem_range in Hm. auto.
  - intros (-> & Hd). apply mem_range in Hd. now rewrite Hd.
Qed.

Section Construction2.
Context {frame : Type}.
Variable isfile : string -> bool.
Variable parse_args : list string -> result Namespace.
Variable ros_up : bool -> option exn.
Variable readlines : result (list string).

Local Abbreviation init := (Exercise_init (frame := frame) isfile parse_args ros_up readlines).
Local Abbreviation VideoReader := (@VideoReader frame).

Lemma VideoReader_init_inr (cr : pyval) (path : string) (c : pyval) (r : VideoReader) :
  VideoReader_init isfile cr path c = inr r <->
  exists w h col,
    cr = PyTuple [PyInt w; PyInt h] /\ In w camera_widths /\ In h camera_heights /\
    (String.eqb path "" || isfile path = true) /\
    c = PyInt col /\ 0 <= col < 3 /\
    r = {| _camera_width := w; _camera_height := h; _path_to_video := path;
           _color := col; _center := None; _radius := 0%Q;
           _kill_thread := false; _img_original := None; _img_modified := None |}.
Proof.
  unfold VideoReader_init. split.
  - intros H. bind_inv H as wh Hwh. destruct wh as [w h].
    apply check_camera_resolution_inr in Hwh as (-> & Hw & Hh).
    bind_inv H as r1 Hr1. bind_inv H as r2 Hr2. injection H as <-.
    unfold set_path_to_video in Hr1.
    destruct (String.eqb path "" || isfile path) eqn:Hp; [|discriminate].
    injection Hr1 as <-.
    unfold set_color in Hr2. bind_inv Hr2 as col Hcol. injection Hr2 as <-.
    apply check_color_inr in Hcol as (-> & Hcol).
    exists w, h, col. auto 10.
  - intros (w & h & col & -> & Hw & Hh & Hp & -> & Hcol & ->).
    assert (Hcr : check_camera_resolution (PyTuple [PyInt w; PyInt h]) = inr (w, h))
      by (apply check_camera_resolution_inr; auto).
    rewrite Hcr. cbn [mbind result_bind]. unfold set_path_to_video. rewrite Hp.
    cbn [mbind result_bind mret result_ret]. unfold set_color.
    assert (Hc : check_color (PyInt col) = inr col) by (apply check_color_inr; auto).
    rewrite Hc. reflexivity.
Qed.

(** Everything a successful [Exercise.__init__] went through, and the
    object it built. *)
Lemma Exercise_init_fields (a : init_args) (ex : Exercise) :
  init a = inr ex <->
  exists d limb tl reader0 reader spawn lines w h,
    in_ints (arg_repetitions_limit a) (range 1 100) = true /\
    check_calibration_duration (arg_calibration_duration a) = inr d /\
    check_limb (arg_limb a) = inr limb /\
    check_time_limit (arg_time_limit a) = inr tl /\
    VideoReader_init isfile (arg_camera_resolution a) (arg_path_to_video a) (arg_color a)
    = inr reader0 /\
    match arg_argv a with
    | Some argv => process_args isfile parse_args argv reader0 false
    | None => inr (reader0, false)
    end = inr (reader, spawn) /\
    ros_up spawn = None /\ readlines = inr lines /\
    arg_camera_resolution a = PyTuple [PyInt w; PyInt h] /\
    ex = {| _repetitions_limit := arg_repetitions_limit a;
            _calibration_duration := d;
            _calibration_points := if d >? 0 then Some [] else None;
            camera_resolution := arg_camera_resolution a;
            _limb := limb; _time_limit := tl; _spawn_nodes := spawn;
            _video_reader := reader;
            _encourager := {| repetitions := 0;
                              repetitions_limit := arg_repetitions_limit a;
                              sentences := lines; published := [] |};
            _tolerance_x := fst (tolerances w h);
            _tolerance_y := snd (tolerances w h) |}.
Proof.
  unfold Exercise_init. split.
  - intros H.
    bind_inv H as limit Hlimit. apply check_repetitions_limit_inr in Hlimit as (-> & Hlimit).
    bind_inv H as d Hd. bind_inv H as limb Hlimb. bind_inv H as tl Htl.
    bind_inv H as reader0 Hreader0.
    pose proof Hreader0 as Hres.
    apply VideoReader_init_resolution in Hres as (w & h & Hwh).
    apply check_camera_resolution_inr in Hwh as (Hcr & Hw & Hh).
    bind_inv H as rs Hrs. destruct rs as [reader spawn].
    bind_inv H as enc Henc.
    unfold EncouragerUnit_init in Henc.
    destruct (ros_up spawn) eqn:Hros; [discriminate|].
    bind_inv Henc as lines Hlines. injection Henc as <-.
    rewrite Hcr in H. injection H as <-.
    exists d, limb, tl, reader0, reader, spawn, lines, w, h.
    rewrite <- Hcr. auto 12.
  - intros (d & limb & tl & reader0 & reader & spawn & lines & w & h &
            Hlimit & Hd & Hlimb & Htl & Hreader0 & Hargs & Hros & Hlines & Hcr & ->).
    assert (Hl : check_repetitions_limit (arg_repetitions_limit a)
                 = inr (arg_repetitions_limit a))
      by (apply check_repetitions_limit_inr; auto).
    rewrite Hl, Hd, Hlimb, Htl, Hreader0. cbn [mbind result_bind].
    replace (match arg_argv a with
             | Some argv => process_args isfile parse_args argv reader0 false
             | None => mret (reader0, false)
             end) with (inr (reader, spawn) : result (VideoReader * bool)).
    cbn [mbind result_bind]. unfold EncouragerUnit_init. rewrite Hros, Hlines.
    cbn [mbind result_bind mret result_ret]. rewrite Hcr. reflexivity.
Qed.

End Construction2.

Section Construction3.
Context {frame : Type}.
Variable isfile : string -> bool.
Variable parse_args : list string -> result Namespace.
Variable ros_up : bool -> option exn.
Variable readlines : result (list string).

Local Abbreviation init := (Exercise_init (frame := frame) isfile parse_args ros_up readlines).
Local Abbreviation VideoReader := (@VideoReader frame).

(** X19: an exercise that was never calibrated cannot start its game, but
    how it fails depends on the calibration duration it was constructed
    with: with a positive duration the calibration list exists and is empty,
    and [start_game] raises "Device was not calibrated!"; with duration 0 the
    list was never created, and [start_game] raises AttributeError. *)
Theorem start_game_before_calibrate (a : init_args) (ex : Exercise) (polls : list poll) :
  init a = inr ex ->
  (0 < _calibration_duration ex ->
   _calibration_points ex = Some [] /\
   start_game ex true polls = Raised (Exception "Device was not calibrated!"))
  /\ (_calibration_duration ex = 0 ->
      _calibration_points ex = None /\
      start_game ex true polls
      = Raised (AttributeError "object has no attribute '_calibration_points'"))
  /\ 0 <= _calibration_duration ex < 30.
Proof.
  intros H. apply Exercise_init_fields in H
    as (d & limb & tl & reader0 & reader & spawn & lines & w & h &
        _ & Hd & _ & _ & _ & _ & _ & _ & _ & ->).
  apply check_calibration_duration_inr in Hd as (_ & Hd).
  unfold start_game. cbn. split; [|split; [|exact Hd]].
  - intros Hpos. destruct (Z.gtb_spec d 0); [|lia]. split; reflexivity.
  - intros ->. cbn. split; reflexivity.
Qed.

(** X20: [process_args] leaves the reader and the spawn flag alone for an
    empty argv; for a non-empty one the three options --width, --height and
    --color are in effect mandatory: it succeeds only when the parsed width
    and height are ints from the two lists and the colour one of the three
    names, and then sets resolution, colour, path (empty when none was
    given) and spawn flag; a missing width or height is a TypeError, a
    missing colour a ValueError. *)
Theorem process_args_requires_options (reader : VideoReader) (spawn : bool) :
  process_args isfile parse_args [] reader spawn = inr (reader, spawn)
  /\ (forall argv reader' spawn',
        argv <> [] ->
        process_args isfile parse_args argv reader spawn = inr (reader', spawn') ->
        exists args w h c,
          parse_args argv = inr args /\
          width args = PyInt w /\ height args = PyInt h /\
          In w camera_widths /\ In h camera_heights /\
          string_to_color (color args) = inr c /\
          spawn' = spawn_nodes args /\
          reader' = with_path (default "" (path_to_video args))
                      (with_color c (with_resolution w h reader)))
  /\ (forall argv args,
        argv <> [] -> parse_args argv = inr args ->
        width args = PyNone \/ height args = PyNone ->
        process_args isfile parse_args argv reader spawn
        = inl (TypeError "Tuple must only contain integers!"))
  /\ (forall argv args w h,
        argv <> [] -> parse_args argv = inr args ->
        width args = PyInt w -> height args = PyInt h ->
        In w camera_widths -> In h camera_heights ->
        color args = PyNone ->
        process_args isfile parse_args argv reader spawn
        = inl (ValueError "Cannot convert unrecognized string to color type!")).
Proof.
  split; [reflexivity|]. split; [|split].
  - intros argv reader' spawn' Hne H. unfold process_args in H.
    destruct argv as [|x argv]; [congruence|]. cbn [length Nat.ltb Nat.leb] in H.
    bind_inv H as args Hargs. bind_inv H as r1 Hr1.
    unfold set_camera_resolution in Hr1. bind_inv Hr1 as wh Hwh. destruct wh as [w h].
    injection Hr1 as <-.
    apply check_camera_resolution_inr in Hwh as (Hcr & Hw & Hh).
    injection Hcr as Hwidth Hheight.
    bind_inv H as c Hc. bind_inv H as r2 Hr2.
    unfold set_color in Hr2. bind_inv Hr2 as c' Hc'. injection Hr2 as <-.
    apply check_color_inr in Hc' as ([= <-] & _).
    bind_inv H as r3 Hr3. injection H as <- <-.
    exists args, w, h, c. repeat split; try assumption.
    destruct (path_to_video args) as [p|]; unfold set_path_to_video in Hr3; cbn.
    + destruct (String.eqb p "" || isfile p); [|discriminate]. now injection Hr3.
    + cbn in Hr3. now injection Hr3.
  - intros argv args Hne Hargs Hmissing. unfold process_args.
    destruct argv as [|x argv]; [congruence|]. cbn [length Nat.ltb Nat.leb].
    rewrite Hargs. cbn [mbind result_bind]. unfold set_camera_resolution.
    destruct Hmissing as [-> | Hh].
    + reflexivity.
    + rewrite Hh. destruct (width args); reflexivity.
  - intros argv args w h Hne Hargs Hw Hh Hinw Hinh Hcolor. unfold process_args.
    destruct argv as [|x argv]; [congruence|]. cbn [length Nat.ltb Nat.leb].
    rewrite Hargs. cbn [mbind result_bind]. unfold set_camera_resolution.
    rewrite Hw, Hh.
    assert (Hcr : check_camera_resolution (PyTuple [PyInt w; PyInt h]) = inr (w, h))
      by (apply check_camera_resolution_inr; auto).
    rewrite Hcr, Hcolor. reflexivity.
Qed.

(** X21: the tolerances do not follow the command line: when a non-empty
    argv is given, the reader takes the resolution parsed from it, while the
    tolerances are still computed from the [camera_resolution] argument of
    the constructor. *)
Theorem tolerances_ignore_argv (a : init_args) (ex : Exercise) (argv : list string) :
  init a = inr ex ->
  arg_argv a = Some argv ->
  argv <> [] ->
  exists args w h w' h',
    parse_args argv = inr args /\
    width args = PyInt w' /\ height args = PyInt h' /\
    _camera_width (_video_reader ex) = w' /\
    _camera_height (_video_reader ex) = h' /\
    arg_camera_resolution a = PyTuple [PyInt w; PyInt h] /\
    _tolerance_x ex = fst (tolerances w h) /\
    _tolerance_y ex = snd (tolerances w h) /\
    _spawn_nodes ex = spawn_nodes args.
Proof.
  intros H Hargv Hne. apply Exercise_init_fields in H
    as (d & limb & tl & reader0 & reader & spawn & lines & w & h &
        _ & _ & _ & _ & _ & Hpa & _ & _ & Hcr & ->).
  rewrite Hargv in Hpa. unfold process_args in Hpa.
  destruct argv as [|x argv]; [congruence|]. cbn [length Nat.ltb Nat.leb] in Hpa.
  bind_inv Hpa as args Hargs. bind_inv Hpa as r1 Hr1.
  unfold set_camera_resolution in Hr1. bind_inv Hr1 as wh Hwh. destruct wh as [w' h'].
  injection Hr1 as <-.
  apply check_camera_resolution_inr in Hwh as (Hcr' & _ & _).
  injection Hcr' as Hwidth Hheight.
  bind_inv Hpa as c Hc. bind_inv Hpa as r2 Hr2.
  unfold set_color in Hr2. bind_inv Hr2 as c' Hc'. injection Hr2 as <-.
  bind_inv Hpa as r3 Hr3. injection Hpa as <- <-.
  exists args, w, h, w', h'. cbn.
  assert (Hkeep : _camera_width r3 = w' /\ _camera_height r3 = h').
  { destruct (path_to_video args) as [p|]; unfold set_path_to_video in Hr3.
    - destruct (String.eqb p "" || isfile p); [|discriminate].
      injection Hr3 as <-. split; reflexivity.
    - cbn in Hr3. injection Hr3 as <-. split; reflexivity. }
  destruct Hkeep as [Hkw Hkh]. repeat split; assumption || reflexivity.
Qed.

(** X22: with no argv, [Exercise.__init__] succeeds exactly when the limit
    equals an int 1 to 99, duration, limb and time limit are ints in 0..29,
    0..3 and 0..7199, the resolution is a pair from the two lists, the path
    is empty or an existing file, the colour an int 0 to 2, the ROS set-up
    (with no nodes spawned) goes through and the sentences file can be read;
    and it then builds the object given here. *)
Theorem Exercise_init_without_argv (a : init_args) (ex : Exercise) :
  arg_argv a = None ->
  (init a = inr ex <->
   exists d limb tl w h col lines,
     in_ints (arg_repetitions_limit a) (range 1 100) = true /\
     (arg_calibration_duration a = PyInt d /\ 0 <= d < 30) /\
     (arg_limb a = PyInt limb /\ 0 <= limb < 4) /\
     (arg_time_limit a = PyInt tl /\ 0 <= tl < 7200) /\
     (arg_camera_resolution a = PyTuple [PyInt w; PyInt h] /\
      In w camera_widths /\ In h camera_heights) /\
     (String.eqb (arg_path_to_video a) "" || isfile (arg_path_to_video a) = true) /\
     (arg_color a = PyInt col /\ 0 <= col < 3) /\
     ros_up false = None /\ readlines = inr lines /\
     ex = {| _repetitions_limit := arg_repetitions_limit a;
             _calibration_duration := d;
             _calibration_points := if d >? 0 then Some [] else None;
             camera_resolution := arg_camera_resolution a;
             _limb := limb; _time_limit := tl; _spawn_nodes := false;
             _video_reader :=
               {| _camera_width := w; _camera_height := h;
                  _path_to_video := arg_path_to_video a; _color := col;
                  _center := None; _radius := 0%Q; _kill_thread := false;
                  _img_original := None; _img_modified := None |};
             _encourager := {| repetitions := 0;
                               repetitions_limit := arg_repetitions_limit a;
                               sentences := lines; published := [] |};
             _tolerance_x := fst (tolerances w h);
             _tolerance_y := snd (tolerances w h) |}).
Proof.
  intros Hargv. rewrite Exercise_init_fields. rewrite Hargv. split.
  - intros (d & limb & tl & reader0 & reader & spawn & lines & w & h &
            Hlimit & Hd & Hlimb & Htl & Hreader0 & Hpa & Hros & Hlines & Hcr & ->).
    injection Hpa as <- <-.
    apply check_calibration_duration_inr in Hd.
    apply check_limb_inr in Hlimb. apply check_time_limit_inr in Htl.
    apply VideoReader_init_inr in Hreader0
      as (w' & h' & col & Hcr' & Hw & Hh & Hp & Hcol & Hcolr & ->).
    rewrite Hcr in Hcr'. injection Hcr' as <- <-.
    exists d, limb, tl, w, h, col, lines. auto 12.
  - intros (d & limb & tl & w & h & col & lines &
            Hlimit & Hd & Hlimb & Htl & (Hcr & Hw & Hh) & Hp & (Hcol & Hcolr) &
            Hros & Hlines & ->).
    eexists d, limb, tl, _, _, false, lines, w, h.
    split; [exact Hlimit|].
    split; [apply check_calibration_duration_inr; exact Hd|].
    split; [apply check_limb_inr; exact Hlimb|].
    split; [apply check_time_limit_inr; exact Htl|].
    split; [apply VideoReader_init_inr; exists w, h, col; auto 10|].
    split; [reflexivity|]. auto.
Qed.

(** X23: the public constructor of SimpleMotionExercise drops its
    [time_limit] argument: whatever is passed, valid or not, has no effect on
    the outcome, a constructed exercise has time limit 0 and an empty video
    path argument, and the motion type is stored as given. *)
Theorem simple_motion_drops_time_limit (a : init_args) (motion_type : pyval) :
  (forall (time_limit : pyval) (path : string),
      new_SimpleMotionExercise (frame := frame) isfile parse_args ros_up readlines
        {| arg_repetitions_limit := arg_repetitions_limit a;
           arg_calibration_duration := arg_calibration_duration a;
           arg_camera_resolution := arg_camera_resolution a;
           arg_color := arg_color a; arg_argv := arg_argv a;
           arg_limb := arg_limb a; arg_time_limit := time_limit;
           arg_path_to_video := path |} motion_type
      = new_SimpleMotionExercise isfile parse_args ros_up readlines a motion_type)
  /\ (forall sm,
        new_SimpleMotionExercise (frame := frame) isfile parse_args ros_up readlines
          a motion_type = inr sm ->
        _time_limit (exercise sm) = 0 /\ _motion_type sm = motion_type /\
        (arg_argv a = None -> _path_to_video (_video_reader (exercise sm)) = "")).
Proof.
  split; [reflexivity|].
  intros sm H. unfold new_SimpleMotionExercise in H. cbn in H.
  unfold SimpleMotionExercise_init in H. bind_inv H as ex Hex. injection H as <-.
  apply Exercise_init_fields in Hex
    as (d & limb & tl & reader0 & reader & spawn & lines & w & h &
        _ & _ & _ & Htl & Hreader0 & Hpa & _ & _ & _ & ->).
  cbn in Htl. injection Htl as <-. cbn. repeat split.
  intros Hargv. cbn in Hpa. rewrite Hargv in Hpa. injection Hpa as <- <-.
  apply VideoReader_init_inr in Hreader0
    as (w' & h' & col & _ & _ & _ & _ & _ & _ & ->).
  reflexivity.
Qed.

End Construction3.

(** ** Resolution and tolerances of a constructed exercise *)

Lemma allowed_resolutions_In (w h : Z) :
  In (w, h) allowed_resolutions <-> In w camera_widths /\ In h camera_heights.
Proof. unfold allowed_resolutions. apply in_prod_iff. Qed.

Lemma check_camera_resolution_allowed (cr : pyval) (w h : Z) :
  check_camera_resolution cr = inr (w, h) <->
  cr = PyTuple [PyInt w; PyInt h] /\ In (w, h) allowed_resolutions.
Proof. rewrite check_camera_resolution_inr, allowed_resolutions_In. reflexivity. Qed.



Section Construction4.
Context {frame : Type}.
Variable isfile : string -> bool.
Variable parse_args : list string -> result Namespace.
Variable ros_up : bool -> option exn.
Variable readlines : result (list string).

Local Abbreviation init := (Exercise_init (frame := frame) isfile parse_args ros_up readlines).
Local Abbreviation VideoReader := (@VideoReader frame).

(** What [process_args] leaves as the reader's resolution: the one it had
    for an empty argv, one the setter accepted otherwise. *)
Lemma process_args_resolution (argv : list string) (reader reader' : VideoReader)
  (spawn spawn' : bool) :
  process_args isfile parse_args argv reader spawn = inr (reader', spawn') ->
  (argv = [] /\ reader' = reader) \/
  (argv <> [] /\ In (_camera_width reader', _camera_height reader') allowed_resolutions).
Proof.
  unfold process_args. destruct argv as [|x argv]; cbn [length Nat.ltb Nat.leb].
  - intros [= <- <-]. left. auto.
  - intros H. right. split; [discriminate|].
    bind_inv H as args Hargs. bind_inv H as r1 Hr1.
    unfold set_camera_resolution in Hr1. bind_inv Hr1 as wh Hwh. destruct wh as [w h].
    injection Hr1 as <-.
    apply check_camera_resolution_allowed in Hwh as (_ & Hin).
    bind_inv H as c Hc. bind_inv H as r2 Hr2.
    unfold set_color in Hr2. bind_inv Hr2 as c' Hc'. injection Hr2 as <-.
    bind_inv H as r3 Hr3. injection H as <- <-.
    destruct (path_to_video args) as [p|]; unfold set_path_to_video in Hr3.
    + destruct (String.eqb p "" || isfile p); [|discriminate].
      injection Hr3 as <-. exact Hin.
    + cbn in Hr3. injection Hr3 as <-. exact Hin.
Qed.

(** The resolution the reader of a constructed exercise works at. *)
Lemma Exercise_init_reader_resolution (a : init_args) (ex : Exercise) :
  init a = inr ex ->
  exists w h,
    arg_camera_resolution a = PyTuple [PyInt w; PyInt h] /\
    In (w, h) allowed_resolutions /\
    _tolerance_x ex = fst (tolerances w h) /\
    _tolerance_y ex = snd (tolerances w h) /\
    In (_camera_width (_video_reader ex), _camera_height (_video_reader ex))
       allowed_resolutions /\
    (arg_argv a = None \/ arg_argv a = Some [] ->
     _camera_width (_video_reader ex) = w /\ _camera_height (_video_reader ex) = h).
Proof.
  intros H. apply Exercise_init_fields in H
    as (d & limb & tl & reader0 & reader & spawn & lines & w & h &
        _ & _ & _ & _ & Hreader0 & Hpa & _ & _ & Hcr & ->).
  apply VideoReader_init_inr in Hreader0
    as (w' & h' & col & Hcr' & Hw & Hh & _ & _ & _ & ->).
  rewrite Hcr in Hcr'. injection Hcr' as <- <-.
  assert (Hin : In (w, h) allowed_resolutions) by (apply allowed_resolutions_In; auto).
  exists w, h. cbn. split; [exact Hcr|]. split; [exact Hin|].
  split; [reflexivity|]. split; [reflexivity|].
  destruct (arg_argv a) as [argv|].
  - apply process_args_resolution in Hpa as [[-> ->] | [Hne Hin']].
    + split; [exact Hin|]. intros _. split; reflexivity.
    + split; [exact Hin'|]. intros [H|H]; [discriminate | congruence].
  - injection Hpa as <- <-. split; [exact Hin|]. intros _. split; reflexivity.
Qed.

(** C5 (amended): for every construction that succeeds, the
    [camera_resolution] argument (width, height) is one the setter accepts,
    toleranceX is width/8 and toleranceY is height/8 (integer division),
    except that toleranceX is width/6 when the width exceeds twice the height
    and toleranceY is height/6 when the height exceeds twice the width; both
    tolerances are positive; and with no argv, or an empty one, (width,
    height) is the resolution the reader works at. *)
Theorem tolerances_of_accepted_resolution (a : init_args) (ex : Exercise) :
  init a = inr ex ->
  exists w h,
    arg_camera_resolution a = PyTuple [PyInt w; PyInt h] /\
    In (w, h) allowed_resolutions /\
    _tolerance_x ex = (if w >? 2 * h then w / 6 else w / 8) /\
    _tolerance_y ex = (if h >? 2 * w then h / 6 else h / 8) /\
    0 < _tolerance_x ex /\ 0 < _tolerance_y ex /\
    (arg_argv a = None \/ arg_argv a = Some [] ->
     _camera_width (_video_reader ex) = w /\ _camera_height (_video_reader ex) = h).
Proof.
  intros H. apply Exercise_init_reader_resolution in H
    as (w & h & Hcr & Hin & Hx & Hy & _ & Hreader).
  pose proof Hin as Hwh. apply allowed_resolutions_In in Hwh as [Hw Hh].
  apply camera_widths_bounds in Hw. apply camera_heights_bounds in Hh.
  exists w, h. rewrite Hx, Hy, tolerances_spec by lia. cbn [fst snd].
  split; [exact Hcr|]. split; [exact Hin|].
  split; [reflexivity|]. split; [reflexivity|].
  split; [|split; [|exact Hreader]].
  - destruct (w >? 2 * h); apply Z.div_str_pos; lia.
  - destruct (h >? 2 * w); apply Z.div_str_pos; lia.
Qed.


End Construction4.

(** The default arguments build an exercise with the tolerances of 640x480,
    the resolution of its reader. *)
Lemma tolerances_of_accepted_resolution_witness :
  exists ex, Sample.Exercise_init default_args = inr ex /\
             _tolerance_x ex = 80 /\ _tolerance_y ex = 60 /\
             _camera_width (_video_reader ex) = 640 /\
             _camera_height (_video_reader ex) = 480.
Proof.
  destruct (Sample.Exercise_init default_args) as [e|ex] eqn:E;
    [vm_compute in E; discriminate|].
  exists ex. split; [reflexivity|].
  destruct (tolerances_of_accepted_resolution (frame := list Sample.blob)
              Sample.isfile Sample.parse_args Sample.ros_up Sample.readlines
              default_args ex E)
    as (w & h & Hcr & _ & Hx & Hy & _ & _ & Hreader).
  injection Hcr as <- <-. destruct (Hreader (or_introl eq_refl)) as [Hw Hh].
  auto.
Defined.

(** C5 (counterexample): constructed with the default [camera_resolution]
    and a command line asking for 1920x1080, the exercise has a reader that
    accepted 1920x1080, and tolerances 80 and 60, not 1920/8 and 1080/8. *)
Lemma tolerances_of_accepted_resolution_counterexample :
  exists ex,
    Exercise_init (frame := list Sample.blob) Sample.isfile parse_full_hd
      Sample.ros_up Sample.readlines full_hd_args = inr ex /\
    _camera_width (_video_reader ex) = 1920 /\
    _camera_height (_video_reader ex) = 1080 /\
    In (1920, 1080) allowed_resolutions /\
    _tolerance_x ex = 80 /\ _tolerance_y ex = 60 /\
    _tolerance_x ex <> 1920 / 8 /\ _tolerance_y ex <> 1080 / 8.
Proof.
  eexists. split; [reflexivity|]. cbn.
  split; [reflexivity|]. split; [reflexivity|].
  split; [apply allowed_resolutions_In; simpl; auto 20|].
  split; [reflexivity|]. split; [reflexivity|]. split; discriminate.
Qed.

(** ** The properties above at concrete inputs *)

Lemma reported_center_is_centroid_witness :
  exists self',
    process_frame (thread_self (Sample.seeing None)) [speck; marker] = inr self' /\
    _center self' = Some (7, 9) /\ (2 <= _radius self')%Q.
Proof.
  eexists. split; [reflexivity|]. split; [reflexivity|].
  pose proof (reported_center_is_centroid (cv := Sample.cv)
                (thread_self (Sample.seeing None)) _ [speck; marker] eq_refl) as H.
  cbn in H. destruct H as (t & c0 & rest & _ & Hcs & _ & Hr & _ & Hrad & _).
  injection Hcs as <- <-. exact Hr.
Defined.

Lemma capture_loop_keeps_running_witness :
  exists self',
    run_loop (cv := Sample.cv) [frame_tick [marker]; frame_tick []]
      (thread_self (Sample.seeing None)) = Running self' /\
    show_images {| reader := Running self'; now := 0%Q; key := -1 |} = inr tt.
Proof.
  destruct (capture_loop_keeps_running (cv := Sample.cv)
              [frame_tick [marker]; frame_tick []]
              (thread_self (Sample.seeing None)) eq_refl eq_refl)
    as (self' & Hrun & _ & _ & _ & _ & _ & Himg).
  - repeat constructor; discriminate.
  - exists self'. split; [exact Hrun|]. apply Himg. discriminate.
Defined.

Lemma kill_request_stops_loop_witness :
  exists self',
    run_loop (cv := Sample.cv)
      ([frame_tick [marker]]
         ++ {| kill_requested := true; frame_read := Some [speck] |} :: [frame_tick []])
      (thread_self (Sample.seeing None)) = Returned self' /\
    _center self' = Some (7, 9) /\ _kill_thread self' = true.
Proof.
  eexists. split.
  - apply (kill_request_stops_loop (cv := Sample.cv) [frame_tick [marker]]
             [frame_tick []] {| kill_requested := true; frame_read := Some [speck] |}
             (thread_self (Sample.seeing None)) _ eq_refl eq_refl).
  - split; reflexivity.
Defined.

Lemma inc_repetitions_counter_announces_witness :
  exists e',
    inc_repetitions_counter (voice_at 4 10) = inr e' /\
    published e' = ["5"; "Half way there!"].
Proof.
  destruct (inc_repetitions_counter_announces (voice_at 4 10) 10
              "Half way there!" "Only one more!" "Well done!" [] eq_refl)
    as (e' & tail & Hinc & _ & _ & _ & Hpub & Hhalf & _); [lia | reflexivity |].
  exists e'. split; [exact Hinc|]. rewrite Hpub, (Hhalf eq_refl). reflexivity.
Defined.

Lemma inc_repetitions_counter_short_file_witness :
  inc_repetitions_counter
    {| repetitions := 9; repetitions_limit := PyInt 10;
       sentences := ["Half way there!"; "Only one more!"]; published := [] |}
  = inl (IndexError "list index out of range").
Proof.
  apply (inc_repetitions_counter_short_file
           {| repetitions := 9; repetitions_limit := PyInt 10;
              sentences := ["Half way there!"; "Only one more!"]; published := [] |}
           10 eq_refl); simpl; lia.
Defined.

Lemma game_loop_invariant_witness :
  match game_loop scenario_points 3 3 (scenario_polls [(0, 0); (10, 0); (0, 0)])
          {| index := 0; encourager := Sample.voice0 1; kill_sent := false |} with
  | Finished g => repetitions (encourager g) = 1 /\ (index g < 2)%nat
  | _ => False
  end.
Proof.
  pose proof (game_loop_invariant scenario_points 3 3
                (scenario_polls [(0, 0); (10, 0); (0, 0)])
                {| index := 0; encourager := Sample.voice0 1; kill_sent := false |}
                1 eq_refl) as H.
  cbn [encourager index Sample.voice0 repetitions] in H.
  specialize (H ltac:(lia) ltac:(simpl; lia)).
  destruct (game_loop scenario_points 3 3 _ _) as [g|g|e] eqn:E.
  - destruct H as (Hi & Hr & [Hl | Hk]); [split; [exact Hl | exact Hi]|].
    vm_compute in E. injection E as <-. discriminate Hk.
  - vm_compute in E. discriminate E.
  - vm_compute in E. discriminate E.
Defined.

Lemma game_loop_marker_lost_witness :
  game_loop scenario_points 3 3
    ([Sample.at_time 0 None (-1); Sample.at_time 1 None (-1)] ++ [])
    {| index := 1; encourager := Sample.voice0 10; kill_sent := false |}
  = Pending {| index := 1; encourager := Sample.voice0 10; kill_sent := false |}.
Proof.
  rewrite (game_loop_marker_lost (frame := list Sample.blob) scenario_points 3 3
             [Sample.at_time 0 None (-1); Sample.at_time 1 None (-1)] []).
  - reflexivity.
  - reflexivity.
  - repeat constructor.
Defined.

Lemma game_loop_none_target_witness :
  game_loop [Some (0, 0); None] 3 3
    ([Sample.at_time 0 None (-1)] ++ Sample.at_time 1 (Some (300, 200)) (-1) :: [])
    {| index := 1; encourager := Sample.voice0 10; kill_sent := false |}
  = Raised (TypeError "'NoneType' object has no attribute '__getitem__'").
Proof.
  apply (game_loop_none_target (frame := list Sample.blob) [Some (0, 0); None] 3 3
           [Sample.at_time 0 None (-1)] [] (Sample.at_time 1 (Some (300, 200)) (-1))
           (300, 200)).
  - reflexivity.
  - reflexivity.
  - repeat constructor.
  - reflexivity.
Defined.

Lemma game_loop_full_cycle_witness :
  exists enc',
    repetitions enc' = 1 /\
    game_loop (Some <$> [(100, 100); (540, 380)]) 80 60
      ([Sample.at_time 0 (Some (120, 90)) (-1); Sample.at_time 1 (Some (500, 400)) (-1)]
         ++ [])
      {| index := 0; encourager := Sample.voice0 10; kill_sent := false |}
    = Pending {| index := 0; encourager := enc'; kill_sent := false |}.
Proof.
  destruct (game_loop_full_cycle (frame := list Sample.blob)
              [(100, 100); (540, 380)] 80 60
              [Sample.at_time 0 (Some (120, 90)) (-1);
               Sample.at_time 1 (Some (500, 400)) (-1)] []
              (Sample.voice0 10) false 10)
    as (enc' & Hinc & Hrep & Hloop).
  - discriminate.
  - repeat constructor; eexists; split; reflexivity.
  - reflexivity.
  - simpl. lia.
  - simpl. lia.
  - exists enc'. split; [exact Hrep|]. refine (eq_trans Hloop _).
    vm_compute in Hinc. injection Hinc as <-. reflexivity.
Defined.

Lemma calibrate_unknown_motion_type_witness :
  exists sm st,
    Sample.SimpleMotionExercise_init default_args (PyInt 7) = inr sm /\
    calibrate sm true [Sample.at_time 0 (Some (5, 5)) (-1)] = Finished st /\
    points st = [].
Proof.
  destruct (Sample.SimpleMotionExercise_init default_args (PyInt 7)) as [e|sm] eqn:E;
    [vm_compute in E; discriminate|].
  assert (Hm : _motion_type sm = PyInt 7)
    by (vm_compute in E; injection E as <-; reflexivity).
  destruct (calibrate_unknown_motion_type sm [Sample.at_time 0 (Some (5, 5)) (-1)] [])
    as (st & Hcal & Hpts & _).
  - rewrite Hm. reflexivity.
  - rewrite Hm. reflexivity.
  - exists sm, st. auto.
Defined.

Lemma start_game_before_calibrate_witness :
  exists ex,
    Sample.Exercise_init (duration_args 0) = inr ex /\
    start_game ex true []
    = Raised (AttributeError "object has no attribute '_calibration_points'").
Proof.
  destruct (Sample.Exercise_init (duration_args 0)) as [e|ex] eqn:E;
    [vm_compute in E; discriminate|].
  exists ex. split; [reflexivity|].
  apply (start_game_before_calibrate (frame := list Sample.blob) Sample.isfile
           Sample.parse_args Sample.ros_up Sample.readlines (duration_args 0) ex [] E).
  vm_compute in E. injection E as <-. reflexivity.
Defined.

Lemma tolerances_ignore_argv_witness :
  exists ex,
    Exercise_init (frame := list Sample.blob) Sample.isfile parse_full_hd
      Sample.ros_up Sample.readlines full_hd_args = inr ex /\
    _camera_width (_video_reader ex) = 1920 /\
    _camera_height (_video_reader ex) = 1080 /\
    _tolerance_x ex = 80 /\ _tolerance_y ex = 60.
Proof.
  destruct (Exercise_init (frame := list Sample.blob) Sample.isfile parse_full_hd
              Sample.ros_up Sample.readlines full_hd_args) as [e|ex] eqn:E;
    [vm_compute in E; discriminate|].
  exists ex. split; [reflexivity|].
  destruct (tolerances_ignore_argv Sample.isfile parse_full_hd Sample.ros_up
              Sample.readlines full_hd_args ex full_hd_argv E eq_refl)
    as (args & w & h & w' & h' & Hargs & Hw' & Hh' & Hrw & Hrh & Hcr & Hx & Hy & _);
    [discriminate|].
  injection Hargs as <-. injection Hw' as <-. injection Hh' as <-.
  injection Hcr as <- <-. auto.
Defined.

Lemma Exercise_init_without_argv_witness :
  exists ex,
    Sample.Exercise_init default_args = inr ex /\
    _time_limit ex = 0 /\ _calibration_points ex = Some [].
Proof.
  destruct (Sample.Exercise_init default_args) as [e|ex] eqn:E;
    [vm_compute in E; discriminate|].
  exists ex. split; [reflexivity|].
  destruct (proj1 (Exercise_init_without_argv (frame := list Sample.blob) Sample.isfile
                     Sample.parse_args Sample.ros_up Sample.readlines
                     default_args ex eq_refl) E)
    as (d & limb & tl & w & h & col & lines & _ & (Hd & _) & _ & (Htl & _) & _ & _ & _
        & _ & _ & ->).
  injection Hd as <-. injection Htl as <-. split; reflexivity.
Defined.

(** ** The exercise request callback of the server *)

(** X24: the exercise request callback never launches an exercise.  With
    an instance already running it only logs.  Otherwise its test reads
    [RotationType._unused] or [MotionType._unused], names the two classes do
    not bind: for a flexion or abduction request, and for an internal or
    external rotation request, it raises AttributeError; for any other
    request it logs the configuration as invalid.  The server is left as it
    was and no parameter is set. *)
Theorem exercise_request_never_launches (self : RosServer.RosServer)
  (data : RosServer.ExerciseInit) :
  match RosServer._exercise_init_callback self data with
  | inr (self', actions) =>
      self' = self /\ (exists msg, actions = [RosServer.loginfo msg]) /\
      (RosServer._exercise_instance self = None ->
       eq_int (RosServer.motion_type data) MotionType.FLEXION = false /\
       eq_int (RosServer.motion_type data) MotionType.ABDUCTION = false /\
       eq_int (RosServer.rotation_type data) RotationType.INTERNAL = false /\
       eq_int (RosServer.rotation_type data) RotationType.EXTERNAL = false)
  | inl e =>
      RosServer._exercise_instance self = None /\
      ((e = AttributeError "class RotationType has no attribute '_unused'" /\
        (eq_int (RosServer.motion_type data) MotionType.FLEXION = true \/
         eq_int (RosServer.motion_type data) MotionType.ABDUCTION = true)) \/
       (e = AttributeError "class MotionType has no attribute '_unused'" /\
        (eq_int (RosServer.rotation_type data) RotationType.INTERNAL = true \/
         eq_int (RosServer.rotation_type data) RotationType.EXTERNAL = true)))
  end.
Proof.
  unfold RosServer._exercise_init_callback.
  destruct (RosServer._exercise_instance self) as [running|] eqn:Hinst.
  { cbn. split; [reflexivity|]. split; [eauto | discriminate]. }
  unfold RosServer.valid_configuration, RosServer.py_or, RosServer.py_and,
    RosServer.eq_attr.
  change (RosServer.MotionType_attr "FLEXION") with (inr MotionType.FLEXION : result Z).
  change (RosServer.MotionType_attr "ABDUCTION") with (inr MotionType.ABDUCTION : result Z).
  change (RosServer.RotationType_attr "INTERNAL") with (inr RotationType.INTERNAL : result Z).
  change (RosServer.RotationType_attr "EXTERNAL") with (inr RotationType.EXTERNAL : result Z).
  change (RosServer.RotationType_attr "_unused")
    with (inl (AttributeError "class RotationType has no attribute '_unused'") : result Z).
  change (RosServer.MotionType_attr "_unused")
    with (inl (AttributeError "class MotionType has no attribute '_unused'") : result Z).
  cbn [mbind result_bind mret result_ret].
  destruct (eq_int (RosServer.motion_type data) MotionType.FLEXION) eqn:Hf;
    cbn [mbind result_bind mret result_ret]; [split; [reflexivity | left; auto]|].
  destruct (eq_int (RosServer.motion_type data) MotionType.ABDUCTION) eqn:Ha;
    cbn [mbind result_bind mret result_ret]; [split; [reflexivity | left; auto]|].
  destruct (eq_int (RosServer.rotation_type data) RotationType.INTERNAL) eqn:Hi;
    cbn [mbind result_bind mret result_ret]; [split; [reflexivity | right; auto]|].
  destruct (eq_int (RosServer.rotation_type data) RotationType.EXTERNAL) eqn:He;
    cbn [mbind result_bind mret result_ret]; [split; [reflexivity | right; auto]|].
  split; [reflexivity|]. split; [eauto | auto].
Qed.

(** ** How long calibration takes *)

Lemma Timer_10_alive (start now : Q) :
  (now < start + (99 # 10))%Q ->
  is_alive (Timer_thread {| seconds := CALIBRATION_DURATION_SECS; started_at := start |}
                         now) = true.
Proof.
  intros H. unfold Timer_thread.
  assert (H10 : (Timer_run_time {| seconds := CALIBRATION_DURATION_SECS;
                                   started_at := start |} == 99 # 10)%Q)
    by (vm_compute; reflexivity).
  destruct (Qltb _ _) eqn:E; [reflexivity|].
  apply Qltb_false in E. cbn [started_at] in E. rewrite H10 in E.
  exfalso. exact (Qlt_not_le _ _ H E).
Qed.

Section CalibrationTime.
Context {frame : Type}.

Local Abbreviation poll := (@poll frame).

Lemma calibrate_loop_waits (n : nat) (start : Q) (polls : list poll) (st : calibration) :
  timer st = TimerObj {| seconds := CALIBRATION_DURATION_SECS; started_at := start |} ->
  points st = [] ->
  Forall (fun p => (now p < start + (99 # 10))%Q) polls ->
  match calibrate_loop n polls st with
  | Finished st' | Pending st' => points st' = []
  | Raised _ => True
  end.
Proof.
  intros Ht Hp Hpolls. revert st Ht Hp.
  induction Hpolls as [|p polls Hnow _ IH]; intros st Ht Hp; simpl.
  - destruct (length (points st) <? n)%nat; exact Hp.
  - destruct (length (points st) <? n)%nat; simpl; [|exact Hp].
    destruct (_img_modified (thread_self (reader p))); [|exact I].
    assert (Hs : store_point p (start_timer p st) = st).
    { unfold start_timer. rewrite Ht. unfold store_point. rewrite Ht.
      now rewrite (Timer_10_alive start (now p) Hnow). }
    rewrite Hs. destruct (show_images p); [exact I|].
    destruct (quits p); [exact Hp|]. apply IH; assumption.
Qed.

(** X25: no calibration point is recorded during the first 9.9 seconds:
    as long as every turn of the loop comes less than 9.9 s after the first
    one (which started the first timer), the calibration set is still empty,
    whatever the duration the exercise was constructed with, also when the
    call returns because a turn quit. *)
Theorem calibrate_waits_for_timer (self : @SimpleMotionExercise frame)
  (p0 : poll) (polls : list poll) :
  Forall (fun p => (now p < now p0 + (99 # 10))%Q) polls ->
  match calibrate self true (p0 :: polls) with
  | Finished st | Pending st => points st = []
  | Raised _ => True
  end.
Proof.
  intros Hpolls. unfold calibrate. cbn [negb].
  set (n := number_of_calibration_points (_motion_type self)).
  set (s0 := {| points := []; timer := TimerZero;
                voice := say _ (_encourager (exercise self)) |}).
  assert (H : match calibrate_loop n (p0 :: polls) s0 with
              | Finished st' | Pending st' => points st' = []
              | Raised _ => True
              end).
  { cbn [calibrate_loop]. destruct (length (points s0) <? n)%nat; [|reflexivity].
    cbn [negb]. destruct (_img_modified (thread_self (reader p0))); [|exact I].
    assert (Hnow : (now p0 < now p0 + (99 # 10))%Q).
    { rewrite <- (Qplus_0_r (now p0)) at 1. apply Qplus_lt_r. reflexivity. }
    assert (Hs : store_point p0 (start_timer p0 s0)
                 = {| points := [];
                      timer := TimerObj {| seconds := CALIBRATION_DURATION_SECS;
                                           started_at := now p0 |};
                      voice := voice s0 |}).
    { unfold start_timer, store_point, s0. cbn [timer points voice length Nat.ltb Nat.leb].
      now rewrite (Timer_10_alive (now p0) (now p0) Hnow). }
    rewrite Hs. destruct (show_images p0); [exact I|].
    destruct (quits p0); [reflexivity|].
    apply (calibrate_loop_waits n (now p0)); [reflexivity | reflexivity | exact Hpolls]. }
  destruct (calibrate_loop n (p0 :: polls) s0); exact H.
Qed.

End CalibrationTime.

Lemma calibrate_waits_for_timer_witness :
  exists sm st,
    Sample.SimpleMotionExercise_init (duration_args 0) (PyInt MotionType.FLEXION)
    = inr sm /\
    calibrate sm true [Sample.at_time 0 (Some (5, 5)) (-1);
                       Sample.at_time 5 (Some (5, 5)) (-1);
                       Sample.at_time 9 (Some (5, 5)) (-1)] = Pending st /\
    points st = [].
Proof.
  destruct (Sample.SimpleMotionExercise_init (duration_args 0) (PyInt MotionType.FLEXION))
    as [e|sm] eqn:E; [vm_compute in E; discriminate|].
  pose proof (calibrate_waits_for_timer sm (Sample.at_time 0 (Some (5, 5)) (-1))
                [Sample.at_time 5 (Some (5, 5)) (-1);
                 Sample.at_time 9 (Some (5, 5)) (-1)]) as H.
  destruct (calibrate sm true _) as [st|st|e] eqn:Hcal.
  - exfalso. vm_compute in E. injection E as <-. vm_compute in Hcal. discriminate Hcal.
  - exists sm, st. split; [reflexivity|]. split; [exact Hcal|].
    apply H. repeat constructor.
  - exfalso. vm_compute in E. injection E as <-. vm_compute in Hcal. discriminate Hcal.
Defined.

(** ** A run of the calibration loop *)

Lemma Timer_10_dead (start now : Q) :
  (start + (99 # 10) <= now)%Q ->
  is_alive (Timer_thread {| seconds := CALIBRATION_DURATION_SECS; started_at := start |}
                         now) = false.
Proof.
  intros H. unfold Timer_thread.
  assert (H10 : (Timer_run_time {| seconds := CALIBRATION_DURATION_SECS;
                                   started_at := start |} == 99 # 10)%Q)
    by (vm_compute; reflexivity).
  destruct (Qltb _ _) eqn:E; [|reflexivity].
  apply Qltb_true in E. cbn [started_at] in E. rewrite H10 in E.
  exfalso. exact (Qlt_not_le _ _ E H).
Qed.

Lemma Timer_10_just_started (start : Q) :
  is_alive (Timer_thread {| seconds := CALIBRATION_DURATION_SECS; started_at := start |}
                         start) = true.
Proof.
  apply Timer_10_alive. rewrite <- (Qplus_0_r start) at 1.
  apply Qplus_lt_r. reflexivity.
Qed.

Section CalibrationRun.
Context {frame : Type}.

Local Abbreviation poll := (@poll frame).

(** One turn of the loop at which both images exist. *)
Lemma calibrate_loop_turn (n : nat) (p : poll) (polls : list poll) (st : calibration) :
  (length (points st) < n)%nat ->
  show_images p = inr tt ->
  calibrate_loop n (p :: polls) st
  = if quits p then Finished (store_point p (start_timer p st))
    else calibrate_loop n polls (store_point p (start_timer p st)).
Proof.
  intros Hlt Hshow. cbn [calibrate_loop].
  apply Nat.ltb_lt in Hlt. rewrite Hlt. cbn [negb]. rewrite Hshow.
  revert Hshow. unfold show_images.
  destruct (_img_original _); [|discriminate].
  destruct (_img_modified _); [|discriminate]. reflexivity.
Qed.

Lemma calibrate_loop_full (n : nat) (polls : list poll) (st : calibration) :
  (n <= length (points st))%nat -> calibrate_loop n polls st = Finished st.
Proof.
  intros Hle. apply Nat.ltb_ge in Hle.
  destruct polls; cbn [calibrate_loop]; now rewrite Hle.
Qed.

(** A turn that finds no timer starts one and stores nothing. *)
Lemma store_point_just_started (p : poll) (st : calibration) :
  timer st = TimerZero \/ timer st = TimerNone ->
  store_point p (start_timer p st)
  = {| points := points st;
       timer := TimerObj {| seconds := CALIBRATION_DURATION_SECS; started_at := now p |};
       voice := if (0 <? length (points st))%nat then say msg_next (voice st)
                else voice st |}.
Proof.
  intros Ht. unfold store_point.
  rewrite (start_timer_seconds p st Ht), Timer_10_just_started. cbn [negb].
  unfold start_timer. destruct Ht as [-> | ->]; reflexivity.
Qed.

(** Turns that come while the timer runs leave the loop where it was. *)
Lemma calibrate_loop_skips (n : nat) (start : Q) (w more : list poll) (st : calibration) :
  timer st = TimerObj {| seconds := CALIBRATION_DURATION_SECS; started_at := start |} ->
  (length (points st) < n)%nat ->
  Forall (fun p => watching p /\ (now p < start + (99 # 10))%Q) w ->
  calibrate_loop n (w ++ more) st = calibrate_loop n more st.
Proof.
  intros Ht Hlt Hw. induction Hw as [|p w [[Hshow Hq] Hnow] _ IH]; [reflexivity|].
  rewrite <- app_comm_cons, (calibrate_loop_turn n p _ st Hlt Hshow), Hq.
  assert (Hs : store_point p (start_timer p st) = st).
  { unfold start_timer. rewrite Ht. unfold store_point. rewrite Ht.
    now rewrite (Timer_10_alive start (now p) Hnow). }
  rewrite Hs. exact IH.
Qed.

(** The loop for two points, over a timeline on which each of two timers
    runs out. *)
Lemma calibrate_loop_two_points (p0 p1 p2 p3 : poll) (w1 w2 rest : list poll)
  (v : EncouragerUnit) :
  watching p0 ->
  Forall (fun p => watching p /\ (now p < now p0 + (99 # 10))%Q) w1 ->
  watching p1 -> (now p0 + (99 # 10) <= now p1)%Q ->
  watching p2 ->
  Forall (fun p => watching p /\ (now p < now p2 + (99 # 10))%Q) w2 ->
  show_images p3 = inr tt -> (now p2 + (99 # 10) <= now p3)%Q ->
  calibrate_loop 2 (p0 :: w1 ++ p1 :: p2 :: w2 ++ p3 :: rest)
    {| points := []; timer := TimerZero; voice := v |}
  = Finished {| points := [_center (thread_self (reader p1));
                           _center (thread_self (reader p3))];
                timer := TimerNone; voice := say msg_next v |}.
Proof.
  intros [Hs0 Hq0] Hw1 [Hs1 Hq1] Ht1 [Hs2 Hq2] Hw2 Hs3 Ht3.
  rewrite calibrate_loop_turn; [|cbn; lia|exact Hs0].
  rewrite Hq0, store_point_just_started by (left; reflexivity).
  cbn [points voice length Nat.ltb Nat.leb].
  rewrite (calibrate_loop_skips 2 (now p0) w1); [|reflexivity|cbn; lia|exact Hw1].
  rewrite calibrate_loop_turn; [|cbn; lia|exact Hs1].
  rewrite Hq1. unfold start_timer at 1. cbn [timer].
  rewrite (store_point_elapsed p1 _
             {| seconds := CALIBRATION_DURATION_SECS; started_at := now p0 |});
    [|reflexivity|exact (Timer_10_dead _ _ Ht1)].
  cbn [points voice app].
  rewrite calibrate_loop_turn; [|cbn; lia|exact Hs2].
  rewrite Hq2, store_point_just_started by (right; reflexivity).
  cbn [points voice length Nat.ltb Nat.leb].
  rewrite (calibrate_loop_skips 2 (now p2) w2); [|reflexivity|cbn; lia|exact Hw2].
  rewrite calibrate_loop_turn; [|cbn; lia|exact Hs3].
  unfold start_timer at 1 2. cbn [timer].
  rewrite (store_point_elapsed p3 _
             {| seconds := CALIBRATION_DURATION_SECS; started_at := now p2 |});
    [|reflexivity|exact (Timer_10_dead _ _ Ht3)].
  cbn [points voice app].
  destruct (quits p3); [reflexivity|].
  apply calibrate_loop_full. cbn. lia.
Qed.

(** C4 (amended): at a turn of the calibration loop that finds the dwell
    timer run out, the marker centre of that turn is appended to the
    calibration set as it is, None included, and the timer is dropped; a turn
    that finds the timer running stores nothing, and a turn that finds no
    timer starts a Timer(10).  The loop stops once N points are recorded, N
    being 2 for flexion and abduction, and it stops earlier, with fewer, at a
    turn where the q key is down or the capture thread is not alive: a call
    that returned has N points or went through such a turn, and one still in
    the loop has fewer than N.  On a timeline on which two timers run out
    with nothing quitting, the call returns with the two centres seen at
    those turns. *)
Theorem calibrate_records_center :
  (forall (p : poll) (st : calibration) (t : Timer),
      timer st = TimerObj t ->
      is_alive (Timer_thread t (now p)) = false ->
      points (store_point p st)
      = (points st ++ [_center (thread_self (reader p))])%list)
  /\ (forall n (p : poll) polls st t,
        (length (points st) < n)%nat -> show_images p = inr tt ->
        timer st = TimerObj t ->
        is_alive (Timer_thread t (now p)) = false ->
        calibrate_loop n (p :: polls) st
        = if quits p
          then Finished {| points := points st ++ [_center (thread_self (reader p))];
                           timer := TimerNone; voice := voice st |}
          else calibrate_loop n polls
                 {| points := points st ++ [_center (thread_self (reader p))];
                    timer := TimerNone; voice := voice st |})
  /\ (forall n (p : poll) polls st t,
        (length (points st) < n)%nat -> show_images p = inr tt ->
        timer st = TimerObj t ->
        is_alive (Timer_thread t (now p)) = true ->
        calibrate_loop n (p :: polls) st
        = if quits p then Finished st else calibrate_loop n polls st)
  /\ (forall n (p : poll) polls st,
        (length (points st) < n)%nat -> show_images p = inr tt ->
        timer st = TimerZero \/ timer st = TimerNone ->
        points (start_timer p st) = points st /\
        timer (start_timer p st)
        = TimerObj {| seconds := 10; started_at := now p |} /\
        calibrate_loop n (p :: polls) st
        = if quits p then Finished (start_timer p st)
          else calibrate_loop n polls (start_timer p st))
  /\ (forall n (p : poll) polls st,
        (length (points st) < n)%nat -> show_images p = inr tt ->
        quits p = true ->
        calibrate_loop n (p :: polls) st = Finished (store_point p (start_timer p st)))
  /\ (forall n (polls : list poll) st,
        (n <= length (points st))%nat -> calibrate_loop n polls st = Finished st)
  /\ number_of_calibration_points (PyInt MotionType.FLEXION) = 2%nat
  /\ number_of_calibration_points (PyInt MotionType.ABDUCTION) = 2%nat
  /\ (forall (self : @SimpleMotionExercise frame) (polls : list poll) (st : calibration),
        calibrate self true polls = Finished st ->
        length (points st) = number_of_calibration_points (_motion_type self) \/
        ((length (points st) < number_of_calibration_points (_motion_type self))%nat
         /\ Exists (fun p => quits p = true) polls))
  /\ (forall (self : @SimpleMotionExercise frame) (polls : list poll) (st : calibration),
        calibrate self true polls = Pending st ->
        (length (points st) < number_of_calibration_points (_motion_type self))%nat)
  /\ (forall (self : @SimpleMotionExercise frame) (p0 p1 p2 p3 : poll)
             (w1 w2 rest : list poll),
        _motion_type self = PyInt MotionType.FLEXION \/
        _motion_type self = PyInt MotionType.ABDUCTION ->
        watching p0 ->
        Forall (fun p => watching p /\ (now p < now p0 + (99 # 10))%Q) w1 ->
        watching p1 -> (now p0 + (99 # 10) <= now p1)%Q ->
        watching p2 ->
        Forall (fun p => watching p /\ (now p < now p2 + (99 # 10))%Q) w2 ->
        show_images p3 = inr tt -> (now p2 + (99 # 10) <= now p3)%Q ->
        exists st,
          calibrate self true (p0 :: w1 ++ p1 :: p2 :: w2 ++ p3 :: rest) = Finished st /\
          points st = [_center (thread_self (reader p1));
                       _center (thread_self (reader p3))]).
Proof.
  split; [|split; [|split; [|split; [|split; [|split; [|split; [|split;
    [|split; [|split]]]]]]]]]; try reflexivity.
  - intros p st t Ht Hdead. now rewrite (store_point_elapsed p st t Ht Hdead).
  - intros n p polls st t Hlt Hshow Ht Hdead.
    rewrite (calibrate_loop_turn n p polls st Hlt Hshow).
    assert (Hs : start_timer p st = st) by (unfold start_timer; now rewrite Ht).
    now rewrite Hs, (store_point_elapsed p st t Ht Hdead).
  - intros n p polls st t Hlt Hshow Ht Halive.
    rewrite (calibrate_loop_turn n p polls st Hlt Hshow).
    assert (Hs : start_timer p st = st) by (unfold start_timer; now rewrite Ht).
    now rewrite Hs, (store_point_running p st t Ht Halive).
  - intros n p polls st Hlt Hshow Ht.
    split; [apply start_timer_points|]. split; [now apply start_timer_seconds|].
    rewrite (calibrate_loop_turn n p polls st Hlt Hshow).
    assert (Hs : store_point p (start_timer p st) = start_timer p st).
    { rewrite (store_point_just_started p st Ht).
      unfold start_timer. destruct Ht as [-> | ->]; reflexivity. }
    now rewrite Hs.
  - intros n p polls st Hlt Hshow Hq.
    now rewrite (calibrate_loop_turn n p polls st Hlt Hshow), Hq.
  - intros n polls st Hle. now apply calibrate_loop_full.
  - intros self polls st. unfold calibrate. simpl.
    match goal with
    | |- context [calibrate_loop ?n polls ?s] =>
        pose proof (calibrate_loop_length n polls s (Nat.le_0_l _)) as H;
        destruct (calibrate_loop n polls s)
    end; try discriminate.
    intros [= <-]. exact H.
  - intros self polls st. unfold calibrate. simpl.
    match goal with
    | |- context [calibrate_loop ?n polls ?s] =>
        pose proof (calibrate_loop_length n polls s (Nat.le_0_l _)) as H;
        destruct (calibrate_loop n polls s)
    end; try discriminate.
    intros [= <-]. exact H.
  - intros self p0 p1 p2 p3 w1 w2 rest Hmotion H0 Hw1 H1 Ht1 H2 Hw2 H3 Ht3.
    assert (Hn : number_of_calibration_points (_motion_type self) = 2%nat)
      by (destruct Hmotion as [-> | ->]; reflexivity).
    unfold calibrate. cbn [negb]. rewrite Hn.
    rewrite (calibrate_loop_two_points p0 p1 p2 p3 w1 w2 rest _
               H0 Hw1 H1 Ht1 H2 Hw2 H3 Ht3).
    eexists. split; reflexivity.
Qed.

End CalibrationRun.

(** A flexion exercise: the first timer starts at 0 and is still running at
    5 s; at 10 s it has run out and the marker is lost, so None is recorded;
    the second timer starts at 11 s and has run out at 21 s, where (7, 7) is
    recorded and the call returns. *)
Lemma calibrate_records_center_witness :
  exists sm st,
    Sample.SimpleMotionExercise_init default_args (PyInt MotionType.FLEXION) = inr sm /\
    calibrate sm true
      (Sample.at_time 0 (Some (5, 5)) (-1)
       :: [Sample.at_time 5 (Some (5, 5)) (-1)]
       ++ Sample.at_time 10 None (-1)
       :: Sample.at_time 11 (Some (7, 7)) (-1)
       :: [] ++ Sample.at_time 21 (Some (7, 7)) (-1) :: [])
    = Finished st /\
    points st = [None; Some (7, 7)].
Proof.
  eexists. 
  match goal with
  | |- exists st, ?init = inr ?sm /\ _ =>
      assert (E : init = inr sm) by reflexivity
  end.
  match type of E with
  | _ = inr ?sm =>
      destruct (proj2 (proj2 (proj2 (proj2 (proj2 (proj2 (proj2 (proj2 (proj2 (proj2
                 (calibrate_records_center (frame := list Sample.blob))))))))))) sm
                 (Sample.at_time 0 (Some (5, 5)) (-1))
                 (Sample.at_time 10 None (-1))
                 (Sample.at_time 11 (Some (7, 7)) (-1))
                 (Sample.at_time 21 (Some (7, 7)) (-1))
                 [Sample.at_time 5 (Some (5, 5)) (-1)] [] [])
        as (st & Hcal & Hpoints)
  end.
  - left. reflexivity.
  - split; reflexivity.
  - constructor; [|constructor]. split; [split; reflexivity|]. reflexivity.
  - split; reflexivity.
  - cbn. unfold Qle. cbn. lia.
  - split; reflexivity.
  - constructor.
  - reflexivity.
  - cbn. unfold Qle. cbn. lia.
  - exists st. split; [exact E|]. split; [exact Hcal | exact Hpoints].
Defined.
